(** * Dialogue engine: story state store, persistence codec, coordinator

    A shallow embedding of the Python sources
    - [models.py]                        (pydantic data models),
    - [agents/llms.py]                   ([LLM_Model], [Text_Generator]),
    - [agents/npc_agent.py]              ([NPCAgent]),
    - [story/story_manager.py]           ([StoryManager]),
    - [orchestrator/game_orchestrator.py] ([GameOrchestrator]),
    followed by the properties of the specification that are checked
    against it.

    Conventions.  Python exceptions are made explicit with the [outcome]
    type; a method that mutates [self] returns the new object, and a
    call that raises gives the exception only: what it had changed
    before is not part of its result, and no property speaks of the
    state a raising call leaves behind.  The wall clock
    ([datetime.now()]) and the remote chat-completion endpoint are
    inputs.  Dictionaries typed [dict[str, Any]] are insertion-ordered
    association lists, the two name-indexed tables ([npcs],
    [npc_memories]) are [gmap]s.  A [str] is held by its UTF-8 bytes.

    Objects are values, and the sharing of one object by two owners is
    made explicit where the operations of the repository can bring it
    about and show it:
    - the setters of the store keep the list object they are handed, so
      [plot_points] and [active_goals] can be one list
      ([StoryState.assignable_lists], [list_object]);
    - the store is handed the memory object of an agent, so a change of
      the agent's memory can be a change of the store's entry
      ([GameOrchestrator.registered]).
    The settings object is shared by coordinator and store as well;
    the one method that changes it in place, [set_settings], is not
    part of the model, and each owner has its value here. *)

From Stdlib Require Import ZArith Lia Ascii String.
From stdpp Require Import base option list strings gmap fin_maps.

Set Warnings "-register-all,-abstract-large-number".

(* ===================================================================== *)
(** ** Exceptions                                                         *)
(* ===================================================================== *)

Module Py.

(** The exception classes that occur in the modelled code.  [APIError]
    stands for whatever [Exception] the chat-completion client raises. *)
Inductive exn : Type :=
| TypeError (msg : string)
| ValueError (msg : string)
| KeyError (msg : string)
| AttributeError (msg : string)
| IndexError (msg : string)
| ValidationError (msg : string)
| ImportError (msg : string)
| APIError (msg : string).

(** [str(e)] *)
Definition exn_str (e : exn) : string :=
  match e with
  | TypeError m | ValueError m | KeyError m | AttributeError m
  | IndexError m | ValidationError m | ImportError m | APIError m => m
  end.

Inductive outcome (A : Type) : Type :=
| Ret (a : A)
| Raise (e : exn).
Arguments Ret {A} a.
Arguments Raise {A} e.

Definition bind {A B} (m : outcome A) (k : A -> outcome B) : outcome B :=
  match m with
  | Ret a => k a
  | Raise e => Raise e
  end.

(** [try: body except Exception as e: handler(e)] *)
Definition try_except {A} (body : outcome A) (handler : exn -> outcome A)
  : outcome A :=
  match body with
  | Ret a => Ret a
  | Raise e => handler e
  end.

Definition returns {A} (m : outcome A) : Prop := exists a, m = Ret a.

(** Sequencing a list of computations, left to right. *)
Fixpoint traverse {A B} (f : A -> outcome B) (l : list A) : outcome (list B) :=
  match l with
  | [] => Ret []
  | x :: l' =>
      bind (f x) (fun y => bind (traverse f l') (fun ys => Ret (y :: ys)))
  end.

End Py.
Export Py.

Declare Scope outcome_scope.
Delimit Scope outcome_scope with outcome.
Notation "'let*' x ':=' m 'in' k" := (Py.bind m (fun x => k))
  (at level 10, x name, m at level 100, k at level 200) : outcome_scope.
Notation "'let*' ' pat ':=' m 'in' k" :=
  (Py.bind m (fun x => match x with pat => k end))
  (at level 10, pat pattern, m at level 100, k at level 200) : outcome_scope.
Open Scope outcome_scope.

(* ===================================================================== *)
(** ** Enumerations                                                       *)
(* ===================================================================== *)

(** [agents/llms.py], class [LLM_Model(Enum)]. *)
Inductive LLM_Model : Type :=
| GPT_41_MINI
| GPT_OSS_OLLAMA
| GPT_OSS_OPEN
| DEEPSEEK_V3
| DEEPSEEK_V3_OLLAMA.

(** [model.value] *)
Definition LLM_Model_value (m : LLM_Model) : string :=
  match m with
  | GPT_41_MINI => "gpt-4.1-mini"
  | GPT_OSS_OLLAMA => "gpt-oss:20b-cloud"
  | GPT_OSS_OPEN => "openai/gpt-oss-20b"
  | DEEPSEEK_V3 => "deepseek/deepseek-chat-v3-0324"
  | DEEPSEEK_V3_OLLAMA => "deepseek-v3.1:671b-cloud"
  end.

(** Iteration order of [for model in LLM_Model]: definition order. *)
Definition LLM_Model_members : list LLM_Model :=
  [GPT_41_MINI; GPT_OSS_OLLAMA; GPT_OSS_OPEN; DEEPSEEK_V3; DEEPSEEK_V3_OLLAMA].

Global Instance LLM_Model_eq_dec : EqDecision LLM_Model.
Proof. solve_decision. Defined.

(** [models.py], class [ActionType(str, Enum)]. *)
Inductive ActionType : Type :=
| DIALOGUE
| MOVEMENT
| EMOTION
| INTERACTION
| STORY_EVENT.

Definition ActionType_value (a : ActionType) : string :=
  match a with
  | DIALOGUE => "dialogue"
  | MOVEMENT => "movement"
  | EMOTION => "emotion"
  | INTERACTION => "interaction"
  | STORY_EVENT => "story_event"
  end.

(** [a.name] *)
Definition ActionType_name (a : ActionType) : string :=
  match a with
  | DIALOGUE => "DIALOGUE"
  | MOVEMENT => "MOVEMENT"
  | EMOTION => "EMOTION"
  | INTERACTION => "INTERACTION"
  | STORY_EVENT => "STORY_EVENT"
  end.

Definition ActionType_members : list ActionType :=
  [DIALOGUE; MOVEMENT; EMOTION; INTERACTION; STORY_EVENT].

Global Instance ActionType_eq_dec : EqDecision ActionType.
Proof. solve_decision. Defined.

(** [ActionType[key]]: lookup of a member by its name, [KeyError] on a
    miss. *)
Definition ActionType_getitem (key : string) : outcome ActionType :=
  match List.find (fun a => bool_decide (ActionType_name a = key)) ActionType_members with
  | Some a => Ret a
  | None => Raise (KeyError key)
  end.

(** The member whose value is [s], if any: what pydantic accepts for a
    field of type [ActionType] when it is handed a string. *)
Definition ActionType_of_value (s : string) : option ActionType :=
  List.find (fun a => bool_decide (ActionType_value a = s)) ActionType_members.

(* ===================================================================== *)
(** ** Strings                                                            *)
(* ===================================================================== *)

Module Str.

(** A Python [str] is a sequence of code points; a [string] here holds
    its UTF-8 encoding, one [ascii] per byte.  Comparison,
    concatenation and the tests on ASCII characters act on the bytes
    as they act on the code points; the operations that depend on what
    a code point is (case mapping, white space, slicing by position)
    decode as far as they have to. *)

Fixpoint bytes (l : list nat) : string :=
  match l with
  | [] => EmptyString
  | n :: l' => String (ascii_of_nat n) (bytes l')
  end.

Definition upper_ascii (c : ascii) : ascii :=
  let n := nat_of_ascii c in
  if (97 <=? n)%nat && (n <=? 122)%nat then ascii_of_nat (n - 32) else c.

(** The code points outside ASCII whose upper-case form is made of
    ASCII letters: U+0131 (dotless i), U+017F (long s), U+00DF (sharp
    s), in two bytes, and the ligatures U+FB00 to U+FB06, in three. *)
Definition upper2 (a b : ascii) : option string :=
  match nat_of_ascii a, nat_of_ascii b with
  | 196, 177 => Some "I"
  | 197, 191 => Some "S"
  | 195, 159 => Some "SS"
  | _, _ => None
  end%nat.

Definition upper3 (a b c : ascii) : option string :=
  match nat_of_ascii a, nat_of_ascii b, nat_of_ascii c with
  | 239, 172, 128 => Some "FF"
  | 239, 172, 129 => Some "FI"
  | 239, 172, 130 => Some "FL"
  | 239, 172, 131 => Some "FFI"
  | 239, 172, 132 => Some "FFL"
  | 239, 172, 133 => Some "ST"
  | 239, 172, 134 => Some "ST"
  | _, _, _ => None
  end%nat.

(** [s.upper()], exact wherever the result is an ASCII text: ASCII
    letters and the ten code points above are mapped as Unicode maps
    them.  Every other code point is kept as it is, where Python may
    put another code point outside ASCII in its place; so the result
    equals a given ASCII text here exactly when it does in Python,
    which is what the lookup of a member name needs. *)
Fixpoint upper (s : string) : string :=
  match s with
  | EmptyString => EmptyString
  | String a s1 =>
      let plain := String (upper_ascii a) (upper s1) in
      match s1 with
      | EmptyString => plain
      | String b s2 =>
          match upper2 a b with
          | Some u => u +:+ upper s2
          | None =>
              match s2 with
              | EmptyString => plain
              | String c s3 =>
                  match upper3 a b c with
                  | Some u => u +:+ upper s3
                  | None => plain
                  end
              end
          end
      end
  end.

(** [s.startswith(c)] and [s.endswith(c)] for a one-character [c]. *)
Definition startswith (c : ascii) (s : string) : bool :=
  match s with
  | String c' _ => bool_decide (c' = c)
  | EmptyString => false
  end.

Fixpoint endswith (c : ascii) (s : string) : bool :=
  match s with
  | EmptyString => false
  | String c' EmptyString => bool_decide (c' = c)
  | String _ s' => endswith c s'
  end.

Fixpoint drop_last (s : string) : string :=
  match s with
  | EmptyString => EmptyString
  | String _ EmptyString => EmptyString
  | String c s' => String c (drop_last s')
  end.

(** [s[1:-1]] for a text whose first and last characters are ASCII. *)
Definition strip_ends (s : string) : string :=
  match s with
  | EmptyString => EmptyString
  | String _ s' => drop_last s'
  end.

(** The white space of [str.strip()]: the code points U+0009 to U+000D,
    U+001C to U+0020, U+0085, U+00A0, U+1680, U+2000 to U+200A, U+2028,
    U+2029, U+202F, U+205F and U+3000, each in its encoding. *)
Definition whitespace : list string :=
  map bytes
    [[9]; [10]; [11]; [12]; [13]; [28]; [29]; [30]; [31]; [32];
     [194; 133]; [194; 160]; [225; 154; 128];
     [226; 128; 128]; [226; 128; 129]; [226; 128; 130]; [226; 128; 131];
     [226; 128; 132]; [226; 128; 133]; [226; 128; 134]; [226; 128; 135];
     [226; 128; 136]; [226; 128; 137]; [226; 128; 138];
     [226; 128; 168]; [226; 128; 169]; [226; 128; 175];
     [226; 129; 159]; [227; 128; 128]].

Definition is_space (s : string) : bool := bool_decide (s ∈ whitespace).

(** [s.lstrip()]: white space is of one, two or three bytes. *)
Fixpoint lstrip (s : string) : string :=
  match s with
  | EmptyString => EmptyString
  | String a s1 =>
      if is_space (String a EmptyString) then lstrip s1
      else
        match s1 with
        | EmptyString => s
        | String b s2 =>
            if is_space (String a (String b EmptyString)) then lstrip s2
            else
              match s2 with
              | EmptyString => s
              | String c s3 =>
                  if is_space (String a (String b (String c EmptyString)))
                  then lstrip s3 else s
              end
        end
  end.

(** [s.rstrip()]: what is left of the tail, with the byte in front of
    it, is dropped when it is one white space character. *)
Fixpoint rstrip (s : string) : string :=
  match s with
  | EmptyString => EmptyString
  | String c s' =>
      let r := String c (rstrip s') in
      if is_space r then EmptyString else r
  end.

(** [s.strip()] *)
Definition strip (s : string) : string := rstrip (lstrip s).

(** A byte that continues the encoding of a code point. *)
Definition is_continuation (c : ascii) : bool :=
  let n := nat_of_ascii c in (128 <=? n)%nat && (n <? 192)%nat.

(** [s[:n]]: the first [n] code points. *)
Fixpoint take_chars (n : nat) (s : string) {struct s} : string :=
  match s with
  | EmptyString => EmptyString
  | String c s' =>
      if is_continuation c then String c (take_chars n s')
      else
        match n with
        | O => EmptyString
        | S n' => String c (take_chars n' s')
        end
  end.

End Str.

(* ===================================================================== *)
(** ** Points in time                                                     *)
(* ===================================================================== *)

Module Datetime.

(** A naive [datetime.datetime] (what [datetime.now()] returns). *)
Record datetime : Type := mk_datetime {
  year : N;
  month : N;
  day : N;
  hour : N;
  minute : N;
  second : N;
  microsecond : N
}.

Global Instance datetime_eq_dec : EqDecision datetime.
Proof. solve_decision. Defined.

Definition is_leap (y : N) : bool :=
  ((y mod 4 =? 0) && negb (y mod 100 =? 0))%N || (y mod 400 =? 0)%N.

Definition days_in_month (y m : N) : N :=
  (if m =? 2 then (if is_leap y then 29 else 28)
   else if (m =? 4) || (m =? 6) || (m =? 9) || (m =? 11) then 30
   else 31)%N.

(** The ranges the [datetime] constructor enforces. *)
Definition valid (d : datetime) : bool :=
  ((1 <=? year d) && (year d <=? 9999) &&
   (1 <=? month d) && (month d <=? 12) &&
   (1 <=? day d) && (day d <=? days_in_month (year d) (month d)) &&
   (hour d <? 24) && (minute d <? 60) && (second d <? 60) &&
   (microsecond d <? 1000000))%N.

Definition digit (n : N) : ascii := ascii_of_N (48 + n).

Definition digit_val (c : ascii) : option N :=
  let n := N_of_ascii c in
  if ((48 <=? n) && (n <=? 57))%N then Some (n - 48)%N else None.

(** [pad_to k n rest]: the [k] low decimal digits of [n], zero padded,
    in front of [rest] (the [%0kd] of the format). *)
Fixpoint pad_to (k : nat) (n : N) (rest : string) : string :=
  match k with
  | O => rest
  | S k' => pad_to k' (n / 10)%N (String (digit (n mod 10)%N) rest)
  end.

(** [d.isoformat()]: [YYYY-MM-DDTHH:MM:SS], followed by [.ffffff] when
    the microsecond field is not zero. *)
Definition isoformat (d : datetime) : string :=
  pad_to 4 (year d) (String "-" (
  pad_to 2 (month d) (String "-" (
  pad_to 2 (day d) (String "T" (
  pad_to 2 (hour d) (String ":" (
  pad_to 2 (minute d) (String ":" (
  pad_to 2 (second d)
    (if (microsecond d =? 0)%N then EmptyString
     else String "." (pad_to 6 (microsecond d) EmptyString)))))))))))).

Fixpoint read_digits (k : nat) (s : string) (acc : N) : option (N * string) :=
  match k with
  | O => Some (acc, s)
  | S k' =>
      match s with
      | String c s' =>
          match digit_val c with
          | Some v => read_digits k' s' (10 * acc + v)%N
          | None => None
          end
      | EmptyString => None
      end
  end.

Definition expect (c : ascii) (s : string) : option string :=
  match s with
  | String c' s' => if bool_decide (c' = c) then Some s' else None
  | EmptyString => None
  end.

Definition read_fraction (s : string) : option N :=
  match s with
  | EmptyString => Some 0%N
  | String c s' =>
      if bool_decide (c = "."%char) then
        match read_digits 6 s' 0 with
        | Some (us, EmptyString) => Some us
        | _ => None
        end
      else None
  end.

(** Parsing of a point in time out of its ISO-8601 text, as the
    validation of a [datetime] field does.  The two layouts [isoformat]
    writes are recognised; the further spellings pydantic tolerates
    (a space for [T], a zone suffix, a bare date, a number) are
    rejected here. *)
Definition fromisoformat (s : string) : option datetime :=
  '(y, s) ← read_digits 4 s 0;
  s ← expect "-" s;
  '(mo, s) ← read_digits 2 s 0;
  s ← expect "-" s;
  '(dd, s) ← read_digits 2 s 0;
  s ← expect "T" s;
  '(hh, s) ← read_digits 2 s 0;
  s ← expect ":" s;
  '(mi, s) ← read_digits 2 s 0;
  s ← expect ":" s;
  '(ss, s) ← read_digits 2 s 0;
  us ← read_fraction s;
  let d := mk_datetime y mo dd hh mi ss us in
  if valid d then Some d else None.

End Datetime.
Export Datetime.

(* ===================================================================== *)
(** ** Python values and JSON documents                                   *)
(* ===================================================================== *)

Module Value.

(** A Python [float], kept as the text [repr] gives for it: this is
    what [json.dump] writes and what [json.load] reads back to the same
    float. *)
Record pyfloat : Type := PyFloat { float_repr : string }.

Global Instance pyfloat_eq_dec : EqDecision pyfloat.
Proof. solve_decision. Defined.

(** The objects that are stored in the fields typed [Any]: the JSON
    compatible values, and the two kinds of other object the code
    itself puts or expects there, [datetime] and [LLM_Model] members. *)
Inductive pyval : Type :=
| VNone
| VBool (b : bool)
| VInt (z : Z)
| VFloat (f : pyfloat)
| VStr (s : string)
| VList (l : list pyval)
| VDict (d : list (string * pyval))
| VDatetime (t : datetime)
| VEnum (m : LLM_Model).

Abbreviation pydict := (list (string * pyval)).

Section pyval_induction.
Variable P : pyval -> Prop.
Hypothesis HNone : P VNone.
Hypothesis HBool : forall b, P (VBool b).
Hypothesis HInt : forall z, P (VInt z).
Hypothesis HFloat : forall f, P (VFloat f).
Hypothesis HStr : forall s, P (VStr s).
Hypothesis HList : forall l, Forall P l -> P (VList l).
Hypothesis HDict : forall d, Forall (fun kv => P (snd kv)) d -> P (VDict d).
Hypothesis HDatetime : forall t, P (VDatetime t).
Hypothesis HEnum : forall m, P (VEnum m).

Fixpoint pyval_nested_ind (v : pyval) : P v :=
  match v with
  | VNone => HNone
  | VBool b => HBool b
  | VInt z => HInt z
  | VFloat f => HFloat f
  | VStr s => HStr s
  | VList l =>
      HList l ((fix go (l : list pyval) : Forall P l :=
                  match l with
                  | [] => Forall_nil_2 P
                  | x :: l' => Forall_cons_2 P x l' (pyval_nested_ind x) (go l')
                  end) l)
  | VDict d =>
      HDict d ((fix go (d : pydict) : Forall (fun kv => P (snd kv)) d :=
                  match d with
                  | [] => Forall_nil_2 _
                  | kv :: d' =>
                      Forall_cons_2 (fun kv => P (snd kv)) kv d'
                        (pyval_nested_ind (snd kv)) (go d')
                  end) d)
  | VDatetime t => HDatetime t
  | VEnum m => HEnum m
  end.
End pyval_induction.

(** *** Insertion-ordered dictionaries with string keys *)

(** [d.get(k)] *)
Fixpoint dict_get {A} (k : string) (d : list (string * A)) : option A :=
  match d with
  | [] => None
  | (k', v) :: d' => if decide (k' = k) then Some v else dict_get k d'
  end.

(** [d[k] = v]: overwrite in place, or append a new key. *)
Fixpoint dict_set {A} (k : string) (v : A) (d : list (string * A))
  : list (string * A) :=
  match d with
  | [] => [(k, v)]
  | (k', v') :: d' =>
      if decide (k' = k) then (k, v) :: d' else (k', v') :: dict_set k v d'
  end.

(** The dictionary built from a sequence of items, later items winning. *)
Definition dict_of_items {A} (items : list (string * A)) : list (string * A) :=
  fold_left (fun d kv => dict_set (fst kv) (snd kv) d) items [].

(** Every dictionary object has pairwise distinct keys. *)
Definition distinct_keys {A} (d : list (string * A)) : bool :=
  bool_decide (NoDup (map fst d)).

(** *** JSON documents *)

Inductive json : Type :=
| JNull
| JBool (b : bool)
| JInt (z : Z)
| JFloat (f : pyfloat)
| JStr (s : string)
| JArr (l : list json)
| JObj (o : list (string * json)).

Section json_induction.
Variable P : json -> Prop.
Hypothesis HNull : P JNull.
Hypothesis HBool : forall b, P (JBool b).
Hypothesis HInt : forall z, P (JInt z).
Hypothesis HFloat : forall f, P (JFloat f).
Hypothesis HStr : forall s, P (JStr s).
Hypothesis HArr : forall l, Forall P l -> P (JArr l).
Hypothesis HObj : forall o, Forall (fun kv => P (snd kv)) o -> P (JObj o).

End json_induction.

(** [story_manager.py], [json_serializer] local to [save_state]: the
    [default=] hook of [json.dump], called on every object the encoder
    does not know. It answers with a string or raises. *)
Definition json_serializer (obj : pyval) : outcome string :=
  match obj with
  | VDatetime t => Ret (isoformat t)
  | VEnum _ =>
      Raise (TypeError "Object of type <enum 'LLM_Model'> is not JSON serializable")
  | _ => Raise (TypeError "Object is not JSON serializable")
  end.

(** [json.dump(v, f, default=json_serializer)], up to the document
    written. *)
Fixpoint json_dump (v : pyval) : outcome json :=
  match v with
  | VNone => Ret JNull
  | VBool b => Ret (JBool b)
  | VInt z => Ret (JInt z)
  | VFloat f => Ret (JFloat f)
  | VStr s => Ret (JStr s)
  | VList l =>
      let* js := (fix go (l : list pyval) : outcome (list json) :=
                    match l with
                    | [] => Ret []
                    | x :: l' =>
                        let* j := json_dump x in
                        let* js := go l' in Ret (j :: js)
                    end) l in
      Ret (JArr js)
  | VDict d =>
      let* js := (fix go (d : pydict) : outcome (list (string * json)) :=
                    match d with
                    | [] => Ret []
                    | (k, x) :: d' =>
                        let* j := json_dump x in
                        let* js := go d' in Ret ((k, j) :: js)
                    end) d in
      Ret (JObj js)
  | VDatetime _ | VEnum _ =>
      let* s := json_serializer v in Ret (JStr s)
  end.

(** [json.dumps(v)], without a [default=] hook: the encoder raises on
    every object it does not know. *)
Fixpoint json_dumps (v : pyval) : outcome json :=
  match v with
  | VNone => Ret JNull
  | VBool b => Ret (JBool b)
  | VInt z => Ret (JInt z)
  | VFloat f => Ret (JFloat f)
  | VStr s => Ret (JStr s)
  | VList l =>
      let* js := (fix go (l : list pyval) : outcome (list json) :=
                    match l with
                    | [] => Ret []
                    | x :: l' =>
                        let* j := json_dumps x in
                        let* js := go l' in Ret (j :: js)
                    end) l in
      Ret (JArr js)
  | VDict d =>
      let* js := (fix go (d : pydict) : outcome (list (string * json)) :=
                    match d with
                    | [] => Ret []
                    | (k, x) :: d' =>
                        let* j := json_dumps x in
                        let* js := go d' in Ret ((k, j) :: js)
                    end) d in
      Ret (JObj js)
  | VDatetime _ => Raise (TypeError "Object of type datetime is not JSON serializable")
  | VEnum _ => Raise (TypeError "Object of type LLM_Model is not JSON serializable")
  end.

(** The values [json.dumps] accepts: no point in time and no member of
    an enumeration anywhere. *)
Fixpoint json_encodable (v : pyval) : bool :=
  match v with
  | VList l => forallb json_encodable l
  | VDict d => forallb (fun kv => json_encodable (snd kv)) d
  | VDatetime _ | VEnum _ => false
  | _ => true
  end.

(** [json.load(f)]: a repeated key of an object keeps its first
    position and its last value. *)
Fixpoint json_load (j : json) : pyval :=
  match j with
  | JNull => VNone
  | JBool b => VBool b
  | JInt z => VInt z
  | JFloat f => VFloat f
  | JStr s => VStr s
  | JArr l => VList (map json_load l)
  | JObj o => VDict (dict_of_items (map (fun kv => (fst kv, json_load (snd kv))) o))
  end.

(** The values [json.dump] writes without calling the hook and
    [json.load] gives back unchanged. *)
Fixpoint json_native (v : pyval) : bool :=
  match v with
  | VNone | VBool _ | VInt _ | VFloat _ | VStr _ => true
  | VList l => forallb json_native l
  | VDict d => forallb (fun kv => json_native (snd kv)) d && distinct_keys d
  | VDatetime _ | VEnum _ => false
  end.

Definition dict_native (d : pydict) : bool := json_native (VDict d).

End Value.
Export Value.

(* ===================================================================== *)
(** ** Data models ([models.py])                                          *)
(* ===================================================================== *)

(** Field validation of the pydantic models.  A value of the annotated
    type is accepted; of the conversions pydantic applies to other
    inputs only those the code relies on are modelled (a string for a
    [datetime] or an [ActionType] field), every other input is answered
    with [ValidationError]. *)
Module Validate.

Definition mismatch {A} (what : string) : outcome A :=
  Raise (ValidationError ("Input should be a valid " +:+ what)).

Definition str (v : pyval) : outcome string :=
  match v with VStr s => Ret s | _ => mismatch "string" end.

Definition opt_str (v : pyval) : outcome (option string) :=
  match v with
  | VNone => Ret None
  | VStr s => Ret (Some s)
  | _ => mismatch "string"
  end.

Definition int (v : pyval) : outcome Z :=
  match v with VInt z => Ret z | _ => mismatch "integer" end.

Definition float (v : pyval) : outcome pyfloat :=
  match v with VFloat f => Ret f | _ => mismatch "number" end.

Definition dict (v : pyval) : outcome pydict :=
  match v with VDict d => Ret d | _ => mismatch "dictionary" end.

Definition list_of {A} (elem : pyval -> outcome A) (v : pyval) : outcome (list A) :=
  match v with VList l => traverse elem l | _ => mismatch "list" end.

Definition datetime (v : pyval) : outcome Datetime.datetime :=
  match v with
  | VDatetime t => Ret t
  | VStr s =>
      match fromisoformat s with
      | Some t => Ret t
      | None => mismatch "datetime"
      end
  | _ => mismatch "datetime"
  end.

(** A field with a default: the keyword is looked up, validated when
    present, defaulted when absent. *)
Definition field {A} (kw : pydict) (key : string) (elem : pyval -> outcome A)
    (default : A) : outcome A :=
  match dict_get key kw with
  | Some v => elem v
  | None => Ret default
  end.

Definition required {A} (kw : pydict) (key : string) (elem : pyval -> outcome A)
  : outcome A :=
  match dict_get key kw with
  | Some v => elem v
  | None => Raise (ValidationError "Field required")
  end.

End Validate.

Module NPCPersonality.
Record t : Type := mk {
  name : string;
  backstory : string;
  personality_traits : list string;
  goals : list string;
  relationships : list (string * string);
  speech_patterns : option string;
  emotional_state : string
}.
End NPCPersonality.

(** A list object handed to a setter of the store.  The setters keep
    the object itself, not a copy, and the later operations of the
    store change it in place; so it matters whether the object is one
    the story state holds already, in [plot_points] or in
    [active_goals] at the time of the call, or another one, which is
    given by its items.  Another one is a list of the caller's own: the
    object held in [completed_events], for which there is no setter and
    which no method hands out, is not among the arguments. *)
Inductive list_object : Type :=
| other_list (items : list string)
| the_plot_points
| the_active_goals.

Module StoryState.

(** The two list attributes that can be assigned from outside hold two
    list objects, or one and the same. *)
Inductive assignable_lists : Type :=
| Separate (plot_points active_goals : list string)
| Shared (both : list string).

Record t : Type := make {
  assignable : assignable_lists;
  completed_events : list string;
  world_state : pydict;
  timestamp : datetime
}.

(** [s.plot_points] and [s.active_goals] *)
Definition plot_points (s : t) : list string :=
  match assignable s with
  | Separate plot_points _ => plot_points
  | Shared both => both
  end.

Definition active_goals (s : t) : list string :=
  match assignable s with
  | Separate _ active_goals => active_goals
  | Shared both => both
  end.

(** A story state whose lists are objects of their own, as the
    constructor builds them. *)
Definition mk (plot_points completed_events active_goals : list string)
    (world_state : pydict) (timestamp : datetime) : t :=
  make (Separate plot_points active_goals) completed_events world_state timestamp.

(** [StoryState()] *)
Definition new (now : datetime) : t := mk [] [] [] [] now.

(** [StoryState] built from the keywords [kw] (the double-star call);
    [now] is the value of the default factory.  Validation builds the
    lists anew. *)
Definition init (kw : pydict) (now : datetime) : outcome t :=
  let* pp := Validate.field kw "plot_points" (Validate.list_of Validate.str) [] in
  let* ce := Validate.field kw "completed_events" (Validate.list_of Validate.str) [] in
  let* ag := Validate.field kw "active_goals" (Validate.list_of Validate.str) [] in
  let* ws := Validate.field kw "world_state" Validate.dict [] in
  let* ts := Validate.field kw "timestamp" Validate.datetime now in
  Ret (mk pp ce ag ws ts).

Definition model_dump (s : t) : pydict :=
  [("plot_points", VList (map VStr (plot_points s)));
   ("completed_events", VList (map VStr (completed_events s)));
   ("active_goals", VList (map VStr (active_goals s)));
   ("world_state", VDict (world_state s));
   ("timestamp", VDatetime (timestamp s))].

(** The items of a list object at the time it is handed over. *)
Definition items_of (l : list_object) (s : t) : list string :=
  match l with
  | other_list items => items
  | the_plot_points => plot_points s
  | the_active_goals => active_goals s
  end.

(** [s.plot_points = l] and [s.active_goals = l]: the attribute holds
    the object [l] from now on. *)
Definition assign_plot_points (l : list_object) (s : t) : t :=
  match l with
  | other_list items =>
      make (Separate items (active_goals s)) (completed_events s) (world_state s)
        (timestamp s)
  | the_plot_points => s
  | the_active_goals =>
      make (Shared (active_goals s)) (completed_events s) (world_state s) (timestamp s)
  end.

Definition assign_active_goals (l : list_object) (s : t) : t :=
  match l with
  | other_list items =>
      make (Separate (plot_points s) items) (completed_events s) (world_state s)
        (timestamp s)
  | the_plot_points =>
      make (Shared (plot_points s)) (completed_events s) (world_state s) (timestamp s)
  | the_active_goals => s
  end.

(** A change in place ([append], [remove]) of the list object held in
    [plot_points], or in [active_goals], that leaves it with [items]:
    the other attribute shows the change when it holds the same
    object. *)
Definition write_plot_points (items : list string) (s : t) : t :=
  make
    match assignable s with
    | Separate _ active_goals => Separate items active_goals
    | Shared _ => Shared items
    end
    (completed_events s) (world_state s) (timestamp s).

Definition write_active_goals (items : list string) (s : t) : t :=
  make
    match assignable s with
    | Separate plot_points _ => Separate plot_points items
    | Shared _ => Shared items
    end
    (completed_events s) (world_state s) (timestamp s).

Definition with_completed_events (v : list string) (s : t) : t :=
  make (assignable s) v (world_state s) (timestamp s).
Definition with_world_state (v : pydict) (s : t) : t :=
  make (assignable s) (completed_events s) v (timestamp s).
Definition with_timestamp (v : datetime) (s : t) : t :=
  make (assignable s) (completed_events s) (world_state s) v.
End StoryState.

Module NPCMemory.
Record t : Type := mk {
  npc_name : string;
  memories : list pydict;
  important_events : list string;
  player_interactions : Z
}.

(** [NPCMemory(npc_name=n)] *)
Definition new (n : string) : t := mk n [] [] 0.

(** [NPCMemory] built from the keywords [kw]. *)
Definition init (kw : pydict) : outcome t :=
  let* n := Validate.required kw "npc_name" Validate.str in
  let* ms := Validate.field kw "memories" (Validate.list_of Validate.dict) [] in
  let* ev := Validate.field kw "important_events" (Validate.list_of Validate.str) [] in
  let* pi := Validate.field kw "player_interactions" Validate.int 0%Z in
  Ret (mk n ms ev pi).

Definition model_dump (m : t) : pydict :=
  [("npc_name", VStr (npc_name m));
   ("memories", VList (map VDict (memories m)));
   ("important_events", VList (map VStr (important_events m)));
   ("player_interactions", VInt (player_interactions m))].
End NPCMemory.

Module ActionResponse.
Record t : Type := mk {
  action_type : ActionType;
  content : string;
  npc_name : string;
  metadata : option pydict;
  timestamp : datetime
}.

(** What a caller hands over for the [action_type] field: a member of
    the enumeration, or a plain string. *)
Inductive action_type_arg : Type :=
| Member (a : ActionType)
| Text (s : string).

(** Validation of the [action_type: ActionType] field: a member is
    kept, a string is accepted when it is the value of a member. *)
Definition validate_action_type (a : action_type_arg) : outcome ActionType :=
  match a with
  | Member m => Ret m
  | Text s =>
      match ActionType_of_value s with
      | Some m => Ret m
      | None =>
          Raise (ValidationError
            "Input should be 'dialogue', 'movement', 'emotion', 'interaction' or 'story_event'")
      end
  end.

(** [ActionResponse(action_type=.., content=.., npc_name=..,
    metadata=..)]; [now] is the value of the timestamp's default
    factory. *)
Definition init (a : action_type_arg) (content npc_name : string)
    (metadata : option pydict) (now : datetime) : outcome t :=
  let* k := validate_action_type a in
  Ret (mk k content npc_name metadata now).
End ActionResponse.

Module DialogueExchange.
Record t : Type := mk {
  player_input : option string;
  npc_response : string;
  npc_name : string;
  emotional_state : option string;
  timestamp : datetime
}.
End DialogueExchange.

Module GameSettings.
(** [llm_model] is annotated [str | None], and that is what the
    constructor accepts.  An attribute of an existing object is
    assigned without validation ([set_settings] does so), and [add_npc]
    and [save_state] provide for a member of [LLM_Model] in it; so the
    field holds an object. *)
Record t : Type := mk {
  llm_model : pyval;
  temperature : pyfloat;
  max_tokens : Z;
  story_style : string;
  difficulty : string;
  custom_instructions : option string
}.

Definition dump_opt_str (o : option string) : pyval :=
  match o with Some s => VStr s | None => VNone end.

(** [GameSettings()] *)
Definition new : t :=
  mk VNone (PyFloat "0.8") 500 "adventure" "medium" None.

(** [GameSettings] built from the keywords [kw]. *)
Definition init (kw : pydict) : outcome t :=
  let* lm := Validate.field kw "llm_model" Validate.opt_str None in
  let* te := Validate.field kw "temperature" Validate.float (PyFloat "0.8") in
  let* mt := Validate.field kw "max_tokens" Validate.int 500%Z in
  let* st := Validate.field kw "story_style" Validate.str "adventure" in
  let* di := Validate.field kw "difficulty" Validate.str "medium" in
  let* ci := Validate.field kw "custom_instructions" Validate.opt_str None in
  Ret (mk (dump_opt_str lm) te mt st di ci).

Definition model_dump (s : t) : pydict :=
  [("llm_model", llm_model s);
   ("temperature", VFloat (temperature s));
   ("max_tokens", VInt (max_tokens s));
   ("story_style", VStr (story_style s));
   ("difficulty", VStr (difficulty s));
   ("custom_instructions", dump_opt_str (custom_instructions s))].
End GameSettings.

(* ===================================================================== *)
(** ** The session state store ([story/story_manager.py])                 *)
(* ===================================================================== *)

(** Files, by path: the JSON document each holds. *)
Abbreviation filesystem := (gmap string json).

(** [l.remove(x)]: the first occurrence goes, [ValueError] without one. *)
Fixpoint list_remove (x : string) (l : list string) : outcome (list string) :=
  match l with
  | [] => Raise (ValueError "list.remove(x): x not in list")
  | y :: l' =>
      if decide (y = x) then Ret l'
      else let* r := list_remove x l' in Ret (y :: r)
  end.

(** [l[-n:]] for a positive [n]. *)
Definition slice_last {A} (n : nat) (l : list A) : list A :=
  drop (length l - n) l.

Module StoryManager.

Record t : Type := mk {
  settings : GameSettings.t;
  story_state : StoryState.t;
  npc_memories : gmap string NPCMemory.t;
  conversation_history : list pyval
}.

Definition with_settings (v : GameSettings.t) (s : t) : t :=
  mk v (story_state s) (npc_memories s) (conversation_history s).
Definition with_story_state (v : StoryState.t) (s : t) : t :=
  mk (settings s) v (npc_memories s) (conversation_history s).
Definition with_npc_memories (v : gmap string NPCMemory.t) (s : t) : t :=
  mk (settings s) (story_state s) v (conversation_history s).
Definition with_conversation_history (v : list pyval) (s : t) : t :=
  mk (settings s) (story_state s) (npc_memories s) v.

(** [StoryManager(settings)] *)
Definition new (settings : option GameSettings.t) (now : datetime) : t :=
  mk (default GameSettings.new settings) (StoryState.new now) ∅ [].

Definition set_plot_points (plot_points : list_object) (s : t) : t :=
  with_story_state (StoryState.assign_plot_points plot_points (story_state s)) s.

Definition add_plot_point (plot_point : string) (s : t) : t :=
  with_story_state
    (StoryState.write_plot_points
       (StoryState.plot_points (story_state s) ++ [plot_point]) (story_state s)) s.

Definition complete_event (event_name : string) (s : t) : t :=
  if decide (event_name ∉ StoryState.completed_events (story_state s)) then
    with_story_state
      (StoryState.with_completed_events
         (StoryState.completed_events (story_state s) ++ [event_name])
         (story_state s)) s
  else s.

Definition set_active_goals (goals : list_object) (s : t) : t :=
  with_story_state (StoryState.assign_active_goals goals (story_state s)) s.

Definition add_active_goal (goal : string) (s : t) : t :=
  if decide (goal ∉ StoryState.active_goals (story_state s)) then
    with_story_state
      (StoryState.write_active_goals
         (StoryState.active_goals (story_state s) ++ [goal]) (story_state s)) s
  else s.

Definition complete_goal (goal : string) (s : t) : outcome t :=
  if decide (goal ∈ StoryState.active_goals (story_state s)) then
    let* goals := list_remove goal (StoryState.active_goals (story_state s)) in
    Ret (with_story_state (StoryState.write_active_goals goals (story_state s)) s)
  else Ret s.

Definition update_world_state (key : string) (value : pyval) (s : t) : t :=
  with_story_state
    (StoryState.with_world_state
       (dict_set key value (StoryState.world_state (story_state s)))
       (story_state s)) s.

Definition get_world_state (key : string) (default : pyval) (s : t) : pyval :=
  match dict_get key (StoryState.world_state (story_state s)) with
  | Some v => v
  | None => default
  end.

(** The dictionary [record_conversation] builds; [now] is the reading
    of the clock. *)
Definition exchange (now : datetime) (player_input npc_name npc_response : string)
    (metadata : option pydict) : pyval :=
  VDict [("timestamp", VStr (isoformat now));
         ("player_input", VStr player_input);
         ("npc_name", VStr npc_name);
         ("npc_response", VStr npc_response);
         ("metadata", VDict (default [] metadata))].

Definition record_conversation (now : datetime)
    (player_input npc_name npc_response : string)
    (metadata : option pydict) (s : t) : t :=
  let history :=
    conversation_history s
      ++ [exchange now player_input npc_name npc_response metadata] in
  if decide (100 < length history) then
    with_conversation_history (slice_last 100 history) s
  else with_conversation_history history s.

Definition register_npc_memory (npc_name : string) (memory : NPCMemory.t) (s : t) : t :=
  with_npc_memories (<[npc_name := memory]> (npc_memories s)) s.

Definition get_npc_memory (npc_name : string) (s : t) : option NPCMemory.t :=
  npc_memories s !! npc_name.

(** *** Persistence *)

(** The conversion of the [llm_model] entry done by [save_state]: a
    member of an enumeration is replaced by its value. *)
Definition encode_llm_model (settings_dict : pydict) : pydict :=
  match dict_get "llm_model" settings_dict with
  | Some (VEnum m) => dict_set "llm_model" (VStr (LLM_Model_value m)) settings_dict
  | _ => settings_dict
  end.

(** The dictionary handed to [json.dump]. *)
Definition save_data (s : t) : pyval :=
  let settings_dict := encode_llm_model (GameSettings.model_dump (settings s)) in
  let story_state_dict := StoryState.model_dump (story_state s) in
  let npc_memories_dict :=
    map (fun kv => (fst kv, VDict (NPCMemory.model_dump (snd kv))))
        (map_to_list (npc_memories s)) in
  VDict [("story_state", VDict story_state_dict);
         ("npc_memories", VDict npc_memories_dict);
         ("conversation_history", VList (conversation_history s));
         ("settings", VDict settings_dict)].

Definition save_state (filepath : string) (s : t) (fs : filesystem)
  : outcome filesystem :=
  let* doc := json_dump (save_data s) in
  Ret (<[filepath := doc]> fs).

(** The loop of [load_state] over the members of [LLM_Model]: the
    first member whose value is the token replaces it, and the loop is
    left. *)
Fixpoint llm_model_loop (members : list LLM_Model) (token : string)
    (settings_data : pydict) : pydict :=
  match members with
  | [] => settings_data
  | model :: rest =>
      if decide (LLM_Model_value model = token)
      then dict_set "llm_model" (VEnum model) settings_data
      else llm_model_loop rest token settings_data
  end.

(** [from ..agents.llms import LLM_Model], executed inside
    [load_state].  The module is imported as [story.story_manager]
    ([orchestrator/game_orchestrator.py] does so, and the module itself
    imports [models] as a top-level module), so [story] is a top-level
    package and the two dots lead out of it: the statement raises. *)
Definition import_LLM_Model : outcome unit :=
  Raise (ImportError "attempted relative import beyond top-level package").

(** The conversion of the [llm_model] entry [load_state] provides for
    a string: the import, then the loop. *)
Definition decode_llm_model (settings_data : pydict) : outcome pydict :=
  match dict_get "llm_model" settings_data with
  | Some (VStr token) =>
      let* _ := import_LLM_Model in
      Ret (llm_model_loop LLM_Model_members token settings_data)
  | _ => Ret settings_data
  end.

(** An object whose [.get] or [.items] is called: of the objects
    [json.load] gives, a dictionary has them. *)
Definition as_mapping (v : pyval) : outcome pydict :=
  match v with
  | VDict d => Ret d
  | _ => Raise (AttributeError "object is not a mapping")
  end.

(** A call with the keywords of [v] (the double-star call) asks for a
    mapping. *)
Definition double_star (v : pyval) : outcome pydict :=
  match v with
  | VDict d => Ret d
  | _ => Raise (TypeError "argument after ** must be a mapping")
  end.

(** [data["settings"].copy()], for what is done with the copy: a
    dictionary goes on; a list has a [copy] as well, and is refused
    when it is subscripted with the key or handed to the double-star
    call. *)
Definition copy_of_settings (v : pyval) : outcome pydict :=
  match v with
  | VDict d => Ret d
  | VList _ => Raise (TypeError "list is not a mapping")
  | _ => Raise (AttributeError "object has no attribute 'copy'")
  end.

(** [{k: NPCMemory(..) for k, v in items}]: entries are assigned in
    order. *)
Definition dict_comprehension (items : list (string * NPCMemory.t))
  : gmap string NPCMemory.t :=
  fold_left (fun m kv => <[fst kv := snd kv]> m) items ∅.

Definition load_npc_memory (kv : string * pyval) : outcome (string * NPCMemory.t) :=
  let* kw := double_star (snd kv) in
  let* m := NPCMemory.init kw in
  Ret (fst kv, m).

(** [load_state]; [now] is the value of the timestamp's default
    factory. The log is annotated as a list, and a document whose
    [conversation_history] is no array is refused here, where Python
    stores the odd object. *)
Definition load_state (filepath : string) (now : datetime) (s : t) (fs : filesystem)
  : outcome t :=
  match fs !! filepath with
  | None => Ret s
  | Some doc =>
      let* data := as_mapping (json_load doc) in
      let* story_kw := double_star (default (VDict []) (dict_get "story_state" data)) in
      let* story := StoryState.init story_kw now in
      let* memories_kw := as_mapping (default (VDict []) (dict_get "npc_memories" data)) in
      let* memories := traverse load_npc_memory memories_kw in
      let* history :=
        match default (VList []) (dict_get "conversation_history" data) with
        | VList l => Ret l
        | _ => Raise (TypeError "conversation_history is not a list")
        end in
      let s1 := mk (settings s) story (dict_comprehension memories) history in
      match dict_get "settings" data with
      | Some v =>
          let* settings_data := copy_of_settings v in
          let* settings_data := decode_llm_model settings_data in
          let* st := GameSettings.init settings_data in
          Ret (with_settings st s1)
      | None => Ret s1
      end
  end.

End StoryManager.

(* ===================================================================== *)
(** ** Text generation and character agents ([agents/])                   *)
(* ===================================================================== *)

(** A role-tagged message of a chat-completion request. *)
Record message : Type := mk_message { role : string; msg_content : string }.

(** What the agents are given from outside.
    - [chat_completions_create model messages temperature max_tokens]
      is the remote call [llm_client.chat.completions.create(..)]: it
      raises, or answers with the contents of the choices of the
      completion ([message.content] may be [None]);
    - [context_prompt_text] and [action_prompt_text] are the layouts of
      the two prompts: the text the format strings of
      [_build_context_prompt] and of [generate_action] print once
      [json.dumps] has answered for the world state.  The text is only
      ever sent to the remote call, and its layout is not modelled; the
      step of the format strings that can raise is, in
      [_build_context_prompt] and [action_prompt] below. *)
Record collaborators : Type := mk_collaborators {
  chat_completions_create :
    string -> list message -> pyfloat -> Z -> outcome (list (option string));
  context_prompt_text :
    NPCPersonality.t -> NPCMemory.t -> string -> StoryState.t -> string;
  action_prompt_text :
    NPCPersonality.t -> string -> StoryState.t -> string
}.

Module Text_Generator.
Record t : Type := mk { model : LLM_Model }.

(** [Text_Generator(model)], with the default client [ollama_client]. *)
Definition init (model : LLM_Model) : t :=
  mk (if decide (model = GPT_OSS_OPEN) then GPT_OSS_OLLAMA else model).
End Text_Generator.

Module NPCAgent.
Record t : Type := mk {
  personality : NPCPersonality.t;
  model : LLM_Model;
  memory : NPCMemory.t;
  llm : Text_Generator.t
}.

Definition with_memory (v : NPCMemory.t) (a : t) : t :=
  mk (personality a) (model a) v (llm a).

(** [NPCAgent(personality, model)]. The constructor reads
    [model.value], which only a member of the enumeration has. *)
Definition init (personality : NPCPersonality.t) (model : pyval) : outcome t :=
  match model with
  | VEnum m =>
      Ret (mk personality m (NPCMemory.new (NPCPersonality.name personality))
              (Text_Generator.init m))
  | _ => Raise (AttributeError "object has no attribute 'value'")
  end.
End NPCAgent.

Definition double_quote : ascii := ascii_of_nat 34.
Definition single_quote : ascii := ascii_of_nat 39.

Definition dialogue_system_prompt : string :=
  "You are an expert at role-playing and creating immersive dialogue for interactive stories.".
Definition action_system_prompt : string :=
  "You are an expert at role-playing and creating immersive actions for interactive stories.".

(** The line [generate_dialogue] answers with from its [except] branch. *)
Definition dialogue_fallback : string := "...I need a moment to collect my thoughts.".

(** The text [generate_dialogue] puts in place of an empty answer. *)
Definition dialogue_filler : string := "...".

(** Truth value of a [str | None]. *)
Definition truthy (r : option string) : bool :=
  match r with
  | Some (String _ _) => true
  | _ => false
  end.

Section Agents.
Context (env : collaborators).

(** [Text_Generator.generate_text] *)
Definition generate_text (self : Text_Generator.t) (messages : list message)
    (temperature : pyfloat) (max_tokens : Z) : outcome (option string) :=
  try_except
    (let* choices :=
       chat_completions_create env (LLM_Model_value (Text_Generator.model self))
         messages temperature max_tokens in
     match choices with
     | c :: _ => Ret c
     | [] => Raise (IndexError "list index out of range")
     end)
    (fun _ => Ret (Some "")).

(** [NPCAgent._build_context_prompt]: the format string evaluates
    [json.dumps(story_state.world_state, indent=2)], which raises
    [TypeError] on a world state that holds an object the encoder does
    not know. *)
Definition _build_context_prompt (self : NPCAgent.t) (player_input : string)
    (story_state : StoryState.t) : outcome string :=
  let* _ := json_dumps (VDict (StoryState.world_state story_state)) in
  Ret (context_prompt_text env (NPCAgent.personality self) (NPCAgent.memory self)
         player_input story_state).

(** The prompt of [generate_action], a format string with the same
    call of [json.dumps] in it. *)
Definition action_prompt (self : NPCAgent.t) (context : string)
    (story_state : StoryState.t) : outcome string :=
  let* _ := json_dumps (VDict (StoryState.world_state story_state)) in
  Ret (action_prompt_text env (NPCAgent.personality self) context story_state).

(** The body of [generate_dialogue] below the call of
    [self.llm.generate_text]: [generated] is what that call did
    (returned a text or [None], or raised). *)
Definition dialogue_of_generation (self : NPCAgent.t) (player_input : string)
    (story_state : StoryState.t) (now : datetime)
    (generated : outcome (option string))
  : outcome (ActionResponse.t * NPCAgent.t) :=
  let name := NPCPersonality.name (NPCAgent.personality self) in
  try_except
    (let* response := generated in
     let dialogue_text :=
       if truthy response then default "" response else dialogue_filler in
     let dialogue_text :=
       if (Str.startswith double_quote dialogue_text
           && Str.endswith double_quote dialogue_text)
          || (Str.startswith single_quote dialogue_text
              && Str.endswith single_quote dialogue_text)
       then Str.strip_ends dialogue_text else dialogue_text in
     let mem := NPCAgent.memory self in
     let mem' :=
       NPCMemory.mk (NPCMemory.npc_name mem)
         (NPCMemory.memories mem ++
            [[("type", VStr "dialogue");
              ("player_input", VStr player_input);
              ("npc_response", VStr dialogue_text);
              ("timestamp", VStr (isoformat (StoryState.timestamp story_state)))]])
         (NPCMemory.important_events mem)
         (NPCMemory.player_interactions mem + 1) in
     let* r :=
       ActionResponse.init (ActionResponse.Member DIALOGUE) dialogue_text name
         (Some [("emotional_state",
                 VStr (NPCPersonality.emotional_state (NPCAgent.personality self)));
                ("model", VEnum (NPCAgent.model self))])
         now in
     Ret (r, NPCAgent.with_memory mem' self))
    (fun e =>
       let* r :=
         ActionResponse.init (ActionResponse.Member DIALOGUE) dialogue_fallback name
           (Some [("error", VStr (exn_str e))]) now in
       Ret (r, self)).

(** [NPCAgent.generate_dialogue]; the result is the response and the
    agent with its memory as the call leaves it.  [now] is the value
    of the response's timestamp factory.  The prompt is built before
    the [try] statement is entered: what building it raises leaves the
    method. *)
Definition generate_dialogue (self : NPCAgent.t) (player_input : string)
    (story_state : StoryState.t) (temperature : pyfloat) (max_tokens : Z)
    (now : datetime) : outcome (ActionResponse.t * NPCAgent.t) :=
  let* context_prompt := _build_context_prompt self player_input story_state in
  dialogue_of_generation self player_input story_state now
    (generate_text (NPCAgent.llm self)
       [mk_message "system" dialogue_system_prompt;
        mk_message "user" context_prompt]
       temperature max_tokens).

(** [NPCAgent.generate_action]; the prompt is built before the [try]
    statement here as well. *)
Definition generate_action (self : NPCAgent.t) (context : string)
    (story_state : StoryState.t) (action_type : ActionType)
    (temperature : pyfloat) (now : datetime)
  : outcome (ActionResponse.t * NPCAgent.t) :=
  let name := NPCPersonality.name (NPCAgent.personality self) in
  let* prompt := action_prompt self context story_state in
  try_except
    (let* response :=
       generate_text (NPCAgent.llm self)
         [mk_message "system" action_system_prompt;
          mk_message "user" prompt]
         temperature 300 in
     let* action_text :=
       match response with
       | Some r => Ret (Str.strip r)
       | None => Raise (AttributeError "'NoneType' object has no attribute 'strip'")
       end in
     let mem := NPCAgent.memory self in
     let mem' :=
       NPCMemory.mk (NPCMemory.npc_name mem)
         (NPCMemory.memories mem ++
            [[("type", VStr (ActionType_value action_type));
              ("context", VStr context);
              ("action", VStr action_text);
              ("timestamp", VStr (isoformat (StoryState.timestamp story_state)))]])
         (NPCMemory.important_events mem)
         (NPCMemory.player_interactions mem) in
     let* r :=
       ActionResponse.init (ActionResponse.Member action_type) action_text name
         (Some [("model", VEnum (NPCAgent.model self))]) now in
     Ret (r, NPCAgent.with_memory mem' self))
    (fun e =>
       let* r :=
         ActionResponse.init (ActionResponse.Member action_type)
           (name +:+ " stands quietly.") name
           (Some [("error", VStr (exn_str e))]) now in
       Ret (r, self)).

End Agents.

(* ===================================================================== *)
(** ** The session coordinator ([orchestrator/game_orchestrator.py])      *)
(* ===================================================================== *)

Module GameOrchestrator.
(** [registered] tells which entries of the store's [npc_memories] are
    the very memory object of the agent of that name in [npcs]: the
    store is handed the object itself ([register_npc_memory(name,
    agent.memory)]), and what the agent appends to its memory is then
    in the store's entry as well.  Both places hold the value here,
    and a change of the agent's memory is carried over to the store's
    entry for the names in [registered]. *)
Record t : Type := mk {
  settings : GameSettings.t;
  story_manager : StoryManager.t;
  npcs : gmap string NPCAgent.t;
  registered : gset string
}.

(** [GameOrchestrator(settings)] *)
Definition new (settings : option GameSettings.t) (now : datetime) : t :=
  let st := default GameSettings.new settings in
  mk st (StoryManager.new (Some st) now) ∅ ∅.
End GameOrchestrator.

(** The attribution of the responses that answer for a missing
    character. *)
Definition system_name : string := "System".

Section Coordinator.
Context (env : collaborators).

(** The wall clock of one request: [clock k] is what the [k]-th reading
    of [datetime.now()] gives. *)
Context (clock : nat -> datetime).

Definition get_npc (npc_name : string) (self : GameOrchestrator.t)
  : option NPCAgent.t :=
  GameOrchestrator.npcs self !! npc_name.

(** [add_npc(personality, model)] *)
Definition add_npc (personality : NPCPersonality.t) (model : option LLM_Model)
    (self : GameOrchestrator.t) : outcome GameOrchestrator.t :=
  let chosen :=
    match model with
    | Some m => VEnum m
    | None => GameSettings.llm_model (GameOrchestrator.settings self)
    end in
  let* agent := NPCAgent.init personality chosen in
  let name := NPCPersonality.name personality in
  Ret (GameOrchestrator.mk (GameOrchestrator.settings self)
         (StoryManager.register_npc_memory name (NPCAgent.memory agent)
            (GameOrchestrator.story_manager self))
         (<[name := agent]> (GameOrchestrator.npcs self))
         ({[name]} ∪ GameOrchestrator.registered self)).

(** [process_player_input(player_input, npc_name)]: the exchange and
    the coordinator as the call leaves it.  The agent's memory is
    registered at the end, whether the store held the object before
    or not. *)
Definition process_player_input (player_input npc_name : string)
    (self : GameOrchestrator.t) : outcome (DialogueExchange.t * GameOrchestrator.t) :=
  match get_npc npc_name self with
  | None =>
      Ret (DialogueExchange.mk (Some player_input)
             ("I don't know who " +:+ npc_name +:+ " is...")
             system_name None (clock 0),
           self)
  | Some npc =>
      let sm := GameOrchestrator.story_manager self in
      let story_state :=
        StoryState.with_timestamp (clock 0) (StoryManager.story_state sm) in
      let sm := StoryManager.with_story_state story_state sm in
      let* '(action_response, npc) :=
        generate_dialogue env npc player_input story_state
          (GameSettings.temperature (GameOrchestrator.settings self)) 100 (clock 1) in
      let sm :=
        StoryManager.record_conversation (clock 2) player_input npc_name
          (ActionResponse.content action_response)
          (ActionResponse.metadata action_response) sm in
      let sm := StoryManager.register_npc_memory npc_name (NPCAgent.memory npc) sm in
      let exchange :=
        DialogueExchange.mk (Some player_input)
          (ActionResponse.content action_response) npc_name
          (Some (NPCPersonality.emotional_state (NPCAgent.personality npc)))
          (clock 3) in
      Ret (exchange,
           GameOrchestrator.mk (GameOrchestrator.settings self) sm
             (<[npc_name := npc]> (GameOrchestrator.npcs self))
             ({[npc_name]} ∪ GameOrchestrator.registered self))
  end.

(** [ActionType[action_type.upper()]] guarded by [except KeyError]. *)
Definition action_type_of_string (action_type : string) : outcome ActionType :=
  match ActionType_getitem (Str.upper action_type) with
  | Ret a => Ret a
  | Raise (KeyError _) => Ret INTERACTION
  | Raise e => Raise e
  end.

(** The store after the agent [npc] of the name has changed its memory
    in place: the entry of the store is that object, or another one. *)
Definition memory_written (npc_name : string) (npc : NPCAgent.t)
    (self : GameOrchestrator.t) (sm : StoryManager.t) : StoryManager.t :=
  if decide (npc_name ∈ GameOrchestrator.registered self)
  then StoryManager.register_npc_memory npc_name (NPCAgent.memory npc) sm
  else sm.

(** [trigger_npc_action(npc_name, context, action_type)].  On a hit the
    agent appends to its memory object, and nothing is registered. *)
Definition trigger_npc_action (npc_name context action_type : string)
    (self : GameOrchestrator.t) : outcome (ActionResponse.t * GameOrchestrator.t) :=
  match get_npc npc_name self with
  | None =>
      let* r :=
        ActionResponse.init (ActionResponse.Text action_type)
          (npc_name +:+ " is not present.") system_name None (clock 0) in
      Ret (r, self)
  | Some npc =>
      let sm := GameOrchestrator.story_manager self in
      let story_state :=
        StoryState.with_timestamp (clock 0) (StoryManager.story_state sm) in
      let sm := StoryManager.with_story_state story_state sm in
      let* action_type_enum := action_type_of_string action_type in
      let* '(action_response, npc) :=
        generate_action env npc context story_state action_type_enum
          (GameSettings.temperature (GameOrchestrator.settings self)) (clock 1) in
      Ret (action_response,
           GameOrchestrator.mk (GameOrchestrator.settings self)
             (memory_written npc_name npc self sm)
             (<[npc_name := npc]> (GameOrchestrator.npcs self))
             (GameOrchestrator.registered self))
  end.

End Coordinator.

(* ===================================================================== *)
(** ** Sequences of calls                                                 *)
(* ===================================================================== *)

(** The arguments of one call of [record_conversation], with the reading
    of the clock the call makes. *)
Record conversation_call : Type := mk_call {
  call_now : datetime;
  call_player_input : string;
  call_npc_name : string;
  call_npc_response : string;
  call_metadata : option pydict
}.

Definition record_call (s : StoryManager.t) (c : conversation_call) : StoryManager.t :=
  StoryManager.record_conversation (call_now c) (call_player_input c)
    (call_npc_name c) (call_npc_response c) (call_metadata c) s.

(** The record a call appends. *)
Definition record_of (c : conversation_call) : pyval :=
  StoryManager.exchange (call_now c) (call_player_input c)
    (call_npc_name c) (call_npc_response c) (call_metadata c).

Definition record_all (calls : list conversation_call) (s : StoryManager.t)
  : StoryManager.t :=
  fold_left record_call calls s.

Definition complete_events (names : list string) (s : StoryManager.t) : StoryManager.t :=
  fold_left (fun s name => StoryManager.complete_event name s) names s.

(** The mutating operations of the store. *)
Inductive store_op : Type :=
| SetPlotPoints (plot_points : list_object)
| AddPlotPoint (plot_point : string)
| CompleteEvent (event_name : string)
| SetActiveGoals (goals : list_object)
| AddActiveGoal (goal : string)
| CompleteGoal (goal : string)
| UpdateWorldState (key : string) (value : pyval)
| RecordConversation (c : conversation_call)
| RegisterNpcMemory (npc_name : string) (memory : NPCMemory.t).

Definition run_op (s : StoryManager.t) (op : store_op) : outcome StoryManager.t :=
  match op with
  | SetPlotPoints l => Ret (StoryManager.set_plot_points l s)
  | AddPlotPoint p => Ret (StoryManager.add_plot_point p s)
  | CompleteEvent e => Ret (StoryManager.complete_event e s)
  | SetActiveGoals l => Ret (StoryManager.set_active_goals l s)
  | AddActiveGoal g => Ret (StoryManager.add_active_goal g s)
  | CompleteGoal g => StoryManager.complete_goal g s
  | UpdateWorldState k v => Ret (StoryManager.update_world_state k v s)
  | RecordConversation c => Ret (record_call s c)
  | RegisterNpcMemory n m => Ret (StoryManager.register_npc_memory n m s)
  end.

Fixpoint run_ops (ops : list store_op) (s : StoryManager.t) : outcome StoryManager.t :=
  match ops with
  | [] => Ret s
  | op :: ops' => let* s' := run_op s op in run_ops ops' s'
  end.

(** The operation hands [set_active_goals] a list object of its own
    that is free of repetitions (or the goal list itself, which changes
    nothing), and it does not hand the goal list to [set_plot_points]. *)
Definition goal_list_distinct (op : store_op) : Prop :=
  match op with
  | SetActiveGoals (other_list l) => NoDup l
  | SetActiveGoals the_plot_points => False
  | SetPlotPoints the_active_goals => False
  | _ => True
  end.

Definition goal_lists_distinct (ops : list store_op) : Prop :=
  Forall goal_list_distinct ops.

(** [plot_points] and [active_goals] hold two list objects. *)
Definition lists_separate (s : StoryManager.t) : Prop :=
  match StoryState.assignable (StoryManager.story_state s) with
  | StoryState.Separate _ _ => True
  | StoryState.Shared _ => False
  end.

Global Instance lists_separate_dec (s : StoryManager.t) : Decision (lists_separate s).
Proof. unfold lists_separate. destruct (StoryState.assignable _); apply _. Defined.

Definition active_goals_of (s : StoryManager.t) : list string :=
  StoryState.active_goals (StoryManager.story_state s).

Definition completed_events_of (s : StoryManager.t) : list string :=
  StoryState.completed_events (StoryManager.story_state s).

Definition plot_points_of (s : StoryManager.t) : list string :=
  StoryState.plot_points (StoryManager.story_state s).

Definition world_state_of (s : StoryManager.t) : pydict :=
  StoryState.world_state (StoryManager.story_state s).

(** A clock reading used in the examples. *)
Definition noon : datetime := mk_datetime 2024 5 17 12 0 0 0.

(** A fresh store. *)
Definition fresh_store : StoryManager.t := StoryManager.new None noon.

(* ===================================================================== *)
(** ** Further operations of the store, the agents and the coordinator    *)
(* ===================================================================== *)

(** [l[start:]] for an integer [start]: a negative one counts from the
    end, and both are clipped to the list. *)
Definition slice_from {A} (start : Z) (l : list A) : list A :=
  if (start <? 0)%Z then drop (length l - Z.to_nat (- start)) l
  else drop (Z.to_nat start) l.

(** The line feed of the format strings. *)
Definition nl : string := String (ascii_of_nat 10) EmptyString.

(** [c[key]] for a string [key]: only a dictionary can be subscripted
    with it. *)
Definition getitem (c : pyval) (key : string) : outcome pyval :=
  match c with
  | VDict d =>
      match dict_get key d with
      | Some v => Ret v
      | None => Raise (KeyError key)
      end
  | _ => Raise (TypeError "object cannot be subscripted with a string")
  end.

(** [v == s] for a string [s]. *)
Definition eq_str (v : pyval) (s : string) : bool :=
  match v with
  | VStr s' => bool_decide (s' = s)
  | _ => false
  end.

(** [[c for c in history if c["npc_name"] == npc_name]] *)
Fixpoint select_by_npc (npc_name : string) (history : list pyval)
  : outcome (list pyval) :=
  match history with
  | [] => Ret []
  | c :: rest =>
      let* n := getitem c "npc_name" in
      let* r := select_by_npc npc_name rest in
      Ret (if eq_str n npc_name then c :: r else r)
  end.

(** The text fields of a record as the format strings of the summary
    use them.  A string is what [record_conversation] stores there; for
    another object, which only a loaded file can bring in, the model
    stops with [TypeError] where Python goes on to format the object. *)
Definition text_of (v : pyval) : outcome string :=
  match v with
  | VStr s => Ret s
  | _ => Raise (TypeError "not a string")
  end.

(** The two lines one record adds to the summary. *)
Definition summary_entry (conv : pyval) : outcome string :=
  let* p := getitem conv "player_input" in
  let* p := text_of p in
  let* n := getitem conv "npc_name" in
  let* n := text_of n in
  let* r := getitem conv "npc_response" in
  let* r := text_of r in
  Ret (nl +:+ "- Player: " +:+ Str.take_chars 50 p +:+ "..." +:+ nl
       +:+ "  " +:+ n +:+ ": " +:+ Str.take_chars 50 r +:+ "..." +:+ nl).

(** The loop of [get_conversation_summary] over the selected records. *)
Fixpoint summary_loop (summary : string) (conversations : list pyval) : outcome string :=
  match conversations with
  | [] => Ret summary
  | conv :: rest =>
      let* e := summary_entry conv in
      summary_loop (summary +:+ e) rest
  end.

(** [StoryManager.get_conversation_summary(npc_name, last_n)] *)
Definition get_conversation_summary (npc_name : option string) (last_n : Z)
    (self : StoryManager.t) : outcome string :=
  let* conversations :=
    match npc_name with
    | Some name =>
        if truthy npc_name
        then select_by_npc name (StoryManager.conversation_history self)
        else Ret (StoryManager.conversation_history self)
    | None => Ret (StoryManager.conversation_history self)
    end in
  let conversations := slice_from (- last_n) conversations in
  match conversations with
  | [] => Ret "No recent conversations."
  | _ => summary_loop ("Recent conversations:" +:+ nl) conversations
  end.

(** The clients of [agents/llms.py]: the two module-level ones, and any
    other client a caller passes. *)
Inductive llm_client : Type :=
| ollama_client
| open_router_client
| other_client.

(** The model [Text_Generator(model, llm_client)] keeps. *)
Definition Text_Generator_init_with (llm_client : llm_client) (model : LLM_Model)
  : Text_Generator.t :=
  Text_Generator.mk
    match llm_client with
    | ollama_client =>
        if decide (model = GPT_OSS_OPEN) then GPT_OSS_OLLAMA else model
    | open_router_client =>
        if decide (model = GPT_OSS_OLLAMA) then GPT_OSS_OPEN else model
    | other_client => model
    end.

(** [Text_Generator.generate_streaming_text].  [stream] is the remote
    call with [stream=True], consumed to its end: it raises, or gives
    the chunks, each with the [delta.content] of its choices. *)
Fixpoint concat_chunks (response : string) (chunks : list (list (option string)))
  : outcome string :=
  match chunks with
  | [] => Ret response
  | chunk :: rest =>
      match chunk with
      | [] => Raise (IndexError "list index out of range")
      | Some text :: _ => concat_chunks (response +:+ text) rest
      | None :: _ =>
          Raise (TypeError "can only concatenate str (not NoneType) to str")
      end
  end.

Definition generate_streaming_text
    (stream : string -> list message -> pyfloat -> Z ->
              outcome (list (list (option string))))
    (self : Text_Generator.t) (messages : list message)
    (temperature : pyfloat) (max_tokens : Z) : outcome string :=
  let* chunks :=
    stream (LLM_Model_value (Text_Generator.model self)) messages temperature max_tokens in
  concat_chunks "" chunks.

(** [GameOrchestrator.remove_npc] *)
Definition remove_npc (npc_name : string) (self : GameOrchestrator.t)
  : GameOrchestrator.t :=
  GameOrchestrator.mk (GameOrchestrator.settings self)
    (GameOrchestrator.story_manager self)
    (delete npc_name (GameOrchestrator.npcs self))
    (GameOrchestrator.registered self).

(** [GameOrchestrator.initialize_story]; [world_state] is the dictionary
    handed over, its items taken in order.  [active_goals] is read when
    the plot points are set: [the_plot_points] says that one list
    object is handed over for both. *)
Definition initialize_story (plot_points active_goals : list_object)
    (world_state : pydict) (self : GameOrchestrator.t) : GameOrchestrator.t :=
  let sm := StoryManager.set_plot_points plot_points (GameOrchestrator.story_manager self) in
  let sm := StoryManager.set_active_goals active_goals sm in
  let sm :=
    fold_left (fun sm kv => StoryManager.update_world_state (fst kv) (snd kv) sm)
      world_state sm in
  GameOrchestrator.mk (GameOrchestrator.settings self) sm (GameOrchestrator.npcs self)
    (GameOrchestrator.registered self).

(** [GameOrchestrator.get_conversation_history(npc_name)] *)
Definition get_conversation_history (npc_name : option string)
    (self : GameOrchestrator.t) : outcome (list pyval) :=
  let history :=
    StoryManager.conversation_history (GameOrchestrator.story_manager self) in
  match npc_name with
  | Some name => if truthy npc_name then select_by_npc name history else Ret history
  | None => Ret history
  end.

(** [GameOrchestrator.save_game] *)
Definition save_game (filepath : string) (self : GameOrchestrator.t) (fs : filesystem)
  : outcome filesystem :=
  StoryManager.save_state filepath (GameOrchestrator.story_manager self) fs.

(** [GameOrchestrator.load_game]: the store is loaded in place; roster
    and coordinator settings are not part of the file.  The memories
    [load_state] builds from a file are new objects, none of them the
    memory of an agent. *)
Definition load_game (filepath : string) (now : datetime) (self : GameOrchestrator.t)
    (fs : filesystem) : outcome GameOrchestrator.t :=
  let* sm := StoryManager.load_state filepath now (GameOrchestrator.story_manager self) fs in
  Ret (GameOrchestrator.mk (GameOrchestrator.settings self) sm
         (GameOrchestrator.npcs self)
         (match fs !! filepath with
          | Some _ => ∅
          | None => GameOrchestrator.registered self
          end)).

(* ===================================================================== *)
(** ** Statements and examples                                            *)
(* ===================================================================== *)

(** *** Predicates and views the properties are stated with *)

(** How often [x] occurs in [l]. *)
Definition occurrences (x : string) (l : list string) : nat :=
  length (filter (fun y => y = x) l).

(** The chat-completion call gave nothing to say: it raised, or the
    completion has no choice, or the content of its first choice is
    [None] or empty. *)
Definition no_content (answer : outcome (list (option string))) : bool :=
  match answer with
  | Raise _ => true
  | Ret [] => true
  | Ret (c :: _) => negb (truthy c)
  end.

(** The world state of the story can be printed into a prompt. *)
Definition world_printable (story_state : StoryState.t) : bool :=
  json_encodable (VDict (StoryState.world_state story_state)).

(** The request [generate_dialogue] sends. *)
Definition dialogue_request (env : collaborators) (self : NPCAgent.t)
    (player_input : string) (story_state : StoryState.t) : list message :=
  [mk_message "system" dialogue_system_prompt;
   mk_message "user"
     (context_prompt_text env (NPCAgent.personality self) (NPCAgent.memory self)
        player_input story_state)].

(** What [json.load] gives back for a value [json.dump] wrote: points
    in time have become their ISO text. *)
Fixpoint json_view (v : pyval) : pyval :=
  match v with
  | VList l => VList (map json_view l)
  | VDict d => VDict (map (fun kv => (fst kv, json_view (snd kv))) d)
  | VDatetime t => VStr (isoformat t)
  | _ => v
  end.

(** The values [json.dump] writes with the hook of [save_state]: no
    member of an enumeration anywhere. *)
Fixpoint json_dumpable (v : pyval) : bool :=
  match v with
  | VList l => forallb json_dumpable l
  | VDict d => forallb (fun kv => json_dumpable (snd kv)) d && distinct_keys d
  | VEnum _ => false
  | _ => true
  end.

(** The [llm_model] setting is [None], a string or a member of
    [LLM_Model]. *)
Definition llm_model_typed (v : pyval) : bool :=
  match v with
  | VNone | VStr _ | VEnum _ => true
  | _ => false
  end.

(** The stores the codec is defined on: the timestamp is a point in
    time [datetime] can hold, and the payloads typed [Any] (world state,
    memory records, conversation records) are JSON compatible. *)
Record persistable (s : StoryManager.t) : Prop := mk_persistable {
  persistable_timestamp :
    Datetime.valid (StoryState.timestamp (StoryManager.story_state s)) = true;
  persistable_world :
    dict_native (StoryState.world_state (StoryManager.story_state s)) = true;
  persistable_memories :
    forall k m, StoryManager.npc_memories s !! k = Some m ->
                forallb dict_native (NPCMemory.memories m) = true;
  persistable_history :
    forallb json_native (StoryManager.conversation_history s) = true
}.

(** The member a token names. *)
Definition member_of_token (token : string) : option LLM_Model :=
  List.find (fun m => bool_decide (LLM_Model_value m = token)) LLM_Model_members.

(** The token of a model identifier: a member counts as its value. *)
Definition llm_model_token (v : pyval) : pyval :=
  match v with
  | VEnum m => VStr (LLM_Model_value m)
  | _ => v
  end.

(** Two stores are equal field by field. *)
Record same_fields (s' s : StoryManager.t) : Prop := mk_same_fields {
  same_plot_points : plot_points_of s' = plot_points_of s;
  same_completed_events : completed_events_of s' = completed_events_of s;
  same_active_goals : active_goals_of s' = active_goals_of s;
  same_world_state : world_state_of s' = world_state_of s;
  same_timestamp :
    StoryState.timestamp (StoryManager.story_state s')
    = StoryState.timestamp (StoryManager.story_state s);
  same_npc_memories : StoryManager.npc_memories s' = StoryManager.npc_memories s;
  same_conversation_history :
    StoryManager.conversation_history s' = StoryManager.conversation_history s;
  same_settings : StoryManager.settings s' = StoryManager.settings s
}.

(** The round-trip law as the specification words it: whatever the
    file and the store loaded into, saving [s] and loading the file
    gives a store equal to [s] field by field. *)
Definition round_trip (s : StoryManager.t) : Prop :=
  forall (filepath : string) (fs : filesystem) (now : datetime) (s0 : StoryManager.t),
  exists fs' s',
    StoryManager.save_state filepath s fs = Ret fs'
    /\ StoryManager.load_state filepath now s0 fs' = Ret s'
    /\ same_fields s' s.

(** A story state with the fields of [ss], each list an object of its
    own: what the constructor builds from them. *)
Definition rebuilt (ss : StoryState.t) : StoryState.t :=
  StoryState.mk (StoryState.plot_points ss) (StoryState.completed_events ss)
    (StoryState.active_goals ss) (StoryState.world_state ss) (StoryState.timestamp ss).

(** The dictionary of character memories [save_state] writes. *)
Definition memories_dict (m : gmap string NPCMemory.t) : pydict :=
  map (fun kv => (fst kv, VDict (NPCMemory.model_dump (snd kv)))) (map_to_list m).

(** The settings dictionary [save_state] writes. *)
Definition saved_settings (st : GameSettings.t) : pydict :=
  [("llm_model", llm_model_token (GameSettings.llm_model st));
   ("temperature", VFloat (GameSettings.temperature st));
   ("max_tokens", VInt (GameSettings.max_tokens st));
   ("story_style", VStr (GameSettings.story_style st));
   ("difficulty", VStr (GameSettings.difficulty st));
   ("custom_instructions", GameSettings.dump_opt_str (GameSettings.custom_instructions st))].

(** The story state as [json.load] gives it back. *)
Definition loaded_story_state (ss : StoryState.t) : pydict :=
  [("plot_points", VList (map VStr (StoryState.plot_points ss)));
   ("completed_events", VList (map VStr (StoryState.completed_events ss)));
   ("active_goals", VList (map VStr (StoryState.active_goals ss)));
   ("world_state", VDict (StoryState.world_state ss));
   ("timestamp", VStr (isoformat (StoryState.timestamp ss)))].

(** The document [json.load] gives back for a saved store. *)
Definition loaded_data (s : StoryManager.t) : pydict :=
  [("story_state", VDict (loaded_story_state (StoryManager.story_state s)));
   ("npc_memories", VDict (memories_dict (StoryManager.npc_memories s)));
   ("conversation_history", VList (StoryManager.conversation_history s));
   ("settings", VDict (saved_settings (StoryManager.settings s)))].

(** *** Stores, agents and collaborators of the examples *)

(** One hundred and fifty calls, told apart by the player's input. *)
Definition calls_150 : list conversation_call :=
  map (fun i => mk_call noon (String (ascii_of_nat i) EmptyString) "Guard" "Hail." None)
      (seq 0 150).

(** A store in which the gate has been opened already. *)
Definition gate_opened : StoryManager.t :=
  StoryManager.complete_event "gate opened" fresh_store.

(** A store whose goal list was set to a sequence that names one goal
    twice. *)
Definition twice_the_key : StoryManager.t :=
  StoryManager.set_active_goals (other_list ["Find the key"; "Find the key"]) fresh_store.

(** A store with two different active goals. *)
Definition two_goals : StoryManager.t :=
  StoryManager.set_active_goals (other_list ["Find the key"; "Open the gate"]) fresh_store.

(** One list object is handed to both setters, and a plot point is
    added that is a goal already. *)
Definition one_list_for_both : list store_op :=
  [SetActiveGoals (other_list ["Find the key"]);
   SetPlotPoints the_active_goals;
   AddPlotPoint "Find the key"].

(** A run of store operations on the goals of a quest. *)
Definition quest_ops : list store_op :=
  [SetActiveGoals (other_list ["Find the key"; "Open the gate"]);
   AddActiveGoal "Find the key";
   AddActiveGoal "Cross the bridge";
   CompleteGoal "Open the gate";
   CompleteGoal "Slay the dragon";
   CompleteEvent "gate opened"].

(** A town guard, and collaborators that fail, stay silent, or answer. *)
Definition guard : NPCPersonality.t :=
  NPCPersonality.mk "Guard" "A town guard" ["alert"; "serious"] [] [] None "neutral".

(** The agent of the guard, as [NPCAgent(guard, GPT_OSS_OLLAMA)] builds it. *)
Definition guard_agent : NPCAgent.t :=
  NPCAgent.mk guard GPT_OSS_OLLAMA (NPCMemory.new "Guard")
    (Text_Generator.init GPT_OSS_OLLAMA).

(** Collaborators with a given chat-completion call and constant prompts. *)
Definition prompts_elided (create : string -> list message -> pyfloat -> Z ->
                                    outcome (list (option string))) : collaborators :=
  mk_collaborators create (fun _ _ _ _ => "context") (fun _ _ _ => "context").

(** The endpoint cannot be reached. *)
Definition env_down : collaborators :=
  prompts_elided (fun _ _ _ _ => Raise (APIError "Connection error.")).

(** The endpoint answers with a completion whose content is [None]. *)
Definition env_silent : collaborators :=
  prompts_elided (fun _ _ _ _ => Ret [None]).

(** The endpoint answers [Hail.] *)
Definition env_hail : collaborators :=
  prompts_elided (fun _ _ _ _ => Ret [Some "Hail."]).

(** The default of the [temperature] parameters. *)
Definition default_temperature : pyfloat := PyFloat "0.8".

(** A coordinator with the guard as its only character. *)
Definition tavern : GameOrchestrator.t :=
  match add_npc guard (Some GPT_OSS_OLLAMA) (GameOrchestrator.new None noon) with
  | Ret o => o
  | Raise _ => GameOrchestrator.new None noon
  end.

(** The same coordinator after a deadline, a point in time, was put
    among the world state. *)
Definition tavern_with_deadline : GameOrchestrator.t :=
  GameOrchestrator.mk (GameOrchestrator.settings tavern)
    (StoryManager.update_world_state "deadline" (VDatetime noon)
       (GameOrchestrator.story_manager tavern))
    (GameOrchestrator.npcs tavern) (GameOrchestrator.registered tavern).

(** The same coordinator after its game was saved and loaded again. *)
Definition tavern_reloaded : GameOrchestrator.t :=
  match save_game "tavern.json" tavern ∅ with
  | Ret fs =>
      match load_game "tavern.json" noon tavern fs with
      | Ret o => o
      | Raise _ => tavern
      end
  | Raise _ => tavern
  end.

(** A clock that advances by a second with every reading. *)
Definition ticking (k : nat) : datetime := mk_datetime 2024 5 17 12 0 (N.of_nat k) 0.

(** The store after the player has said hello to the guard. *)
Definition after_hello : StoryManager.t :=
  match process_player_input env_hail ticking "hello" "Guard" tavern with
  | Ret (_, o) => GameOrchestrator.story_manager o
  | Raise _ => fresh_store
  end.

(** A store whose model identifier is the string that names a member. *)
Definition named_model : StoryManager.t :=
  StoryManager.new
    (Some (GameSettings.mk (VStr "gpt-4.1-mini") default_temperature 500
             "adventure" "medium" None))
    noon.

(** A store of a running session, with JSON-compatible payloads only. *)
Definition quest_store : StoryManager.t :=
  StoryManager.mk
    (GameSettings.mk (VEnum DEEPSEEK_V3) default_temperature 500
       "mystery" "hard" (Some "Keep it short."))
    (StoryState.mk ["The gate is shut"] ["gate found"] ["Find the key"]
       [("torches", VInt 3); ("weather", VDict [("rain", VBool true)])]
       (mk_datetime 2024 2 29 23 59 59 120))
    {["Guard" := NPCMemory.mk "Guard"
                   [[("type", VStr "dialogue"); ("player_input", VStr "hello")]]
                   ["met the player"] 1]}
    [StoryManager.exchange noon "hello" "Guard" "Hail." (Some [("error", VStr "timeout")])].

(** The same store before a model was chosen. *)
Definition quest_without_model : StoryManager.t :=
  StoryManager.with_settings
    (GameSettings.mk VNone default_temperature 500 "mystery" "hard"
       (Some "Keep it short."))
    quest_store.

(** A store whose world state holds a member of [LLM_Model]. *)
Definition model_in_world : StoryManager.t :=
  StoryManager.update_world_state "model" (VEnum GPT_41_MINI) fresh_store.

(** Two files: one names the model ["gpt-4.1-mini"], a member; the
    other names ["gpt-4o-mini"], which is none. *)
Definition file_with_model (token : string) : json :=
  JObj [("settings", JObj [("llm_model", JStr token); ("max_tokens", JInt 200)])].

(** *** Proof automation *)


(** *** Further statements and examples *)

(** A run of [add_plot_point] calls. *)
Definition add_plot_points (points : list string) (s : StoryManager.t) : StoryManager.t :=
  fold_left (fun s p => StoryManager.add_plot_point p s) points s.

(** A member of [LLM_Model] occurs in the value. *)
Fixpoint contains_enum (v : pyval) : bool :=
  match v with
  | VList l => existsb contains_enum l
  | VDict d => existsb (fun kv => contains_enum (snd kv)) d
  | VEnum _ => true
  | _ => false
  end.

(** A member of [LLM_Model] occurs in a payload of the store: in the
    world state, in a memory record, or in a conversation record. *)
Definition save_blocked (s : StoryManager.t) : bool :=
  contains_enum (VDict (world_state_of s))
  || existsb (fun kv => existsb (fun d => contains_enum (VDict d)) (NPCMemory.memories (snd kv)))
       (map_to_list (StoryManager.npc_memories s))
  || existsb contains_enum (StoryManager.conversation_history s).

(** A run of dialogues with one character. *)
Fixpoint dialogues (env : collaborators) (clock : nat -> datetime) (npc_name : string)
    (inputs : list string) (self : GameOrchestrator.t) : outcome GameOrchestrator.t :=
  match inputs with
  | [] => Ret self
  | player_input :: rest =>
      let* '(_, self') := process_player_input env clock player_input npc_name self in
      dialogues env clock npc_name rest self'
  end.

(** The memory record [generate_dialogue] appends. *)
Definition dialogue_memory (player_input text : string) (at_time : datetime) : pydict :=
  [("type", VStr "dialogue");
   ("player_input", VStr player_input);
   ("npc_response", VStr text);
   ("timestamp", VStr (isoformat at_time))].

(** The metadata of a dialogue response. *)
Definition dialogue_metadata (npc : NPCAgent.t) : pydict :=
  [("emotional_state", VStr (NPCPersonality.emotional_state (NPCAgent.personality npc)));
   ("model", VEnum (NPCAgent.model npc))].

(** [q + t + q] *)
Definition quoted (q : ascii) (t : string) : string :=
  String q (t +:+ String q EmptyString).

(** The text starts and ends with the same quotation mark. *)
Definition in_quotes (text : string) : bool :=
  (Str.startswith double_quote text && Str.endswith double_quote text)
  || (Str.startswith single_quote text && Str.endswith single_quote text).

(** The memory record [generate_action] appends. *)
Definition action_memory (action_type : ActionType) (context text : string)
    (at_time : datetime) : pydict :=
  [("type", VStr (ActionType_value action_type));
   ("context", VStr context);
   ("action", VStr text);
   ("timestamp", VStr (isoformat at_time))].

(** Three spellings outside ASCII: ["emotion"] with a dotless i
    (U+0131), and ["story_event"] with the ligature of s and t (U+FB06)
    or with a long s (U+017F). *)
Definition dotless_emotion : string := "emot" +:+ Str.bytes [196; 177] +:+ "on".
Definition ligature_story_event : string := Str.bytes [239; 172; 134] +:+ "ory_event".
Definition long_s_story_event : string := Str.bytes [197; 191] +:+ "tory_event".

(** The request [generate_action] sends. *)
Definition action_request (env : collaborators) (self : NPCAgent.t)
    (context : string) (story_state : StoryState.t) : list message :=
  [mk_message "system" action_system_prompt;
   mk_message "user"
     (action_prompt_text env (NPCAgent.personality self) context story_state)].

(** The concatenation of a list of texts. *)
Definition concat_strings (l : list string) : string :=
  foldr String.append EmptyString l.

(** The two lines of the summary for the record of a call. *)
Definition call_entry (c : conversation_call) : string :=
  nl +:+ "- Player: " +:+ Str.take_chars 50 (call_player_input c) +:+ "..." +:+ nl
  +:+ "  " +:+ call_npc_name c +:+ ": " +:+ Str.take_chars 50 (call_npc_response c)
  +:+ "..." +:+ nl.

(** The calls a request for one character, or for all, is about. *)
Definition calls_about (npc_name : option string) (calls : list conversation_call)
  : list conversation_call :=
  match npc_name with
  | Some (String c n) => filter (fun call => call_npc_name call = String c n) calls
  | _ => calls
  end.

(** The chunk gives the text as the content of its first choice. *)
Definition chunk_gives (chunk : list (option string)) (text : string) : Prop :=
  exists others, chunk = Some text :: others.

(** What the invariants of the store ask of it. *)
Record store_invariant (s : StoryManager.t) : Prop := mk_store_invariant {
  invariant_log : length (StoryManager.conversation_history s) <= 100;
  invariant_events : NoDup (completed_events_of s);
  invariant_world : NoDup (map fst (world_state_of s))
}.

(** A point in time occurs in the value. *)
Fixpoint contains_datetime (v : pyval) : bool :=
  match v with
  | VList l => existsb contains_datetime l
  | VDict d => existsb (fun kv => contains_datetime (snd kv)) d
  | VDatetime _ => true
  | _ => false
  end.

(** Every dictionary in the value has pairwise distinct keys, as every
    dictionary object has. *)
Fixpoint keys_distinct (v : pyval) : bool :=
  match v with
  | VList l => forallb keys_distinct l
  | VDict d => forallb (fun kv => keys_distinct (snd kv)) d && distinct_keys d
  | _ => true
  end.

(** A store with a point in time among its world state. *)
Definition deadline_store : StoryManager.t :=
  StoryManager.update_world_state "deadline" (VDatetime noon) fresh_store.

(** A hundred and twenty greetings. *)
Definition greetings_120 : list string := replicate 120 "hello".

(** A coordinator whose world state knows the weather and the moon. *)
Definition sunny : GameOrchestrator.t :=
  GameOrchestrator.mk GameSettings.new
    (StoryManager.update_world_state "moon" (VStr "full")
       (StoryManager.update_world_state "weather" (VStr "sun") fresh_store))
    ∅ ∅.

(** Three calls, two of them to the guard. *)
Definition three_calls : list conversation_call :=
  [mk_call noon "hello" "Guard" "Hail." None;
   mk_call noon "any bread?" "Baker" "Fresh from the oven." None;
   mk_call noon "open the gate" "Guard" "Not at night." None].

(** A coordinator whose log holds the records of the three calls. *)
Definition chatty : GameOrchestrator.t :=
  GameOrchestrator.mk GameSettings.new (record_all three_calls fresh_store) ∅ ∅.


(** A run that mixes the operations of the store. *)
Definition busy_ops : list store_op :=
  [SetActiveGoals (other_list ["Find the key"; "Find the key"]);
   SetPlotPoints the_active_goals;
   CompleteGoal "Find the key";
   CompleteGoal "Slay the dragon";
   CompleteEvent "gate opened";
   CompleteEvent "gate opened";
   UpdateWorldState "weather" (VStr "rain");
   UpdateWorldState "weather" (VStr "sun");
   AddPlotPoint "The gate is shut";
   RecordConversation (mk_call noon "hello" "Guard" "Hail." None)].

(* ===================================================================== *)
(** * Properties                                                          *)
(* ===================================================================== *)

(** ** The conversation log *)

Section ConversationLog.

Lemma slice_last_length {A} (n : nat) (l : list A) :
  length (slice_last n l) = min n (length l).
Proof. unfold slice_last. rewrite length_drop. lia. Qed.

Lemma slice_last_short {A} (n : nat) (l : list A) :
  length l <= n -> slice_last n l = l.
Proof.
  intros H. unfold slice_last.
  replace (length l - n) with 0 by lia. reflexivity.
Qed.

(** Keeping a tail and then appending, or appending to the whole: the
    same tail is kept afterwards. *)
Lemma slice_last_app_slice {A} (n : nat) (l r : list A) :
  slice_last n (slice_last n l ++ r) = slice_last n (l ++ r).
Proof.
  unfold slice_last.
  rewrite !length_app, length_drop, !skipn_app, length_drop, drop_drop.
  f_equal; f_equal; lia.
Qed.

Lemma record_call_history (s : StoryManager.t) (c : conversation_call) :
  StoryManager.conversation_history (record_call s c)
  = slice_last 100 (StoryManager.conversation_history s ++ [record_of c]).
Proof.
  unfold record_call, StoryManager.record_conversation, record_of.
  case_decide as Hlen; simpl; [reflexivity|].
  symmetry. apply slice_last_short. lia.
Qed.

Lemma record_call_bounded (s : StoryManager.t) (c : conversation_call) :
  length (StoryManager.conversation_history (record_call s c)) <= 100.
Proof. rewrite record_call_history, slice_last_length. lia. Qed.

Lemma record_all_history (calls : list conversation_call) (s : StoryManager.t) :
  length (StoryManager.conversation_history s) <= 100 ->
  StoryManager.conversation_history (record_all calls s)
  = slice_last 100 (StoryManager.conversation_history s ++ map record_of calls).
Proof.
  revert s. induction calls as [|c calls IH] using rev_ind; intros s Hs.
  - simpl. rewrite app_nil_r. symmetry. by apply slice_last_short.
  - unfold record_all in *. rewrite fold_left_app. simpl.
    rewrite record_call_history, IH by done.
    rewrite map_app. simpl. rewrite app_assoc.
    apply slice_last_app_slice.
Qed.

End ConversationLog.

(** C2.  Whatever calls of [record_conversation] are made on a new
    store, the conversation log never holds more than 100 records, and
    it holds the records of the last 100 calls (all of them when there
    were fewer) in the order of the calls, oldest first; after 150 calls
    these are the records of calls 51 to 150.  A single call brings the
    log of any store down to at most 100 records. *)
Theorem record_conversation_keeps_last_100
    (settings : option GameSettings.t) (now : datetime)
    (calls : list conversation_call) :
  let log :=
    StoryManager.conversation_history
      (record_all calls (StoryManager.new settings now)) in
  length log <= 100
  /\ log = drop (length calls - 100) (map record_of calls)
  /\ (length calls = 150 ->
      log = drop 50 (map record_of calls) /\ length log = 100)
  /\ (forall (s : StoryManager.t) (c : conversation_call),
        length (StoryManager.conversation_history (record_call s c)) <= 100).
Proof.
  intros log.
  assert (Hlog : log = drop (length calls - 100) (map record_of calls)).
  { subst log. rewrite record_all_history by (simpl; lia).
    simpl. unfold slice_last. by rewrite length_map. }
  assert (Hlen : length log = min 100 (length calls)).
  { rewrite Hlog, length_drop, length_map. lia. }
  repeat split.
  - lia.
  - exact Hlog.
  - rewrite Hlog, H. reflexivity.
  - lia.
  - apply record_call_bounded.
Qed.

Lemma record_conversation_keeps_last_100_witness :
  length calls_150 = 150
  /\ StoryManager.conversation_history (record_all calls_150 fresh_store)
     = drop 50 (map record_of calls_150).
Proof.
  split; [reflexivity|].
  apply (record_conversation_keeps_last_100 None noon calls_150).
  reflexivity.
Defined.

(** ** Completed events *)

Section CompletedEvents.

Lemma complete_event_present (name : string) (s : StoryManager.t) :
  name ∈ completed_events_of s -> StoryManager.complete_event name s = s.
Proof.
  intros Hin. unfold StoryManager.complete_event.
  case_decide as Hn; [|reflexivity]. by destruct Hn.
Qed.

Lemma complete_event_absent (name : string) (s : StoryManager.t) :
  name ∉ completed_events_of s ->
  StoryManager.complete_event name s
  = StoryManager.with_story_state
      (StoryState.with_completed_events (completed_events_of s ++ [name])
         (StoryManager.story_state s)) s.
Proof.
  intros Hn. unfold StoryManager.complete_event.
  case_decide; [reflexivity|done].
Qed.

Lemma complete_event_NoDup (name : string) (s : StoryManager.t) :
  NoDup (completed_events_of s) ->
  NoDup (completed_events_of (StoryManager.complete_event name s)).
Proof.
  intros Hnd. destruct (decide (name ∈ completed_events_of s)) as [Hin|Hn].
  - by rewrite complete_event_present.
  - rewrite complete_event_absent by done.
    unfold completed_events_of at 1. simpl.
    apply NoDup_app. split; [done|]. split.
    + intros x Hx Hx'. apply list_elem_of_singleton in Hx'. by subst.
    + apply NoDup_singleton.
Qed.

Lemma complete_events_NoDup (names : list string) (s : StoryManager.t) :
  NoDup (completed_events_of s) ->
  NoDup (completed_events_of (complete_events names s)).
Proof.
  revert s. induction names as [|name names IH]; intros s Hnd; [done|].
  simpl. apply IH. by apply complete_event_NoDup.
Qed.

End CompletedEvents.

(** C7.  Whatever names [complete_event] is called with, and however
    often with the same one, [completed_events] holds no name twice: on a
    new store, and on every store whose list was free of repetitions.
    A call appends the name when it is not in the list, and changes
    nothing when it is. *)
Theorem complete_event_never_duplicates
    (settings : option GameSettings.t) (now : datetime)
    (names : list string) (s : StoryManager.t) (name : string) :
  NoDup (completed_events_of (complete_events names (StoryManager.new settings now)))
  /\ (NoDup (completed_events_of s) ->
      NoDup (completed_events_of (complete_events names s)))
  /\ (name ∈ completed_events_of s -> StoryManager.complete_event name s = s)
  /\ (name ∉ completed_events_of s ->
      completed_events_of (StoryManager.complete_event name s)
      = completed_events_of s ++ [name]).
Proof.
  split; [|split; [|split]].
  - apply complete_events_NoDup. simpl. apply NoDup_nil_2.
  - apply complete_events_NoDup.
  - apply complete_event_present.
  - intros Hn. by rewrite complete_event_absent.
Qed.

Lemma complete_event_never_duplicates_witness :
  NoDup (completed_events_of
           (complete_events ["gate opened"; "bridge crossed"; "gate opened"] gate_opened))
  /\ StoryManager.complete_event "gate opened" gate_opened = gate_opened
  /\ completed_events_of (StoryManager.complete_event "bridge crossed" gate_opened)
     = ["gate opened"; "bridge crossed"].
Proof.
  destruct (complete_event_never_duplicates None noon
              ["gate opened"; "bridge crossed"; "gate opened"] gate_opened
              "gate opened") as (_ & Hkeep & Hin & _).
  destruct (complete_event_never_duplicates None noon [] gate_opened
              "bridge crossed") as (_ & _ & _ & Hout).
  split; [|split].
  - apply Hkeep. vm_compute. apply NoDup_singleton.
  - apply Hin. vm_compute. apply list_elem_of_here.
  - apply Hout. vm_compute. intros Hin'.
    apply list_elem_of_singleton in Hin'. discriminate.
Defined.

(** ** Active goals *)

Section ActiveGoals.

Lemma list_remove_first (x : string) (l : list string) :
  x ∈ l ->
  exists l1 l2,
    l = l1 ++ (x :: l2) /\ (x ∉ l1) /\ list_remove x l = Ret (l1 ++ l2).
Proof.
  induction l as [|y l IH]; intros Hin.
  - by apply elem_of_nil in Hin.
  - simpl. destruct (decide (y = x)) as [->|Hne].
    + exists [], l. split; [done|]. split; [apply not_elem_of_nil|done].
    + apply elem_of_cons in Hin as [->|Hin]; [done|].
      destruct (IH Hin) as (l1 & l2 & -> & Hn & ->).
      exists (y :: l1), l2. split; [done|]. split; [|done].
      intros [->|Hin']%elem_of_cons; done.
  Qed.

Lemma occurrences_app (x : string) (l1 l2 : list string) :
  occurrences x (l1 ++ l2) = occurrences x l1 + occurrences x l2.
Proof. unfold occurrences. by rewrite filter_app, length_app. Qed.

Lemma occurrences_cons_eq (x : string) (l : list string) :
  occurrences x (x :: l) = S (occurrences x l).
Proof. unfold occurrences. by rewrite filter_cons_True. Qed.

Lemma occurrences_zero (x : string) (l : list string) :
  occurrences x l = 0 <-> x ∉ l.
Proof.
  unfold occurrences. induction l as [|y l IH]; simpl.
  - split; [intros _; apply not_elem_of_nil|done].
  - rewrite filter_cons. case_decide as Hy; simpl.
    + subst. split; [done|]. intros Hn. destruct Hn. apply list_elem_of_here.
    + rewrite IH. split.
      * intros Hn [->|Hin]%elem_of_cons; done.
      * intros Hn Hin. apply Hn. by apply list_elem_of_further.
Qed.

Lemma NoDup_occurrences (x : string) (l : list string) :
  NoDup l -> occurrences x l <= 1.
Proof.
  induction 1 as [|y l Hy Hnd IH]; [cbn; lia|].
  destruct (decide (y = x)) as [->|Hne].
  - rewrite occurrences_cons_eq.
    apply occurrences_zero in Hy. lia.
  - unfold occurrences in *. by rewrite filter_cons_False.
Qed.

Lemma complete_goal_absent (goal : string) (s : StoryManager.t) :
  goal ∉ active_goals_of s -> StoryManager.complete_goal goal s = Ret s.
Proof.
  intros Hn. unfold StoryManager.complete_goal. case_decide; done.
Qed.

Lemma complete_goal_present (goal : string) (s : StoryManager.t) :
  goal ∈ active_goals_of s ->
  exists l1 l2,
    active_goals_of s = l1 ++ (goal :: l2) /\ (goal ∉ l1)
    /\ StoryManager.complete_goal goal s
       = Ret (StoryManager.with_story_state
                (StoryState.write_active_goals (l1 ++ l2) (StoryManager.story_state s))
                s).
Proof.
  intros Hin. unfold StoryManager.complete_goal.
  case_decide; [|done].
  destruct (list_remove_first goal _ Hin) as (l1 & l2 & Heq & Hn & Hrm).
  exists l1, l2. repeat split; [done..|].
  unfold active_goals_of in *. by rewrite Hrm.
Qed.

Lemma active_goals_written (items : list string) (s : StoryManager.t) :
  active_goals_of
    (StoryManager.with_story_state
       (StoryState.write_active_goals items (StoryManager.story_state s)) s)
  = items.
Proof.
  unfold active_goals_of, StoryState.active_goals, StoryState.write_active_goals.
  cbn. by destruct (StoryState.assignable _).
Qed.

(** A change in place of the goal list reaches [plot_points] exactly
    when the two attributes hold one list object. *)
Lemma plot_points_after_goals_written (items : list string) (s : StoryManager.t) :
  let s' :=
    StoryManager.with_story_state
      (StoryState.write_active_goals items (StoryManager.story_state s)) s in
  (lists_separate s -> plot_points_of s' = plot_points_of s /\ lists_separate s')
  /\ (~ lists_separate s -> plot_points_of s' = items /\ ~ lists_separate s').
Proof.
  unfold lists_separate, plot_points_of, StoryState.plot_points,
    StoryState.write_active_goals.
  cbn. destruct (StoryState.assignable _); cbn; split; intros H; try done;
    by destruct H.
Qed.

Lemma run_op_NoDup (op : store_op) (s : StoryManager.t) :
  lists_separate s ->
  NoDup (active_goals_of s) ->
  goal_list_distinct op ->
  exists s', run_op s op = Ret s' /\ NoDup (active_goals_of s') /\ lists_separate s'.
Proof.
  intros Hsep Hnd Hop.
  destruct s as [st [[pp ag|both] ce ws ts] mem hist]; [|done].
  unfold lists_separate, active_goals_of in *. cbn in Hnd.
  destruct op; cbn [run_op].
  - (* set_plot_points *)
    eexists; split; [reflexivity|]. by destruct plot_points.
  - (* add_plot_point *)
    eexists; split; [reflexivity|]. done.
  - (* complete_event *)
    eexists; split; [reflexivity|].
    unfold StoryManager.complete_event. by case_decide.
  - (* set_active_goals *)
    eexists; split; [reflexivity|]. by destruct goals.
  - (* add_active_goal *)
    eexists; split; [reflexivity|].
    unfold StoryManager.add_active_goal. case_decide as Hn; [|done].
    cbn in Hn |- *. split; [|done].
    apply NoDup_app. split; [done|]. split; [|apply NoDup_singleton].
    intros x Hx Hx'. apply list_elem_of_singleton in Hx'. by subst.
  - (* complete_goal *)
    unfold StoryManager.complete_goal. cbn.
    case_decide as Hin; [|by eexists].
    destruct (list_remove_first goal _ Hin) as (l1 & l2 & Heq & _ & ->).
    eexists; split; [reflexivity|]. cbn. split; [|done].
    rewrite Heq in Hnd. apply NoDup_app in Hnd as (H1 & H12 & H2).
    apply NoDup_cons in H2 as [_ H2].
    apply NoDup_app. repeat split; [done| |done].
    intros x Hx Hx'. apply (H12 x Hx). by apply list_elem_of_further.
  - (* update_world_state *)
    eexists; split; [reflexivity|]. done.
  - (* record_conversation *)
    eexists; split; [reflexivity|].
    unfold record_call, StoryManager.record_conversation. by case_decide.
  - (* register_npc_memory *)
    eexists; split; [reflexivity|]. done.
Qed.

End ActiveGoals.

(** C6, as stated, fails.  [set_active_goals] stores the sequence it is
    given, repetitions included.  And it stores the list object itself:
    when the same object is handed to [set_plot_points], a plot point
    that is added is added to the goals, whether it is among them
    already or not. *)
Lemma active_goals_duplicates_counterexample :
  ~ (forall (ops : list store_op) (s' : StoryManager.t),
       run_ops ops fresh_store = Ret s' -> NoDup (active_goals_of s'))
  /\ exists s',
       run_ops one_list_for_both fresh_store = Ret s'
       /\ active_goals_of s' = ["Find the key"; "Find the key"].
Proof.
  split.
  - intros Hclaim.
    specialize (Hclaim [SetActiveGoals (other_list ["Find the key"; "Find the key"])]
                       twice_the_key eq_refl).
    vm_compute in Hclaim.
    apply NoDup_cons in Hclaim as [Hn _].
    apply Hn, list_elem_of_here.
  - eexists. split; [vm_compute; reflexivity|]. reflexivity.
Qed.

(** C6, amended.  [set_active_goals] installs the list it is given as it
    is; [add_active_goal] appends a goal only when it is absent, and
    [complete_goal] only removes.  So along every sequence of store
    operations in which [set_active_goals] is handed lists of its own
    that are free of repetitions, and the goal list is not handed to
    [set_plot_points], [active_goals] is free of repetitions and no
    operation raises: from a new store, and from every store whose goal
    list is free of repetitions and an object of its own. *)
Theorem active_goals_no_duplicates
    (ops : list store_op) (s : StoryManager.t) (goals : list_object)
    (settings : option GameSettings.t) (now : datetime) :
  active_goals_of (StoryManager.set_active_goals goals s)
  = StoryState.items_of goals (StoryManager.story_state s)
  /\ (lists_separate s -> NoDup (active_goals_of s) -> goal_lists_distinct ops ->
      exists s',
        run_ops ops s = Ret s' /\ NoDup (active_goals_of s') /\ lists_separate s')
  /\ (goal_lists_distinct ops ->
      exists s',
        run_ops ops (StoryManager.new settings now) = Ret s'
        /\ NoDup (active_goals_of s')).
Proof.
  assert (Hrun : forall s, lists_separate s -> NoDup (active_goals_of s) ->
                   goal_lists_distinct ops ->
                   exists s', run_ops ops s = Ret s' /\ NoDup (active_goals_of s')
                              /\ lists_separate s').
  { clear s. induction ops as [|op ops IH]; intros s Hsep Hnd Hops.
    - by exists s.
    - apply Forall_cons in Hops as [Hop Hops].
      destruct (run_op_NoDup op s Hsep Hnd Hop) as (s1 & Hrun & Hnd1 & Hsep1).
      simpl. rewrite Hrun. simpl. by apply IH. }
  split.
  { unfold active_goals_of, StoryState.active_goals. by destruct goals. }
  split; [apply Hrun|].
  intros Hops.
  destruct (Hrun (StoryManager.new settings now)) as (s' & Hs' & Hnd & _);
    [exact I|apply NoDup_nil_2|exact Hops|].
  by exists s'.
Qed.

Lemma active_goals_no_duplicates_witness :
  exists s', run_ops quest_ops fresh_store = Ret s'
             /\ NoDup (active_goals_of s')
             /\ active_goals_of s' = ["Find the key"; "Cross the bridge"].
Proof.
  destruct (active_goals_no_duplicates quest_ops fresh_store (other_list []) None noon)
    as (_ & _ & Hinv).
  destruct Hinv as (s' & Hrun & Hnd).
  - unfold goal_lists_distinct, quest_ops.
    repeat (apply Forall_cons; split); try exact I; [|apply Forall_nil_2].
    apply NoDup_cons. split.
    + intros Hin. apply list_elem_of_singleton in Hin. discriminate.
    + apply NoDup_singleton.
  - exists s'. split; [exact Hrun|]. split; [exact Hnd|].
    vm_compute in Hrun. injection Hrun as <-. reflexivity.
Defined.

(** C8, as stated, fails when the goal occurs more than once: the first
    call removes one occurrence, and the second call removes another
    instead of doing nothing. *)
Lemma complete_goal_twice_counterexample :
  ~ (forall s1 : StoryManager.t,
       StoryManager.complete_goal "Find the key" twice_the_key = Ret s1 ->
       StoryManager.complete_goal "Find the key" s1 = Ret s1).
Proof.
  intros Hclaim.
  specialize (Hclaim _ eq_refl). vm_compute in Hclaim. discriminate.
Qed.

(** C8, amended.  [complete_goal g] never raises.  When [g] is not among
    the active goals the store is left as it is.  When it is, its first
    occurrence is removed from the goal list, in place: [plot_points]
    loses it as well when it holds that same list object, and is left
    alone when it holds one of its own; nothing else of the store
    changes.  When [g] occurs at most once (so whenever the list holds
    no repetitions), [g] is absent afterwards and a second
    [complete_goal g] leaves the store as the first one left it. *)
Theorem complete_goal_removes_first_occurrence
    (goal : string) (s : StoryManager.t) :
  exists s1,
    StoryManager.complete_goal goal s = Ret s1
    /\ (goal ∉ active_goals_of s -> s1 = s)
    /\ (goal ∈ active_goals_of s ->
        exists l1 l2,
          active_goals_of s = l1 ++ (goal :: l2) /\ (goal ∉ l1)
          /\ active_goals_of s1 = l1 ++ l2
          /\ (lists_separate s -> plot_points_of s1 = plot_points_of s)
          /\ (~ lists_separate s -> plot_points_of s1 = l1 ++ l2))
    /\ (lists_separate s1 <-> lists_separate s)
    /\ completed_events_of s1 = completed_events_of s
    /\ world_state_of s1 = world_state_of s
    /\ StoryState.timestamp (StoryManager.story_state s1)
       = StoryState.timestamp (StoryManager.story_state s)
    /\ StoryManager.settings s1 = StoryManager.settings s
    /\ StoryManager.npc_memories s1 = StoryManager.npc_memories s
    /\ StoryManager.conversation_history s1 = StoryManager.conversation_history s
    /\ (occurrences goal (active_goals_of s) <= 1 ->
        (goal ∉ active_goals_of s1) /\ StoryManager.complete_goal goal s1 = Ret s1)
    /\ (NoDup (active_goals_of s) -> occurrences goal (active_goals_of s) <= 1).
Proof.
  destruct (decide (goal ∈ active_goals_of s)) as [Hin|Hn].
  - destruct (complete_goal_present goal s Hin) as (l1 & l2 & Heq & Hn1 & Hrun).
    destruct (plot_points_after_goals_written (l1 ++ l2) s) as [Hsep Hshared].
    cbn zeta in Hsep, Hshared.
    eexists. split; [exact Hrun|]. split; [done|]. split.
    { intros _. exists l1, l2. split; [done|]. split; [done|].
      split; [apply active_goals_written|].
      split; [intros H; by apply Hsep|intros H; by apply Hshared]. }
    split.
    { split; intros H.
      - destruct (decide (lists_separate s)) as [|Hno]; [done|].
        by destruct (Hshared Hno) as [_ []].
      - by apply Hsep. }
    repeat (split; [reflexivity|]).
    split; [|apply NoDup_occurrences].
    intros Hocc. rewrite Heq, occurrences_app, occurrences_cons_eq in Hocc.
    assert (Hn2 : goal ∉ l2) by (apply occurrences_zero; lia).
    assert (Hout : goal ∉ l1 ++ l2).
    { intros [?|?]%elem_of_app; done. }
    rewrite active_goals_written.
    split; [exact Hout|]. apply complete_goal_absent.
    by rewrite active_goals_written.
  - exists s. split; [by apply complete_goal_absent|]. split; [done|].
    split; [done|]. repeat (split; [reflexivity|]).
    split; [|apply NoDup_occurrences].
    intros _. split; [done|]. by apply complete_goal_absent.
Qed.

Lemma complete_goal_removes_first_occurrence_witness :
  exists s1,
    StoryManager.complete_goal "Find the key" two_goals = Ret s1
    /\ active_goals_of s1 = ["Open the gate"]
    /\ StoryManager.complete_goal "Find the key" s1 = Ret s1
    /\ StoryManager.complete_goal "Slay the dragon" two_goals = Ret two_goals.
Proof.
  destruct (complete_goal_removes_first_occurrence "Find the key" two_goals)
    as (s1 & Hrun & _ & _ & _ & _ & _ & _ & _ & _ & _ & Honce & _).
  destruct (complete_goal_removes_first_occurrence "Slay the dragon" two_goals)
    as (s2 & Hrun2 & Habsent & _).
  exists s1. split; [exact Hrun|]. split.
  { vm_compute in Hrun. injection Hrun as <-. reflexivity. }
  split.
  { apply Honce. vm_compute. lia. }
  rewrite Hrun2. f_equal. apply Habsent. vm_compute.
  intros Hin. repeat (apply elem_of_cons in Hin as [Hin|Hin]; [discriminate|]).
  by apply elem_of_nil in Hin.
Defined.

(** ** Building the prompts *)

Section Prompts.
Context (env : collaborators).

Lemma json_dumps_cases (v : pyval) :
  if json_encodable v
  then exists j, json_dumps v = Ret j
  else exists msg, json_dumps v = Raise (TypeError msg).
Proof.
  induction v as [| | | | |l IH|d IH| |] using pyval_nested_ind; cbn [json_encodable];
    try (eexists; reflexivity).
  - cbn [json_dumps].
    induction IH as [|x l Hx _ IHl]; cbn [forallb]; [by eexists|].
    destruct (json_encodable x); cbn [andb].
    + destruct Hx as [j ->]. cbn [bind].
      destruct (forallb json_encodable l).
      * destruct IHl as [j' Hl]. unfold bind in Hl.
        destruct ((fix go (l : list pyval) : outcome (list json) := _) l)
          as [js|e]; [|discriminate]. by eexists.
      * destruct IHl as [msg Hl]. unfold bind in Hl.
        destruct ((fix go (l : list pyval) : outcome (list json) := _) l)
          as [js|e]; [discriminate|]. cbn [bind]. by exists msg.
    + destruct Hx as [msg ->]. by exists msg.
  - cbn [json_dumps].
    induction IH as [|[k x] d Hx _ IHd]; cbn [forallb snd]; [by eexists|].
    cbn [snd] in Hx.
    destruct (json_encodable x); cbn [andb].
    + destruct Hx as [j ->]. cbn [bind].
      destruct (forallb (fun kv => json_encodable (snd kv)) d).
      * destruct IHd as [j' Hd]. unfold bind in Hd.
        destruct ((fix go (d : pydict) : outcome (list (string * json)) := _) d)
          as [js|e]; [|discriminate]. by eexists.
      * destruct IHd as [msg Hd]. unfold bind in Hd.
        destruct ((fix go (d : pydict) : outcome (list (string * json)) := _) d)
          as [js|e]; [discriminate|]. cbn [bind]. by exists msg.
    + destruct Hx as [msg ->]. by exists msg.
Qed.

Lemma _build_context_prompt_printable (self : NPCAgent.t) (player_input : string)
    (story_state : StoryState.t) :
  world_printable story_state = true ->
  _build_context_prompt env self player_input story_state
  = Ret (context_prompt_text env (NPCAgent.personality self) (NPCAgent.memory self)
           player_input story_state).
Proof.
  intros H. unfold _build_context_prompt, world_printable in *.
  pose proof (json_dumps_cases (VDict (StoryState.world_state story_state))) as Hc.
  rewrite H in Hc. destruct Hc as [j ->]. reflexivity.
Qed.

Lemma _build_context_prompt_raises (self : NPCAgent.t) (player_input : string)
    (story_state : StoryState.t) :
  world_printable story_state = false ->
  exists msg,
    _build_context_prompt env self player_input story_state = Raise (TypeError msg).
Proof.
  intros H. unfold _build_context_prompt, world_printable in *.
  pose proof (json_dumps_cases (VDict (StoryState.world_state story_state))) as Hc.
  rewrite H in Hc. destruct Hc as [msg ->]. by exists msg.
Qed.

Lemma action_prompt_printable (self : NPCAgent.t) (context : string)
    (story_state : StoryState.t) :
  world_printable story_state = true ->
  action_prompt env self context story_state
  = Ret (action_prompt_text env (NPCAgent.personality self) context story_state).
Proof.
  intros H. unfold action_prompt, world_printable in *.
  pose proof (json_dumps_cases (VDict (StoryState.world_state story_state))) as Hc.
  rewrite H in Hc. destruct Hc as [j ->]. reflexivity.
Qed.

Lemma action_prompt_raises (self : NPCAgent.t) (context : string)
    (story_state : StoryState.t) :
  world_printable story_state = false ->
  exists msg, action_prompt env self context story_state = Raise (TypeError msg).
Proof.
  intros H. unfold action_prompt, world_printable in *.
  pose proof (json_dumps_cases (VDict (StoryState.world_state story_state))) as Hc.
  rewrite H in Hc. destruct Hc as [msg ->]. by exists msg.
Qed.

(** With a world state that can be printed, [generate_dialogue] is the
    body below the prompt, run on what [generate_text] gives. *)
Lemma generate_dialogue_printable (self : NPCAgent.t) (player_input : string)
    (story_state : StoryState.t) (temperature : pyfloat) (max_tokens : Z)
    (now : datetime) :
  world_printable story_state = true ->
  generate_dialogue env self player_input story_state temperature max_tokens now
  = dialogue_of_generation self player_input story_state now
      (generate_text env (NPCAgent.llm self)
         (dialogue_request env self player_input story_state) temperature max_tokens).
Proof.
  intros H. unfold generate_dialogue.
  rewrite (_build_context_prompt_printable _ _ _ H). reflexivity.
Qed.

Lemma generate_dialogue_raises (self : NPCAgent.t) (player_input : string)
    (story_state : StoryState.t) (temperature : pyfloat) (max_tokens : Z)
    (now : datetime) :
  world_printable story_state = false ->
  exists msg,
    generate_dialogue env self player_input story_state temperature max_tokens now
    = Raise (TypeError msg).
Proof.
  intros H. unfold generate_dialogue.
  destruct (_build_context_prompt_raises self player_input _ H) as [msg ->].
  by exists msg.
Qed.

End Prompts.

(** ** Failure of the text generation *)

Section GenerationFailure.
Context (env : collaborators).

Lemma generate_text_returns (self : Text_Generator.t) (messages : list message)
    (temperature : pyfloat) (max_tokens : Z) :
  exists r, generate_text env self messages temperature max_tokens = Ret r.
Proof.
  unfold generate_text.
  destruct (chat_completions_create env _ _ _ _) as [[|c cs]|e]; simpl; eauto.
Qed.

Lemma generate_text_no_content (self : Text_Generator.t) (messages : list message)
    (temperature : pyfloat) (max_tokens : Z) :
  no_content (chat_completions_create env (LLM_Model_value (Text_Generator.model self))
                messages temperature max_tokens) = true ->
  exists r, generate_text env self messages temperature max_tokens = Ret r
            /\ truthy r = false.
Proof.
  unfold generate_text.
  destruct (chat_completions_create env _ _ _ _) as [[|c cs]|e]; simpl; intros H.
  - by exists (Some "").
  - exists c. split; [done|]. by destruct (truthy c).
  - by exists (Some "").
Qed.

Lemma dialogue_of_generation_returns (self : NPCAgent.t) (player_input : string)
    (story_state : StoryState.t) (now : datetime)
    (generated : outcome (option string)) :
  exists r self',
    dialogue_of_generation self player_input story_state now generated = Ret (r, self').
Proof. destruct generated; simpl; eauto. Qed.

(** What the body of [generate_dialogue] does with a text that was
    generated: the response carries the metadata of a dialogue, without
    an error text, and the exchange is appended to the memory. *)
Lemma dialogue_of_generated (self : NPCAgent.t) (player_input : string)
    (story_state : StoryState.t) (now : datetime) (r : option string) :
  exists resp self',
    dialogue_of_generation self player_input story_state now (Ret r)
    = Ret (resp, self')
    /\ ActionResponse.metadata resp = Some (dialogue_metadata self)
    /\ dict_get "error" (default [] (ActionResponse.metadata resp)) = None
    /\ NPCMemory.memories (NPCAgent.memory self')
       = NPCMemory.memories (NPCAgent.memory self)
           ++ [dialogue_memory player_input (ActionResponse.content resp)
                 (StoryState.timestamp story_state)]
    /\ NPCMemory.player_interactions (NPCAgent.memory self')
       = (NPCMemory.player_interactions (NPCAgent.memory self) + 1)%Z
    /\ (truthy r = false -> ActionResponse.content resp = dialogue_filler).
Proof.
  unfold dialogue_of_generation. cbn [try_except bind ActionResponse.init
    ActionResponse.validate_action_type].
  eexists _, _. split; [reflexivity|]. cbn.
  repeat split. intros ->. reflexivity.
Qed.

End GenerationFailure.

(** C10.  [Text_Generator.generate_text] returns for every request,
    whatever the chat-completion call does: when the call raises, and
    when the completion it answers with has no choice to index, the
    failure is caught and the empty string is returned; otherwise the
    content of the first choice is.  So nothing of this path reaches
    [generate_dialogue], which calls it: that method returns whenever
    its prompt could be built, and raises what building the prompt
    raised otherwise, whatever the completion call does. *)
Theorem generate_text_never_raises
    (env : collaborators) (self : Text_Generator.t) (messages : list message)
    (temperature : pyfloat) (max_tokens : Z) :
  let call :=
    chat_completions_create env (LLM_Model_value (Text_Generator.model self))
      messages temperature max_tokens in
  (exists r, generate_text env self messages temperature max_tokens = Ret r)
  /\ (forall e, call = Raise e ->
        generate_text env self messages temperature max_tokens = Ret (Some ""))
  /\ (call = Ret [] ->
        generate_text env self messages temperature max_tokens = Ret (Some ""))
  /\ (forall c cs, call = Ret (c :: cs) ->
        generate_text env self messages temperature max_tokens = Ret c)
  /\ (forall (agent : NPCAgent.t) (player_input : string) (story_state : StoryState.t)
             (now : datetime),
        match _build_context_prompt env agent player_input story_state with
        | Ret _ =>
            exists r agent',
              generate_dialogue env agent player_input story_state temperature
                max_tokens now = Ret (r, agent')
        | Raise e =>
            generate_dialogue env agent player_input story_state temperature
              max_tokens now = Raise e
        end).
Proof.
  intros call. split; [apply generate_text_returns|].
  subst call. unfold generate_text.
  split; [by intros e ->|]. split; [by intros ->|]. split; [by intros c cs ->|].
  intros. unfold generate_dialogue.
  destruct (_build_context_prompt env agent player_input story_state); cbn [bind].
  - apply dialogue_of_generation_returns.
  - reflexivity.
Qed.

Lemma generate_text_never_raises_witness :
  generate_text env_down (Text_Generator.init GPT_OSS_OPEN)
    [mk_message "user" "hello"] default_temperature 200 = Ret (Some "")
  /\ generate_text env_hail (Text_Generator.init GPT_OSS_OPEN)
       [mk_message "user" "hello"] default_temperature 200 = Ret (Some "Hail.").
Proof.
  split.
  - apply (generate_text_never_raises env_down (Text_Generator.init GPT_OSS_OPEN)
             [mk_message "user" "hello"] default_temperature 200)
      with (e := APIError "Connection error.").
    reflexivity.
  - apply (generate_text_never_raises env_hail (Text_Generator.init GPT_OSS_OPEN)
             [mk_message "user" "hello"] default_temperature 200)
      with (cs := []).
    reflexivity.
Defined.

(** C5, as stated, fails.  With a chat-completion call that raises, the
    dialogue comes back with the filler ["..."], not with the fallback
    line, and its metadata has no ["error"] entry.  And with a point in
    time among the world state the interaction does not complete at
    all: the prompt cannot be built, and the [TypeError] of [json.dumps]
    leaves [generate_dialogue]. *)
Lemma generation_failure_counterexample :
  (forall m msgs t k,
     chat_completions_create env_down m msgs t k = Raise (APIError "Connection error."))
  /\ (exists r agent',
       generate_dialogue env_down guard_agent "hello"
         (StoryManager.story_state fresh_store) default_temperature 100 noon
       = Ret (r, agent')
       /\ ActionResponse.content r = "..."
       /\ ActionResponse.content r <> dialogue_fallback
       /\ dict_get "error" (default [] (ActionResponse.metadata r)) = None)
  /\ generate_dialogue env_down guard_agent "hello"
       (StoryManager.story_state deadline_store) default_temperature 100 noon
     = Raise (TypeError "Object of type datetime is not JSON serializable").
Proof.
  split; [reflexivity|]. split.
  - eexists _, _. split; [vm_compute; reflexivity|].
    split; [reflexivity|]. split; [discriminate|reflexivity].
  - vm_compute. reflexivity.
Qed.

(** C5, amended.  A dialogue interaction whose prompt can be built (the
    world state holds nothing [json.dumps] refuses) completes with a
    response, and nothing of the text generation is propagated to the
    caller.  The response never carries an error text: its metadata
    hold the emotional state and the model, and the exchange is
    appended to the memory, with the response text, and counted.  When
    the chat-completion call raises or gives no content, the response
    text is the filler ["..."].  The fallback line, with the text of the
    exception under ["error"] and no change of the memory, is the answer
    of the body of [generate_dialogue] exactly when the call of
    [generate_text] itself raises. *)
Theorem generation_failure_is_absorbed
    (env : collaborators) (self : NPCAgent.t) (player_input : string)
    (story_state : StoryState.t) (temperature : pyfloat) (max_tokens : Z)
    (now : datetime) :
  world_printable story_state = true ->
  (exists r self',
     generate_dialogue env self player_input story_state temperature max_tokens now
     = Ret (r, self')
     /\ ActionResponse.metadata r = Some (dialogue_metadata self)
     /\ dict_get "error" (default [] (ActionResponse.metadata r)) = None
     /\ NPCMemory.memories (NPCAgent.memory self')
        = NPCMemory.memories (NPCAgent.memory self)
            ++ [dialogue_memory player_input (ActionResponse.content r)
                  (StoryState.timestamp story_state)]
     /\ NPCMemory.player_interactions (NPCAgent.memory self')
        = (NPCMemory.player_interactions (NPCAgent.memory self) + 1)%Z
     /\ (no_content
           (chat_completions_create env
              (LLM_Model_value (Text_Generator.model (NPCAgent.llm self)))
              (dialogue_request env self player_input story_state)
              temperature max_tokens) = true ->
         ActionResponse.content r = dialogue_filler))
  /\ (forall generated,
        exists r self',
          dialogue_of_generation self player_input story_state now generated
          = Ret (r, self')
          /\ match generated with
             | Raise e =>
                 ActionResponse.content r = dialogue_fallback
                 /\ ActionResponse.metadata r = Some [("error", VStr (exn_str e))]
                 /\ self' = self
             | Ret _ =>
                 dict_get "error" (default [] (ActionResponse.metadata r)) = None
                 /\ self' <> self
             end).
Proof.
  intros Hworld. split.
  - rewrite (generate_dialogue_printable env _ _ _ _ _ _ Hworld).
    destruct (generate_text_returns env (NPCAgent.llm self)
                (dialogue_request env self player_input story_state)
                temperature max_tokens) as [g Hg].
    rewrite Hg.
    destruct (dialogue_of_generated self player_input story_state now g)
      as (r & self' & Hrun & Hmeta & Herr & Hmem & Hcount & Hfill).
    exists r, self'. repeat (split; [assumption|]).
    intros Hnone.
    destruct (generate_text_no_content env _ _ _ _ Hnone) as (g' & Hg' & Hempty).
    rewrite Hg in Hg'. injection Hg' as <-. by apply Hfill.
  - intros [g|e].
    + destruct (dialogue_of_generated self player_input story_state now g)
        as (r & self' & Hrun & _ & Herr & _ & Hcount & _).
      exists r, self'. split; [exact Hrun|]. split; [exact Herr|].
      intros ->. lia.
    + eexists _, _. split; [reflexivity|]. done.
Qed.

Lemma generation_failure_is_absorbed_witness :
  exists r self',
    generate_dialogue env_silent guard_agent "hello"
      (StoryManager.story_state fresh_store) default_temperature 100 noon
    = Ret (r, self')
    /\ ActionResponse.content r = "..."
    /\ NPCMemory.player_interactions (NPCAgent.memory self') = 1%Z.
Proof.
  destruct (generation_failure_is_absorbed env_silent guard_agent "hello"
              (StoryManager.story_state fresh_store) default_temperature 100 noon)
    as ((r & self' & Hrun & _ & _ & _ & Hn & Hfill) & _); [reflexivity|].
  exists r, self'. split; [exact Hrun|]. split; [by apply Hfill|exact Hn].
Defined.

(** ** Requests that name an unknown character *)

(** C3.  When no character is registered under the name,
    [process_player_input] returns an exchange attributed to ["System"]
    and leaves the coordinator as it was: the conversation log (its
    length with it), the character memories and the story state are the
    ones from before the call. *)
Theorem unknown_character_leaves_store_untouched
    (env : collaborators) (clock : nat -> datetime)
    (player_input npc_name : string) (self : GameOrchestrator.t) :
  GameOrchestrator.npcs self !! npc_name = None ->
  exists x self',
    process_player_input env clock player_input npc_name self = Ret (x, self')
    /\ DialogueExchange.npc_name x = "System"
    /\ self' = self
    /\ length (StoryManager.conversation_history (GameOrchestrator.story_manager self'))
       = length (StoryManager.conversation_history (GameOrchestrator.story_manager self))
    /\ StoryManager.npc_memories (GameOrchestrator.story_manager self')
       = StoryManager.npc_memories (GameOrchestrator.story_manager self)
    /\ StoryManager.story_state (GameOrchestrator.story_manager self')
       = StoryManager.story_state (GameOrchestrator.story_manager self).
Proof.
  intros Hmiss. unfold process_player_input, get_npc. rewrite Hmiss.
  eexists _, _. split; [reflexivity|]. done.
Qed.

Lemma unknown_character_leaves_store_untouched_witness :
  exists x,
    process_player_input env_hail ticking "hello" "Ghost" tavern = Ret (x, tavern)
    /\ DialogueExchange.npc_name x = "System".
Proof.
  destruct (unknown_character_leaves_store_untouched env_hail ticking
              "hello" "Ghost" tavern) as (x & self' & Hrun & Hname & -> & _).
  - vm_compute. reflexivity.
  - exists x. split; [exact Hrun|exact Hname].
Defined.

Section ActionKinds.
Context (env : collaborators) (clock : nat -> datetime).

Lemma generate_action_kind (self : NPCAgent.t) (context : string)
    (story_state : StoryState.t) (action_type : ActionType)
    (temperature : pyfloat) (now : datetime) :
  world_printable story_state = true ->
  exists r self',
    generate_action env self context story_state action_type temperature now
    = Ret (r, self')
    /\ ActionResponse.action_type r = action_type.
Proof.
  intros Hworld. unfold generate_action.
  rewrite (action_prompt_printable env _ _ _ Hworld). cbn [bind].
  destruct (generate_text_returns env (NPCAgent.llm self)
              [mk_message "system" action_system_prompt;
               mk_message "user"
                 (action_prompt_text env (NPCAgent.personality self) context
                    story_state)] temperature 300) as ([r|] & ->);
    simpl; eauto.
Qed.

(** On a registered character an action kind that names no member is
    replaced by [INTERACTION], and nothing is raised. *)
Lemma trigger_npc_action_unmatched_kind (npc_name context action_type : string)
    (self : GameOrchestrator.t) (npc : NPCAgent.t) :
  GameOrchestrator.npcs self !! npc_name = Some npc ->
  world_printable (StoryManager.story_state (GameOrchestrator.story_manager self))
  = true ->
  ActionType_getitem (Str.upper action_type) = Raise (KeyError (Str.upper action_type)) ->
  exists r self',
    trigger_npc_action env clock npc_name context action_type self = Ret (r, self')
    /\ ActionResponse.action_type r = INTERACTION.
Proof.
  intros Hhit Hworld Hkind. unfold trigger_npc_action, get_npc, action_type_of_string.
  rewrite Hhit, Hkind. simpl.
  destruct (generate_action_kind npc context
              (StoryState.with_timestamp (clock 0)
                 (StoryManager.story_state (GameOrchestrator.story_manager self)))
              INTERACTION
              (GameSettings.temperature (GameOrchestrator.settings self))
              (clock 1) Hworld) as (r & npc' & -> & Hk).
  simpl. eauto.
Qed.

(** On an unknown character the response is built with the string as
    its [action_type]: a value of the enumeration is accepted, and the
    coordinator is left as it was. *)
Lemma trigger_npc_action_miss_valid (npc_name context action_type : string)
    (self : GameOrchestrator.t) (a : ActionType) :
  GameOrchestrator.npcs self !! npc_name = None ->
  ActionType_of_value action_type = Some a ->
  exists r,
    trigger_npc_action env clock npc_name context action_type self = Ret (r, self)
    /\ ActionResponse.npc_name r = "System"
    /\ ActionResponse.action_type r = a.
Proof.
  intros Hmiss Hval. unfold trigger_npc_action, get_npc. rewrite Hmiss.
  unfold ActionResponse.init, ActionResponse.validate_action_type.
  rewrite Hval. simpl. eauto.
Qed.

End ActionKinds.

(** C4, at the failing input.  For a character that is not registered
    and the action kind ["somersault"], [trigger_npc_action] raises: the
    response for the missing character is constructed with the string
    itself as its [action_type], and the validation of that field
    rejects a string that is no value of [ActionType]. *)
Theorem trigger_action_unknown_character_raises
    (env : collaborators) (clock : nat -> datetime) :
  GameOrchestrator.npcs tavern !! "Ghost" = None
  /\ ActionType_getitem (Str.upper "somersault") = Raise (KeyError "SOMERSAULT")
  /\ trigger_npc_action env clock "Ghost" "The gate creaks." "somersault" tavern
     = Raise (ValidationError
         "Input should be 'dialogue', 'movement', 'emotion', 'interaction' or 'story_event'")
  /\ exists r self',
       trigger_npc_action env clock "Guard" "The gate creaks." "somersault" tavern
       = Ret (r, self')
       /\ ActionResponse.action_type r = INTERACTION.
Proof.
  split; [vm_compute; reflexivity|]. split; [vm_compute; reflexivity|].
  split; [vm_compute; reflexivity|].
  eapply trigger_npc_action_unmatched_kind; vm_compute; reflexivity.
Qed.

(** ** Persistence: points in time *)

Example isoformat_whole :
  isoformat (mk_datetime 2024 3 9 7 5 0 0) = "2024-03-09T07:05:00".
Proof. reflexivity. Qed.

Example isoformat_fraction :
  isoformat (mk_datetime 2024 12 31 23 59 59 1200) = "2024-12-31T23:59:59.001200".
Proof. reflexivity. Qed.

Example fromisoformat_fraction :
  fromisoformat "2024-12-31T23:59:59.001200" = Some (mk_datetime 2024 12 31 23 59 59 1200).
Proof. reflexivity. Qed.

Example fromisoformat_bad_day : fromisoformat "2023-02-29T00:00:00" = None.
Proof. reflexivity. Qed.


Section IsoformatRoundTrip.

Lemma digit_val_digit (n : N) : (n < 10)%N -> digit_val (digit n) = Some n.
Proof.
  intros Hn.
  assert (Hcases : In n [0; 1; 2; 3; 4; 5; 6; 7; 8; 9]%N).
  { simpl. lia. }
  simpl in Hcases.
  repeat (destruct Hcases as [<-|Hcases]; [reflexivity|]).
  destruct Hcases.
Qed.

(** Reading back the digits that [pad_to] wrote. *)
Lemma read_digits_pad_to (k j : nat) (n : N) (rest : string) (acc : N) :
  (n < 10 ^ N.of_nat k)%N ->
  read_digits (k + j) (pad_to k n rest) acc
  = read_digits j rest (acc * 10 ^ N.of_nat k + n)%N.
Proof.
  revert j n rest acc. induction k as [|k IH]; intros j n rest acc Hn.
  - simpl in *. f_equal. lia.
  - rewrite Nat2N.inj_succ, N.pow_succ_r' in Hn.
    cbn [pad_to]. replace (S k + j)%nat with (k + S j)%nat by lia.
    rewrite IH. 2:{ apply N.Div0.div_lt_upper_bound. lia. }
    cbn [read_digits].
    rewrite digit_val_digit. 2:{ apply N.mod_lt. lia. }
    f_equal. rewrite Nat2N.inj_succ, N.pow_succ_r'.
    pose proof (N.Div0.div_mod n 10). lia.
Qed.

Lemma read_digits_pad (k : nat) (n : N) (rest : string) :
  (n < 10 ^ N.of_nat k)%N ->
  read_digits k (pad_to k n rest) 0 = Some (n, rest).
Proof.
  intros Hn. pose proof (read_digits_pad_to k 0 n rest 0 Hn) as Hread.
  rewrite Nat.add_0_r in Hread. rewrite Hread. reflexivity.
Qed.

Lemma expect_same (c : ascii) (s : string) : expect c (String c s) = Some s.
Proof. unfold expect. by rewrite bool_decide_eq_true_2. Qed.

Lemma days_in_month_le (y m : N) : (days_in_month y m <= 31)%N.
Proof.
  unfold days_in_month.
  repeat match goal with |- context [if ?b then _ else _] => destruct b end; lia.
Qed.

Lemma read_fraction_microsecond (us : N) :
  (us < 1000000)%N ->
  read_fraction (if (us =? 0)%N then EmptyString
                 else String "." (pad_to 6 us EmptyString)) = Some us.
Proof.
  intros Hus. destruct (N.eqb_spec us 0) as [->|Hne]; [reflexivity|].
  unfold read_fraction. rewrite bool_decide_eq_true_2 by done.
  by rewrite read_digits_pad by (simpl; lia).
Qed.

(** A point in time is read back from its ISO text. *)
Lemma fromisoformat_isoformat (d : datetime) :
  valid d = true -> fromisoformat (isoformat d) = Some d.
Proof.
  intros Hv. pose proof Hv as Hv'. unfold valid in Hv'.
  repeat (apply andb_prop in Hv' as [Hv' ?]).
  pose proof (days_in_month_le (year d) (month d)).
  repeat match goal with
         | H : (_ <=? _)%N = true |- _ => apply N.leb_le in H
         | H : (_ <? _)%N = true |- _ => apply N.ltb_lt in H
         end.
  unfold fromisoformat, isoformat.
  rewrite (read_digits_pad 4) by (simpl; lia). cbn [mbind option_bind].
  rewrite expect_same. cbn [mbind option_bind].
  rewrite (read_digits_pad 2) by (simpl; lia). cbn [mbind option_bind].
  rewrite expect_same. cbn [mbind option_bind].
  rewrite (read_digits_pad 2) by (simpl; lia). cbn [mbind option_bind].
  rewrite expect_same. cbn [mbind option_bind].
  rewrite (read_digits_pad 2) by (simpl; lia). cbn [mbind option_bind].
  rewrite expect_same. cbn [mbind option_bind].
  rewrite (read_digits_pad 2) by (simpl; lia). cbn [mbind option_bind].
  rewrite expect_same. cbn [mbind option_bind].
  rewrite (read_digits_pad 2) by (simpl; lia). cbn [mbind option_bind].
  rewrite read_fraction_microsecond by done. cbn [mbind option_bind].
  destruct d; simpl in *. by rewrite Hv.
Qed.

End IsoformatRoundTrip.

(** ** Persistence: values *)

Section ValueRoundTrip.

Lemma dict_set_fresh {A} (k : string) (v : A) (d : list (string * A)) :
  k ∉ map fst d -> dict_set k v d = d ++ [(k, v)].
Proof.
  induction d as [|[k' v'] d IH]; intros Hk; [reflexivity|].
  simpl in *. apply not_elem_of_cons in Hk as [Hne Hk].
  case_decide; [congruence|]. by rewrite IH.
Qed.

Lemma fold_dict_set_distinct {A} (items acc : list (string * A)) :
  NoDup (map fst (acc ++ items)) ->
  fold_left (fun d kv => dict_set (fst kv) (snd kv) d) items acc = acc ++ items.
Proof.
  revert acc. induction items as [|[k v] items IH]; intros acc Hnd.
  - by rewrite app_nil_r.
  - simpl. rewrite dict_set_fresh.
    + rewrite IH; rewrite <- app_assoc; done.
    + rewrite map_app in Hnd. apply NoDup_app in Hnd as (_ & Hdisj & _).
      intros Hin. apply (Hdisj k Hin). simpl. apply list_elem_of_here.
Qed.

(** A sequence of items with distinct keys is the dictionary it
    builds. *)
Lemma dict_of_items_distinct {A} (items : list (string * A)) :
  NoDup (map fst items) -> dict_of_items items = items.
Proof. intros Hnd. unfold dict_of_items. by rewrite fold_dict_set_distinct. Qed.

Lemma distinct_keys_NoDup {A} (d : list (string * A)) :
  distinct_keys d = true -> NoDup (map fst d).
Proof. unfold distinct_keys. apply bool_decide_eq_true_1. Qed.

Lemma json_dump_load (v : pyval) :
  json_dumpable v = true ->
  exists j, json_dump v = Ret j /\ json_load j = json_view v.
Proof.
  induction v as [| | | | |l IH|d IH| |] using pyval_nested_ind;
    intros Hv; try (eexists; split; reflexivity); try discriminate.
  - (* lists *)
    assert (Hl : exists js,
               (fix go (l : list pyval) : outcome (list json) :=
                  match l with
                  | [] => Ret []
                  | x :: l' =>
                      let* j := json_dump x in
                      let* js := go l' in Ret (j :: js)
                  end) l = Ret js
               /\ map json_load js = map json_view l).
    { simpl in Hv. induction IH as [|x l Hx _ IHl]; [by exists []|].
      simpl in Hv. apply andb_prop in Hv as [Hvx Hvl].
      destruct (Hx Hvx) as (j & -> & Hj).
      destruct (IHl Hvl) as (js & -> & Hjs).
      exists (j :: js). simpl. by rewrite Hj, Hjs. }
    destruct Hl as (js & Hdump & Hload).
    exists (JArr js). simpl. rewrite Hdump. simpl. by rewrite Hload.
  - (* dictionaries *)
    simpl in Hv. apply andb_prop in Hv as [Hv Hkeys].
    assert (Hd : exists js,
               (fix go (d : pydict) : outcome (list (string * json)) :=
                  match d with
                  | [] => Ret []
                  | (k, x) :: d' =>
                      let* j := json_dump x in
                      let* js := go d' in Ret ((k, j) :: js)
                  end) d = Ret js
               /\ map (fun kv => (fst kv, json_load (snd kv))) js
                  = map (fun kv => (fst kv, json_view (snd kv))) d).
    { clear Hkeys. induction IH as [|[k x] d Hx _ IHd]; [by exists []|].
      simpl in Hv, Hx. apply andb_prop in Hv as [Hvx Hvd].
      destruct (Hx Hvx) as (j & -> & Hj).
      destruct (IHd Hvd) as (js & -> & Hjs).
      exists ((k, j) :: js). simpl in *. by rewrite Hj, Hjs. }
    destruct Hd as (js & Hdump & Hload).
    exists (JObj js). simpl. rewrite Hdump. simpl. rewrite Hload.
    rewrite dict_of_items_distinct; [done|].
    rewrite map_map. simpl. by apply distinct_keys_NoDup.
Qed.

Lemma json_native_dumpable (v : pyval) :
  json_native v = true -> json_dumpable v = true.
Proof.
  induction v as [| | | | |l IH|d IH| |] using pyval_nested_ind;
    simpl; intros Hv; try done.
  - induction IH as [|x l Hx _ IHl]; [done|].
    simpl in *. apply andb_prop in Hv as [? ?]. apply andb_true_intro. auto.
  - apply andb_prop in Hv as [Hv Hk]. apply andb_true_intro. split; [|done].
    clear Hk. induction IH as [|x l Hx _ IHl]; [done|].
    simpl in *. apply andb_prop in Hv as [? ?]. apply andb_true_intro. auto.
Qed.

Lemma json_view_native (v : pyval) :
  json_native v = true -> json_view v = v.
Proof.
  induction v as [| | | | |l IH|d IH| |] using pyval_nested_ind;
    simpl; intros Hv; try done.
  - f_equal. induction IH as [|x l Hx _ IHl]; [done|].
    simpl in *. apply andb_prop in Hv as [? ?]. f_equal; auto.
  - apply andb_prop in Hv as [Hv _]. f_equal.
    induction IH as [|[k x] l Hx _ IHl]; [done|].
    simpl in *. apply andb_prop in Hv as [? ?]. f_equal; [f_equal|]; auto.
Qed.

End ValueRoundTrip.

(** ** Persistence: the store *)

Section StoreRoundTrip.

Lemma dict_get_here {A} (k : string) (v : A) (d : list (string * A)) :
  dict_get k ((k, v) :: d) = Some v.
Proof. simpl. by case_decide. Qed.

Lemma dict_get_next {A} (k k' : string) (v : A) (d : list (string * A)) :
  k' <> k -> dict_get k ((k', v) :: d) = dict_get k d.
Proof. intros Hne. simpl. by case_decide. Qed.

Lemma traverse_ret {A B} (f : A -> outcome B) (g : B -> A) (l : list B) :
  (forall x, x ∈ l -> f (g x) = Ret x) -> traverse f (map g l) = Ret l.
Proof.
  induction l as [|x l IH]; intros Hf; [reflexivity|].
  simpl. rewrite Hf by apply list_elem_of_here. simpl.
  rewrite IH; [done|]. intros y Hy. apply Hf. by apply list_elem_of_further.
Qed.

Lemma validate_str_list (l : list string) :
  Validate.list_of Validate.str (VList (map VStr l)) = Ret l.
Proof. simpl. by apply traverse_ret. Qed.

Lemma validate_dict_list (l : list pydict) :
  Validate.list_of Validate.dict (VList (map VDict l)) = Ret l.
Proof. simpl. by apply traverse_ret. Qed.

Lemma validate_datetime_iso (t : datetime) :
  Datetime.valid t = true -> Validate.datetime (VStr (isoformat t)) = Ret t.
Proof. intros Hv. simpl. by rewrite fromisoformat_isoformat. Qed.

Lemma validate_opt_str_dump (o : option string) :
  Validate.opt_str (GameSettings.dump_opt_str o) = Ret o.
Proof. by destruct o. Qed.

Lemma native_str_list (l : list string) :
  json_native (VList (map VStr l)) = true.
Proof. simpl. induction l; simpl; auto. Qed.

Lemma native_dict_list (l : list pydict) :
  forallb dict_native l = true -> json_native (VList (map VDict l)) = true.
Proof.
  simpl. induction l as [|d l IH]; simpl; [done|].
  intros [Hd Hl]%andb_prop. apply andb_true_intro. split; [exact Hd|auto].
Qed.

Lemma native_memory (m : NPCMemory.t) :
  forallb dict_native (NPCMemory.memories m) = true ->
  json_native (VDict (NPCMemory.model_dump m)) = true.
Proof.
  intros Hm. unfold NPCMemory.model_dump.
  change (json_native (VStr (NPCMemory.npc_name m))
          && (json_native (VList (map VDict (NPCMemory.memories m)))
          && (json_native (VList (map VStr (NPCMemory.important_events m)))
          && (true && true))) && true = true).
  rewrite native_dict_list, native_str_list by done. reflexivity.
Qed.

Lemma native_memories_dict (m : gmap string NPCMemory.t) :
  (forall k x, m !! k = Some x -> forallb dict_native (NPCMemory.memories x) = true) ->
  json_native (VDict (memories_dict m)) = true.
Proof.
  intros Hm. simpl. apply andb_true_intro. split.
  - apply forallb_forall. intros [k v] Hin.
    apply in_map_iff in Hin as ([k' x] & [= <- <-] & Hin).
    apply native_memory. apply (Hm k').
    apply elem_of_map_to_list. by apply list_elem_of_In.
  - unfold distinct_keys, memories_dict. apply bool_decide_eq_true_2.
    rewrite map_map. simpl. apply NoDup_fst_map_to_list.
Qed.

Lemma settings_dump_llm_model (st : GameSettings.t) :
  dict_get "llm_model" (GameSettings.model_dump st) = Some (GameSettings.llm_model st).
Proof. reflexivity. Qed.

Lemma encode_llm_model_dump (st : GameSettings.t) :
  StoryManager.encode_llm_model (GameSettings.model_dump st) = saved_settings st.
Proof.
  unfold StoryManager.encode_llm_model. rewrite settings_dump_llm_model.
  unfold saved_settings, GameSettings.model_dump.
  destruct (GameSettings.llm_model st); reflexivity.
Qed.

Lemma native_saved_settings (st : GameSettings.t) :
  llm_model_typed (GameSettings.llm_model st) = true ->
  json_native (VDict (saved_settings st)) = true.
Proof.
  intros Hty. unfold saved_settings.
  destruct (GameSettings.llm_model st); try discriminate;
    destruct (GameSettings.custom_instructions st); reflexivity.
Qed.

Lemma dumpable_story_state (ss : StoryState.t) :
  dict_native (StoryState.world_state ss) = true ->
  json_dumpable (VDict (StoryState.model_dump ss)) = true.
Proof.
  intros Hw. unfold StoryState.model_dump.
  change (json_dumpable (VList (map VStr (StoryState.plot_points ss)))
          && (json_dumpable (VList (map VStr (StoryState.completed_events ss)))
          && (json_dumpable (VList (map VStr (StoryState.active_goals ss)))
          && (json_dumpable (VDict (StoryState.world_state ss))
          && (true && true)))) && true = true).
  rewrite !(json_native_dumpable _ (native_str_list _)).
  by rewrite (json_native_dumpable _ Hw).
Qed.

Lemma view_story_state (ss : StoryState.t) :
  dict_native (StoryState.world_state ss) = true ->
  json_view (VDict (StoryState.model_dump ss)) = VDict (loaded_story_state ss).
Proof.
  intros Hw. unfold StoryState.model_dump, loaded_story_state.
  change (VDict
            [("plot_points", json_view (VList (map VStr (StoryState.plot_points ss))));
             ("completed_events",
              json_view (VList (map VStr (StoryState.completed_events ss))));
             ("active_goals", json_view (VList (map VStr (StoryState.active_goals ss))));
             ("world_state", json_view (VDict (StoryState.world_state ss)));
             ("timestamp", VStr (isoformat (StoryState.timestamp ss)))]
          = VDict (loaded_story_state ss)).
  rewrite !(json_view_native _ (native_str_list _)).
  by rewrite (json_view_native _ Hw).
Qed.

Lemma save_data_eq (s : StoryManager.t) :
  StoryManager.save_data s
  = VDict [("story_state", VDict (StoryState.model_dump (StoryManager.story_state s)));
           ("npc_memories", VDict (memories_dict (StoryManager.npc_memories s)));
           ("conversation_history", VList (StoryManager.conversation_history s));
           ("settings", VDict (saved_settings (StoryManager.settings s)))].
Proof. unfold StoryManager.save_data. by rewrite encode_llm_model_dump. Qed.

Lemma native_history (l : list pyval) :
  forallb json_native l = true -> json_native (VList l) = true.
Proof. done. Qed.

Lemma dumpable_save_data (s : StoryManager.t) :
  persistable s ->
  llm_model_typed (GameSettings.llm_model (StoryManager.settings s)) = true ->
  json_dumpable (StoryManager.save_data s) = true.
Proof.
  intros [Ht Hw Hm Hh] Hl. rewrite save_data_eq.
  change (json_dumpable (VDict (StoryState.model_dump (StoryManager.story_state s)))
          && (json_dumpable (VDict (memories_dict (StoryManager.npc_memories s)))
          && (json_dumpable (VList (StoryManager.conversation_history s))
          && (json_dumpable (VDict (saved_settings (StoryManager.settings s)))
          && true))) && true = true).
  rewrite dumpable_story_state by done.
  rewrite (json_native_dumpable _ (native_memories_dict _ Hm)).
  rewrite (json_native_dumpable _ (native_history _ Hh)).
  by rewrite (json_native_dumpable _ (native_saved_settings _ Hl)).
Qed.

Lemma view_save_data (s : StoryManager.t) :
  persistable s ->
  llm_model_typed (GameSettings.llm_model (StoryManager.settings s)) = true ->
  json_view (StoryManager.save_data s) = VDict (loaded_data s).
Proof.
  intros [Ht Hw Hm Hh] Hl. rewrite save_data_eq. unfold loaded_data.
  change (VDict
            [("story_state",
              json_view (VDict (StoryState.model_dump (StoryManager.story_state s))));
             ("npc_memories",
              json_view (VDict (memories_dict (StoryManager.npc_memories s))));
             ("conversation_history",
              json_view (VList (StoryManager.conversation_history s)));
             ("settings", json_view (VDict (saved_settings (StoryManager.settings s))))]
          = VDict (loaded_data s)).
  rewrite view_story_state by done.
  rewrite (json_view_native _ (native_memories_dict _ Hm)).
  rewrite (json_view_native _ (native_history _ Hh)).
  by rewrite (json_view_native _ (native_saved_settings _ Hl)).
Qed.

(** Saving a persistable store succeeds, and the file reads back as
    [loaded_data]. *)
Lemma save_state_persistable (filepath : string) (s : StoryManager.t) (fs : filesystem) :
  persistable s ->
  llm_model_typed (GameSettings.llm_model (StoryManager.settings s)) = true ->
  exists doc,
    StoryManager.save_state filepath s fs = Ret (<[filepath := doc]> fs)
    /\ json_load doc = VDict (loaded_data s).
Proof.
  intros Hs Hty.
  destruct (json_dump_load _ (dumpable_save_data s Hs Hty)) as (doc & Hd & Hl).
  exists doc. unfold StoryManager.save_state. rewrite Hd. simpl.
  split; [done|]. by rewrite Hl, view_save_data.
Qed.

End StoreRoundTrip.

Section StoreLoad.

Lemma story_state_init_loaded (ss : StoryState.t) (now : datetime) :
  Datetime.valid (StoryState.timestamp ss) = true ->
  StoryState.init (loaded_story_state ss) now = Ret (rebuilt ss).
Proof.
  intros Hv. unfold StoryState.init, loaded_story_state, Validate.field.
  rewrite dict_get_here, validate_str_list.
  rewrite dict_get_next, dict_get_here, validate_str_list by done.
  rewrite !dict_get_next, dict_get_here, validate_str_list by done.
  rewrite !dict_get_next, dict_get_here by done.
  rewrite !dict_get_next, dict_get_here, validate_datetime_iso by done.
  reflexivity.
Qed.

(** Rebuilding keeps a story state whose lists are objects of their
    own, and every field of any other. *)
Lemma rebuilt_separate (ss : StoryState.t) :
  match StoryState.assignable ss with
  | StoryState.Separate _ _ => rebuilt ss = ss
  | StoryState.Shared _ => rebuilt ss <> ss
  end.
Proof. destruct ss as [[pp ag|both] ce ws ts]; [reflexivity|discriminate]. Qed.

Lemma npc_memory_init_dump (m : NPCMemory.t) :
  NPCMemory.init (NPCMemory.model_dump m) = Ret m.
Proof.
  unfold NPCMemory.init, NPCMemory.model_dump, Validate.field, Validate.required.
  rewrite dict_get_here.
  rewrite dict_get_next, dict_get_here, validate_dict_list by done.
  rewrite !dict_get_next, dict_get_here, validate_str_list by done.
  rewrite !dict_get_next, dict_get_here by done.
  by destruct m.
Qed.

Lemma load_npc_memories (m : gmap string NPCMemory.t) :
  traverse StoryManager.load_npc_memory (memories_dict m) = Ret (map_to_list m).
Proof.
  unfold memories_dict. apply traverse_ret. intros [k x] _.
  unfold StoryManager.load_npc_memory. simpl. by rewrite npc_memory_init_dump.
Qed.

Lemma dict_comprehension_list_to_map (items : list (string * NPCMemory.t)) :
  StoryManager.dict_comprehension items = list_to_map (rev items).
Proof.
  unfold StoryManager.dict_comprehension.
  induction items as [|[k v] items IH] using rev_ind; [done|].
  rewrite fold_left_app, rev_unit. simpl. by rewrite IH.
Qed.

Lemma dict_comprehension_map_to_list (m : gmap string NPCMemory.t) :
  StoryManager.dict_comprehension (map_to_list m) = m.
Proof.
  rewrite dict_comprehension_list_to_map.
  rewrite <- (list_to_map_to_list m) at 2.
  assert (Hperm : rev (map_to_list m) ≡ₚ map_to_list m).
  { symmetry. apply Permutation_rev. }
  apply list_to_map_proper; [|exact Hperm].
  rewrite Hperm. apply NoDup_fst_map_to_list.
Qed.

Lemma dict_get_set_eq {A} (k : string) (v : A) (d : list (string * A)) :
  dict_get k (dict_set k v d) = Some v.
Proof.
  induction d as [|[k' v'] d IH]; simpl.
  - by case_decide.
  - case_decide as Hk; simpl; by case_decide.
Qed.

Lemma dict_get_set_ne {A} (k k' : string) (v : A) (d : list (string * A)) :
  k' <> k -> dict_get k' (dict_set k v d) = dict_get k' d.
Proof.
  intros Hne. induction d as [|[k0 v0] d IH]; simpl.
  - case_decide; congruence.
  - case_decide as Hk; simpl; repeat case_decide; congruence.
Qed.

Lemma llm_model_loop_find (members : list LLM_Model) (token : string)
    (settings_data : pydict) :
  StoryManager.llm_model_loop members token settings_data
  = match List.find (fun m => bool_decide (LLM_Model_value m = token)) members with
    | Some m => dict_set "llm_model" (VEnum m) settings_data
    | None => settings_data
    end.
Proof.
  induction members as [|m members IH]; simpl; [done|].
  case_decide as Hm.
  - by rewrite bool_decide_eq_true_2.
  - by rewrite bool_decide_eq_false_2.
Qed.

Lemma member_of_token_value (m : LLM_Model) :
  member_of_token (LLM_Model_value m) = Some m.
Proof. by destruct m. Qed.

Lemma member_of_token_Some (token : string) (m : LLM_Model) :
  member_of_token token = Some m -> LLM_Model_value m = token.
Proof.
  intros Hf. apply find_some in Hf as [_ Hm]. by apply bool_decide_eq_true_1 in Hm.
Qed.

(** The conversion of a string stops at its first statement. *)
Lemma decode_llm_model_token (settings_data : pydict) (token : string) :
  dict_get "llm_model" settings_data = Some (VStr token) ->
  StoryManager.decode_llm_model settings_data
  = Raise (ImportError "attempted relative import beyond top-level package").
Proof.
  intros Hget. unfold StoryManager.decode_llm_model. by rewrite Hget.
Qed.

Lemma decode_llm_model_None (settings_data : pydict) :
  dict_get "llm_model" settings_data = Some VNone ->
  StoryManager.decode_llm_model settings_data = Ret settings_data.
Proof.
  intros Hget. unfold StoryManager.decode_llm_model. by rewrite Hget.
Qed.

Lemma settings_init_dump (st : GameSettings.t) :
  GameSettings.llm_model st = VNone ->
  GameSettings.init (GameSettings.model_dump st) = Ret st.
Proof.
  intros Hv. unfold GameSettings.init, GameSettings.model_dump, Validate.field.
  rewrite dict_get_here, Hv. cbn [Validate.opt_str bind].
  rewrite dict_get_next, dict_get_here by done.
  rewrite !dict_get_next, dict_get_here by done.
  rewrite !dict_get_next, dict_get_here by done.
  rewrite !dict_get_next, dict_get_here by done.
  rewrite !dict_get_next, dict_get_here, validate_opt_str_dump by done.
  destruct st. cbn in *. by subst.
Qed.

Lemma saved_settings_None (st : GameSettings.t) :
  GameSettings.llm_model st = VNone -> saved_settings st = GameSettings.model_dump st.
Proof. intros Hv. unfold saved_settings, GameSettings.model_dump. by rewrite Hv. Qed.

(** What a saved model identifier is in the file. *)
Lemma saved_settings_token (st : GameSettings.t) :
  llm_model_typed (GameSettings.llm_model st) = true ->
  GameSettings.llm_model st <> VNone ->
  exists token, dict_get "llm_model" (saved_settings st) = Some (VStr token).
Proof.
  intros Hty Hsome. unfold saved_settings. rewrite dict_get_here.
  destruct (GameSettings.llm_model st); try discriminate; try done;
    cbn [llm_model_token]; eauto.
Qed.

(** Loading a file that reads back as [loaded_data s], for a store
    without a model identifier and for one with. *)
Lemma load_state_loaded (filepath : string) (now : datetime)
    (s0 s : StoryManager.t) (fs : filesystem) (doc : json) :
  persistable s ->
  GameSettings.llm_model (StoryManager.settings s) = VNone ->
  json_load doc = VDict (loaded_data s) ->
  StoryManager.load_state filepath now s0 (<[filepath := doc]> fs)
  = Ret (StoryManager.mk (StoryManager.settings s)
           (rebuilt (StoryManager.story_state s)) (StoryManager.npc_memories s)
           (StoryManager.conversation_history s)).
Proof.
  intros [Ht Hw Hm Hh] Hl Hdoc. unfold StoryManager.load_state.
  rewrite lookup_insert_eq, Hdoc. unfold loaded_data.
  cbn [StoryManager.as_mapping StoryManager.double_star StoryManager.copy_of_settings bind].
  rewrite dict_get_here. cbn [default from_option id StoryManager.as_mapping StoryManager.double_star StoryManager.copy_of_settings bind].
  rewrite story_state_init_loaded by done. cbn [bind].
  rewrite dict_get_next, dict_get_here by done.
  cbn [default from_option id StoryManager.as_mapping StoryManager.double_star StoryManager.copy_of_settings bind].
  rewrite load_npc_memories. cbn [bind].
  rewrite !dict_get_next, dict_get_here by done. cbn [default from_option id bind].
  rewrite !dict_get_next, dict_get_here by done.
  cbn [StoryManager.as_mapping StoryManager.double_star StoryManager.copy_of_settings bind].
  rewrite decode_llm_model_None
    by (rewrite saved_settings_None by done; unfold GameSettings.model_dump;
        rewrite Hl; apply dict_get_here).
  cbn [bind]. rewrite saved_settings_None, settings_init_dump by done. cbn [bind].
  by rewrite dict_comprehension_map_to_list.
Qed.

Lemma load_state_loaded_token (filepath : string) (now : datetime)
    (s0 s : StoryManager.t) (fs : filesystem) (doc : json) :
  persistable s ->
  llm_model_typed (GameSettings.llm_model (StoryManager.settings s)) = true ->
  GameSettings.llm_model (StoryManager.settings s) <> VNone ->
  json_load doc = VDict (loaded_data s) ->
  StoryManager.load_state filepath now s0 (<[filepath := doc]> fs)
  = Raise (ImportError "attempted relative import beyond top-level package").
Proof.
  intros [Ht Hw Hm Hh] Hty Hsome Hdoc. unfold StoryManager.load_state.
  rewrite lookup_insert_eq, Hdoc. unfold loaded_data.
  cbn [StoryManager.as_mapping StoryManager.double_star StoryManager.copy_of_settings bind].
  rewrite dict_get_here. cbn [default from_option id StoryManager.as_mapping StoryManager.double_star StoryManager.copy_of_settings bind].
  rewrite story_state_init_loaded by done. cbn [bind].
  rewrite dict_get_next, dict_get_here by done.
  cbn [default from_option id StoryManager.as_mapping StoryManager.double_star StoryManager.copy_of_settings bind].
  rewrite load_npc_memories. cbn [bind].
  rewrite !dict_get_next, dict_get_here by done. cbn [default from_option id bind].
  rewrite !dict_get_next, dict_get_here by done.
  cbn [StoryManager.as_mapping StoryManager.double_star StoryManager.copy_of_settings bind].
  destruct (saved_settings_token _ Hty Hsome) as [token Htoken].
  by rewrite (decode_llm_model_token _ token Htoken).
Qed.

(** A file whose settings name a model does not load, whatever else it
    holds. *)
Lemma load_state_token_raises (filepath : string) (now : datetime)
    (s : StoryManager.t) (fs : filesystem) (doc : json)
    (data settings_data : pydict) (token : string) :
  fs !! filepath = Some doc ->
  json_load doc = VDict data ->
  dict_get "settings" data = Some (VDict settings_data) ->
  dict_get "llm_model" settings_data = Some (VStr token) ->
  exists e, StoryManager.load_state filepath now s fs = Raise e.
Proof.
  intros Hfile Hdoc Hsettings Hget. unfold StoryManager.load_state.
  rewrite Hfile, Hdoc. cbn [StoryManager.as_mapping StoryManager.double_star StoryManager.copy_of_settings bind].
  repeat match goal with
         | |- exists e, bind ?m _ = Raise e =>
             destruct m; cbn [bind]; [|by eexists]
         end.
  rewrite Hsettings. cbn [StoryManager.as_mapping StoryManager.double_star StoryManager.copy_of_settings bind].
  rewrite (decode_llm_model_token _ token Hget). by eexists.
Qed.

End StoreLoad.

(** C1, as stated, fails on three kinds of store.  A member of
    [LLM_Model] among the world state is refused by the hook of
    [json.dump], which provides for points in time only: [save_state]
    raises.  After a dialogue the conversation record carries the
    agent's member in its metadata, and [save_state] raises as well.  A
    model identifier kept as the string ["gpt-4.1-mini"] is written as
    it is, and [load_state] of that file raises. *)
Lemma save_load_round_trip_counterexample :
  ~ round_trip model_in_world /\ ~ round_trip after_hello /\ ~ round_trip named_model.
Proof.
  split; [|split]; intros Hclaim.
  - destruct (Hclaim "save.json" ∅ noon fresh_store) as (fs' & s' & Hsave & _).
    vm_compute in Hsave. discriminate.
  - destruct (Hclaim "save.json" ∅ noon fresh_store) as (fs' & s' & Hsave & _).
    vm_compute in Hsave. discriminate.
  - destruct (Hclaim "save.json" ∅ noon fresh_store) as (fs' & s' & Hsave & Hload & _).
    injection Hsave as <-.
    vm_compute in Hload. discriminate.
Qed.

(** C1, amended.  For every store whose payloads typed [Any] are JSON
    compatible and whose model identifier is [None], [save_state]
    succeeds and [load_state] of the file it wrote succeeds, whatever
    store it is loaded into, and the loaded store equals the saved one
    field by field: plot points, completed events, active goals, world
    state and timestamp of the story state, the character memories, the
    conversation log and the settings.  The lists of the loaded story
    state are objects of their own; when those of the saved one are as
    well, the loaded store is the saved one. *)
Theorem save_load_round_trip
    (filepath : string) (fs : filesystem) (now : datetime)
    (s0 s : StoryManager.t) :
  persistable s ->
  GameSettings.llm_model (StoryManager.settings s) = VNone ->
  exists fs' s',
    StoryManager.save_state filepath s fs = Ret fs'
    /\ StoryManager.load_state filepath now s0 fs' = Ret s'
    /\ same_fields s' s
    /\ lists_separate s'
    /\ (lists_separate s -> s' = s).
Proof.
  intros Hs Hnone.
  destruct (save_state_persistable filepath s fs Hs) as (doc & Hsave & Hdoc);
    [by rewrite Hnone|].
  eexists _, _. split; [exact Hsave|].
  split; [by apply load_state_loaded|].
  split; [by split|]. split; [exact I|].
  intros Hsep. destruct s as [st ss mems hist].
  pose proof (rebuilt_separate ss) as Hre.
  unfold lists_separate in Hsep. cbn in Hsep |- *.
  destruct (StoryState.assignable ss); [|done]. by rewrite Hre.
Qed.

Lemma quest_without_model_persistable : persistable quest_without_model.
Proof.
  split; try reflexivity.
  intros k m Hk. unfold quest_without_model, quest_store in Hk. cbn in Hk.
  apply lookup_singleton_Some in Hk as [_ <-]. reflexivity.
Defined.

Lemma save_load_round_trip_witness :
  exists fs',
    StoryManager.save_state "save.json" quest_without_model ∅ = Ret fs'
    /\ StoryManager.load_state "save.json" noon fresh_store fs'
       = Ret quest_without_model.
Proof.
  destruct (save_load_round_trip "save.json" ∅ noon fresh_store quest_without_model
              quest_without_model_persistable eq_refl)
    as (fs' & s' & Hsave & Hload & _ & _ & Hsame).
  exists fs'. split; [exact Hsave|].
  rewrite Hload. f_equal. apply Hsame. exact I.
Defined.

(** ** The model identifier on load *)

Section ModelIdentifier.

Lemma member_of_token_unique (token : string) (m : LLM_Model) :
  LLM_Model_value m = token -> member_of_token token = Some m.
Proof. intros <-. apply member_of_token_value. Qed.

Lemma member_of_token_none (token : string) :
  (forall m, LLM_Model_value m <> token) -> member_of_token token = None.
Proof.
  intros Hnone. destruct (member_of_token token) as [m|] eqn:Hm; [|done].
  destruct (Hnone m). by apply member_of_token_Some.
Qed.

Lemma quest_store_persistable : persistable quest_store.
Proof.
  split; try reflexivity.
  intros k m Hk. unfold quest_store in Hk. cbn in Hk.
  apply lookup_singleton_Some in Hk as [_ <-]. reflexivity.
Defined.

End ModelIdentifier.

(** C9, at the failing input and around it.  [load_state] never gets to
    map a model identifier: for a string under ["llm_model"] it first
    executes [from ..agents.llms import LLM_Model], which raises
    [ImportError] in a module loaded as [story.story_manager], so a file
    whose settings name a model does not load at all, whether a member
    has that value or not.  This is so for the file with
    ["gpt-4.1-mini"] and for the one with ["gpt-4o-mini"], and for every
    file [save_state] wrote for a store whose model identifier is a
    string or a member.  The loop behind the import is the mapping the
    claim describes: it puts the member whose value is the token in its
    place, and leaves the data alone when there is none. *)
Theorem load_raises_on_model_token
    (filepath : string) (now : datetime) (s0 s : StoryManager.t) (fs : filesystem)
    (doc : json) (data settings_data : pydict) (token : string) :
  (fs !! filepath = Some doc ->
   json_load doc = VDict data ->
   dict_get "settings" data = Some (VDict settings_data) ->
   dict_get "llm_model" settings_data = Some (VStr token) ->
   exists e, StoryManager.load_state filepath now s0 fs = Raise e)
  /\ (persistable s ->
      llm_model_typed (GameSettings.llm_model (StoryManager.settings s)) = true ->
      GameSettings.llm_model (StoryManager.settings s) <> VNone ->
      exists fs',
        StoryManager.save_state filepath s fs = Ret fs'
        /\ StoryManager.load_state filepath now s0 fs'
           = Raise (ImportError "attempted relative import beyond top-level package"))
  /\ StoryManager.load_state "save.json" now s0
       {["save.json" := file_with_model "gpt-4.1-mini"]}
     = Raise (ImportError "attempted relative import beyond top-level package")
  /\ StoryManager.load_state "save.json" now s0
       {["save.json" := file_with_model "gpt-4o-mini"]}
     = Raise (ImportError "attempted relative import beyond top-level package")
  /\ (forall m, LLM_Model_value m = token ->
        StoryManager.llm_model_loop LLM_Model_members token settings_data
        = dict_set "llm_model" (VEnum m) settings_data)
  /\ ((forall m, LLM_Model_value m <> token) ->
      StoryManager.llm_model_loop LLM_Model_members token settings_data
      = settings_data).
Proof.
  split; [intros; by eapply load_state_token_raises|]. split.
  { intros Hs Hty Hsome.
    destruct (save_state_persistable filepath s fs Hs Hty) as (doc' & Hsave & Hdoc).
    eexists. split; [exact Hsave|]. by apply (load_state_loaded_token _ _ _ s). }
  split.
  { unfold StoryManager.load_state. rewrite lookup_singleton_eq. reflexivity. }
  split.
  { unfold StoryManager.load_state. rewrite lookup_singleton_eq. reflexivity. }
  split.
  - intros m Hm. rewrite llm_model_loop_find.
    change (List.find _ LLM_Model_members) with (member_of_token token).
    by rewrite (member_of_token_unique token m Hm).
  - intros Hnone. rewrite llm_model_loop_find.
    change (List.find _ LLM_Model_members) with (member_of_token token).
    by rewrite (member_of_token_none token Hnone).
Qed.

Lemma load_raises_on_model_token_witness :
  (exists e,
     StoryManager.load_state "save.json" noon fresh_store
       {["save.json" := file_with_model "gpt-4.1-mini"]} = Raise e)
  /\ exists fs',
       StoryManager.save_state "save.json" quest_store ∅ = Ret fs'
       /\ StoryManager.load_state "save.json" noon fresh_store fs'
          = Raise (ImportError "attempted relative import beyond top-level package").
Proof.
  assert (Hfile : ({["save.json" := file_with_model "gpt-4.1-mini"]} : filesystem)
                    !! "save.json" = Some (file_with_model "gpt-4.1-mini"))
    by (vm_compute; reflexivity).
  destruct (load_raises_on_model_token "save.json" noon fresh_store quest_store
              {["save.json" := file_with_model "gpt-4.1-mini"]}
              (file_with_model "gpt-4.1-mini")
              [("settings", VDict [("llm_model", VStr "gpt-4.1-mini");
                                   ("max_tokens", VInt 200)])]
              [("llm_model", VStr "gpt-4.1-mini"); ("max_tokens", VInt 200)]
              "gpt-4.1-mini")
    as (Hany & _).
  split; [exact (Hany Hfile eq_refl eq_refl eq_refl)|].
  destruct (load_raises_on_model_token "save.json" noon fresh_store quest_store ∅
              (file_with_model "gpt-4.1-mini") [] [] "gpt-4.1-mini")
    as (_ & Hsaved & _).
  apply Hsaved; [exact quest_store_persistable|reflexivity|discriminate].
Defined.

(** ** Plot points and world state *)

Section PlotAndWorld.

Lemma add_plot_points_app (points : list string) (s : StoryManager.t) :
  add_plot_points points s
  = StoryManager.with_story_state
      (StoryState.write_plot_points (plot_points_of s ++ points)
         (StoryManager.story_state s)) s.
Proof.
  revert s. induction points as [|p points IH]; intros s.
  - simpl. rewrite app_nil_r. by destruct s as [? [[] ? ? ?] ? ?].
  - simpl. unfold add_plot_points in IH. rewrite IH.
    destruct s as [? [[] ? ? ?] ? ?]; cbn; by rewrite <- app_assoc.
Qed.

Lemma dict_set_keys_present {A} (k : string) (v : A) (d : list (string * A)) :
  k ∈ map fst d -> map fst (dict_set k v d) = map fst d.
Proof.
  induction d as [|[k' v'] d IH]; intros Hin; simpl in *.
  - by apply elem_of_nil in Hin.
  - case_decide as Hk; simpl; [by subst|].
    apply elem_of_cons in Hin as [->|Hin]; [done|]. by rewrite IH.
Qed.

Lemma dict_get_None_keys {A} (k : string) (d : list (string * A)) :
  dict_get k d = None <-> k ∉ map fst d.
Proof.
  induction d as [|[k' v'] d IH]; simpl.
  - split; [intros _; apply not_elem_of_nil|done].
  - case_decide as Hk.
    + subst. split; [done|]. intros Hn. destruct Hn. apply list_elem_of_here.
    + rewrite IH. split.
      * intros Hn [->|Hin]%elem_of_cons; done.
      * intros Hn Hin. apply Hn. by apply list_elem_of_further.
Qed.

Lemma dict_set_distinct {A} (k : string) (v : A) (d : list (string * A)) :
  NoDup (map fst d) -> NoDup (map fst (dict_set k v d)).
Proof.
  intros Hnd. destruct (decide (k ∈ map fst d)) as [Hin|Hn].
  - by rewrite dict_set_keys_present.
  - rewrite dict_set_fresh, map_app by done. simpl.
    apply NoDup_app. split; [done|]. split; [|apply NoDup_singleton].
    intros x Hx Hx'. apply list_elem_of_singleton in Hx'. by subst.
Qed.

End PlotAndWorld.

(** X1.  A run of [add_plot_point] calls appends the points to
    [plot_points] in the order of the calls, repetitions included.  The
    list is changed in place: [active_goals] is left alone when it
    holds a list object of its own, and has the points appended as well
    when it holds the one of [plot_points].  Nothing else of the store
    is touched. *)
Theorem add_plot_point_appends_in_order (points : list string) (s : StoryManager.t) :
  plot_points_of (add_plot_points points s) = plot_points_of s ++ points
  /\ length (plot_points_of (add_plot_points points s))
     = length (plot_points_of s) + length points
  /\ (lists_separate s -> active_goals_of (add_plot_points points s) = active_goals_of s)
  /\ (~ lists_separate s ->
      active_goals_of (add_plot_points points s) = active_goals_of s ++ points)
  /\ (lists_separate (add_plot_points points s) <-> lists_separate s)
  /\ completed_events_of (add_plot_points points s) = completed_events_of s
  /\ world_state_of (add_plot_points points s) = world_state_of s
  /\ StoryState.timestamp (StoryManager.story_state (add_plot_points points s))
     = StoryState.timestamp (StoryManager.story_state s)
  /\ StoryManager.conversation_history (add_plot_points points s)
     = StoryManager.conversation_history s
  /\ StoryManager.npc_memories (add_plot_points points s) = StoryManager.npc_memories s
  /\ StoryManager.settings (add_plot_points points s) = StoryManager.settings s.
Proof.
  rewrite add_plot_points_app.
  unfold plot_points_of, active_goals_of, completed_events_of, world_state_of,
    lists_separate.
  destruct s as [st [[pp ag|both] ce ws ts] mem hist]; cbn; rewrite length_app;
    repeat split; try done; by intros [].
Qed.

Lemma add_plot_point_appends_in_order_witness :
  (exists s',
     run_ops one_list_for_both fresh_store = Ret s'
     /\ active_goals_of s' = ["Find the key"; "Find the key"])
  /\ active_goals_of (add_plot_points ["The gate is shut"] two_goals)
     = ["Find the key"; "Open the gate"].
Proof.
  split.
  - eexists. split; [reflexivity|].
    pose proof (add_plot_point_appends_in_order ["Find the key"]
                  (StoryManager.set_plot_points the_active_goals
                     (StoryManager.set_active_goals (other_list ["Find the key"])
                        fresh_store)))
      as (_ & _ & _ & Hshared & _).
    apply Hshared. intros H. exact H.
  - pose proof (add_plot_point_appends_in_order ["The gate is shut"] two_goals)
      as (_ & _ & Hsep & _).
    rewrite Hsep; [reflexivity|exact I].
Defined.

(** X2.  [update_world_state] is an upsert: the key reads back the new
    value, every other key reads as before, a key that was never set
    reads as the default handed to [get_world_state]; a new key goes to
    the end, an old key keeps its place, and the keys stay pairwise
    distinct. *)
Theorem world_state_upsert
    (key other : string) (value default : pyval) (s : StoryManager.t) :
  StoryManager.get_world_state key default (StoryManager.update_world_state key value s)
  = value
  /\ (other <> key ->
      StoryManager.get_world_state other default
        (StoryManager.update_world_state key value s)
      = StoryManager.get_world_state other default s)
  /\ (key ∉ map fst (world_state_of s) ->
      StoryManager.get_world_state key default s = default
      /\ world_state_of (StoryManager.update_world_state key value s)
         = world_state_of s ++ [(key, value)])
  /\ (key ∈ map fst (world_state_of s) ->
      map fst (world_state_of (StoryManager.update_world_state key value s))
      = map fst (world_state_of s))
  /\ (NoDup (map fst (world_state_of s)) ->
      NoDup (map fst (world_state_of (StoryManager.update_world_state key value s)))).
Proof.
  unfold StoryManager.get_world_state, StoryManager.update_world_state, world_state_of.
  simpl. split; [by rewrite dict_get_set_eq|]. split.
  { intros Hne. by rewrite dict_get_set_ne. }
  split.
  { intros Hn. split; [|by apply dict_set_fresh].
    by rewrite (proj2 (dict_get_None_keys key _) Hn). }
  split; [apply dict_set_keys_present|apply dict_set_distinct].
Qed.

Lemma world_state_upsert_witness :
  let s := StoryManager.update_world_state "torches" (VInt 3)
             (StoryManager.update_world_state "weather" (VStr "rain") fresh_store) in
  StoryManager.get_world_state "weather" VNone
    (StoryManager.update_world_state "torches" (VInt 2) s) = VStr "rain"
  /\ StoryManager.get_world_state "moon" (VStr "unknown") s = VStr "unknown"
  /\ map fst (world_state_of (StoryManager.update_world_state "weather" (VStr "sun") s))
     = ["weather"; "torches"].
Proof.
  intros s.
  destruct (world_state_upsert "torches" "weather" (VInt 2) VNone s)
    as (_ & Hother & _).
  destruct (world_state_upsert "moon" "weather" VNone (VStr "unknown") s)
    as (_ & _ & Hnew & _).
  destruct (world_state_upsert "weather" "torches" (VStr "sun") VNone s)
    as (_ & _ & _ & Hold & _).
  split; [|split].
  - rewrite Hother by discriminate. reflexivity.
  - apply Hnew. vm_compute. intros Hin.
    repeat (apply elem_of_cons in Hin as [Hin|Hin]; [discriminate|]).
    by apply elem_of_nil in Hin.
  - rewrite Hold; [reflexivity|]. vm_compute. apply list_elem_of_here.
Defined.

(** ** Goals: adding and completing *)

Section GoalRoundTrip.

Lemma list_remove_last (x : string) (l : list string) :
  x ∉ l -> list_remove x (l ++ [x]) = Ret l.
Proof.
  induction l as [|y l IH]; intros Hn; simpl.
  - by case_decide.
  - apply not_elem_of_cons in Hn as [Hne Hn].
    case_decide; [congruence|]. by rewrite IH.
Qed.

Lemma write_active_goals_same (s : StoryManager.t) :
  StoryManager.with_story_state
    (StoryState.write_active_goals (active_goals_of s) (StoryManager.story_state s)) s
  = s.
Proof. by destruct s as [? [[] ? ? ?] ? ?]. Qed.

End GoalRoundTrip.

(** X3.  A goal that is not active is added at the end of
    [active_goals], and completing it right away gives the store back
    as it was; adding a goal a second time changes nothing. *)
Theorem add_goal_then_complete_goal (goal : string) (s : StoryManager.t) :
  (goal ∉ active_goals_of s ->
   active_goals_of (StoryManager.add_active_goal goal s) = active_goals_of s ++ [goal]
   /\ StoryManager.complete_goal goal (StoryManager.add_active_goal goal s) = Ret s)
  /\ StoryManager.add_active_goal goal (StoryManager.add_active_goal goal s)
     = StoryManager.add_active_goal goal s
  /\ (goal ∈ active_goals_of s -> StoryManager.add_active_goal goal s = s).
Proof.
  assert (Hin : goal ∈ active_goals_of s -> StoryManager.add_active_goal goal s = s).
  { intros Hin. unfold StoryManager.add_active_goal. case_decide; [|done].
    by destruct H. }
  assert (Hadd : goal ∉ active_goals_of s ->
                 active_goals_of (StoryManager.add_active_goal goal s)
                 = active_goals_of s ++ [goal]).
  { intros Hn. unfold StoryManager.add_active_goal. case_decide; [|done].
    unfold active_goals_of. by destruct s as [? [[] ? ? ?] ? ?]. }
  split; [|split; [|exact Hin]].
  - intros Hn. split; [by apply Hadd|].
    unfold StoryManager.complete_goal.
    fold (active_goals_of (StoryManager.add_active_goal goal s)).
    rewrite Hadd by done. case_decide as Hp.
    + rewrite list_remove_last by done. simpl. f_equal.
      unfold StoryManager.add_active_goal. case_decide; [|done].
      by destruct s as [? [[] ? ? ?] ? ?].
    + destruct Hp. apply elem_of_app. right. apply list_elem_of_here.
  - destruct (decide (goal ∈ active_goals_of s)) as [Hp|Hn].
    + by rewrite !Hin.
    + unfold StoryManager.add_active_goal at 1.
      fold (active_goals_of (StoryManager.add_active_goal goal s)).
      rewrite Hadd by done. case_decide as Hq; [|done].
      destruct Hq. apply elem_of_app. right. apply list_elem_of_here.
Qed.

Lemma add_goal_then_complete_goal_witness :
  StoryManager.complete_goal "Cross the bridge"
    (StoryManager.add_active_goal "Cross the bridge" two_goals) = Ret two_goals
  /\ StoryManager.add_active_goal "Find the key" two_goals = two_goals.
Proof.
  destruct (add_goal_then_complete_goal "Cross the bridge" two_goals) as (Hnew & _ & _).
  destruct (add_goal_then_complete_goal "Find the key" two_goals) as (_ & _ & Hold).
  split.
  - apply Hnew. vm_compute. intros Hin.
    repeat (apply elem_of_cons in Hin as [Hin|Hin]; [discriminate|]).
    by apply elem_of_nil in Hin.
  - apply Hold. vm_compute. apply list_elem_of_here.
Defined.

(** ** Loading replaces *)



(** ** What makes saving fail *)

Section SaveBlocked.

Lemma json_dump_enum (v : pyval) :
  if contains_enum v
  then exists msg, json_dump v = Raise (TypeError msg)
  else exists j, json_dump v = Ret j.
Proof.
  induction v as [| | | | |l IH|d IH| |] using pyval_nested_ind;
    try (simpl; eauto; fail).
  - (* lists *)
    assert (Hl : if existsb contains_enum l
                 then exists msg,
                     (fix go (l : list pyval) : outcome (list json) :=
                        match l with
                        | [] => Ret []
                        | x :: l' =>
                            let* j := json_dump x in
                            let* js := go l' in Ret (j :: js)
                        end) l = Raise (TypeError msg)
                 else exists js,
                     (fix go (l : list pyval) : outcome (list json) :=
                        match l with
                        | [] => Ret []
                        | x :: l' =>
                            let* j := json_dump x in
                            let* js := go l' in Ret (j :: js)
                        end) l = Ret js).
    { induction IH as [|x l Hx _ IHl]; [simpl; eauto|].
      simpl. destruct (contains_enum x); simpl.
      - destruct Hx as (msg & ->). simpl. eauto.
      - destruct Hx as (j & ->). simpl.
        destruct (existsb contains_enum l).
        + destruct IHl as (msg & ->). simpl. eauto.
        + destruct IHl as (js & ->). simpl. eauto. }
    simpl. destruct (existsb contains_enum l).
    + destruct Hl as (msg & ->). simpl. eauto.
    + destruct Hl as (js & ->). simpl. eauto.
  - (* dictionaries *)
    assert (Hd : if existsb (fun kv => contains_enum (snd kv)) d
                 then exists msg,
                     (fix go (d : pydict) : outcome (list (string * json)) :=
                        match d with
                        | [] => Ret []
                        | (k, x) :: d' =>
                            let* j := json_dump x in
                            let* js := go d' in Ret ((k, j) :: js)
                        end) d = Raise (TypeError msg)
                 else exists js,
                     (fix go (d : pydict) : outcome (list (string * json)) :=
                        match d with
                        | [] => Ret []
                        | (k, x) :: d' =>
                            let* j := json_dump x in
                            let* js := go d' in Ret ((k, j) :: js)
                        end) d = Ret js).
    { induction IH as [|[k x] d Hx _ IHd]; [simpl; eauto|].
      simpl in *. destruct (contains_enum x); simpl.
      - destruct Hx as (msg & ->). simpl. eauto.
      - destruct Hx as (j & ->). simpl.
        destruct (existsb (fun kv => contains_enum (snd kv)) d).
        + destruct IHd as (msg & ->). simpl. eauto.
        + destruct IHd as (js & ->). simpl. eauto. }
    simpl. destruct (existsb (fun kv => contains_enum (snd kv)) d).
    + destruct Hd as (msg & ->). simpl. eauto.
    + destruct Hd as (js & ->). simpl. eauto.
Qed.

Lemma contains_enum_str_list (l : list string) :
  contains_enum (VList (map VStr l)) = false.
Proof. simpl. induction l; simpl; auto. Qed.

Lemma contains_enum_memory (m : NPCMemory.t) :
  contains_enum (VDict (NPCMemory.model_dump m))
  = existsb (fun d => contains_enum (VDict d)) (NPCMemory.memories m).
Proof.
  unfold NPCMemory.model_dump.
  change (false || (contains_enum (VList (map VDict (NPCMemory.memories m)))
                    || (contains_enum (VList (map VStr (NPCMemory.important_events m)))
                        || (false || false)))
          = existsb (fun d => contains_enum (VDict d)) (NPCMemory.memories m)).
  rewrite contains_enum_str_list, !orb_false_r. simpl.
  induction (NPCMemory.memories m) as [|d l IH]; simpl; [done|]. by rewrite IH.
Qed.

Lemma contains_enum_memories_dict (m : gmap string NPCMemory.t) :
  contains_enum (VDict (memories_dict m))
  = existsb (fun kv => existsb (fun d => contains_enum (VDict d))
                         (NPCMemory.memories (snd kv)))
      (map_to_list m).
Proof.
  unfold memories_dict. simpl.
  induction (map_to_list m) as [|[k x] l IH]; [done|].
  cbn [map existsb fst snd]. by rewrite contains_enum_memory, IH.
Qed.

Lemma contains_enum_saved_settings (st : GameSettings.t) :
  llm_model_typed (GameSettings.llm_model st) = true ->
  contains_enum (VDict (saved_settings st)) = false.
Proof.
  unfold saved_settings. intros Hty.
  destruct (GameSettings.llm_model st); try discriminate;
    destruct (GameSettings.custom_instructions st); reflexivity.
Qed.

Lemma contains_enum_save_data (s : StoryManager.t) :
  llm_model_typed (GameSettings.llm_model (StoryManager.settings s)) = true ->
  contains_enum (StoryManager.save_data s) = save_blocked s.
Proof.
  intros Hty. rewrite save_data_eq. unfold save_blocked, world_state_of.
  change ((contains_enum (VList (map VStr (StoryState.plot_points (StoryManager.story_state s))))
           || (contains_enum (VList (map VStr (StoryState.completed_events (StoryManager.story_state s))))
           || (contains_enum (VList (map VStr (StoryState.active_goals (StoryManager.story_state s))))
           || (contains_enum (VDict (StoryState.world_state (StoryManager.story_state s)))
           || (false || false)))))
          || (contains_enum (VDict (memories_dict (StoryManager.npc_memories s)))
          || (contains_enum (VList (StoryManager.conversation_history s))
          || (contains_enum (VDict (saved_settings (StoryManager.settings s)))
          || false)))
          = contains_enum (VDict (StoryState.world_state (StoryManager.story_state s)))
            || existsb (fun kv => existsb (fun d => contains_enum (VDict d))
                                    (NPCMemory.memories (snd kv)))
                 (map_to_list (StoryManager.npc_memories s))
            || existsb contains_enum (StoryManager.conversation_history s)).
  rewrite !contains_enum_str_list, contains_enum_memories_dict.
  rewrite contains_enum_saved_settings by done.
  cbn [orb contains_enum].
  rewrite !orb_false_r. by rewrite orb_assoc.
Qed.

End SaveBlocked.

(** X5.  With a model setting that is [None], a string or a member,
    [save_state] fails exactly when a member of [LLM_Model] sits in a
    payload of the store (world state, a memory record, a conversation
    record), and then with [TypeError]; a member as the model setting
    itself never makes it fail, and points in time in the payloads do
    not either.  When it succeeds it writes the one file and leaves the
    other files alone. *)
Theorem save_state_fails_on_enum_members
    (filepath : string) (s : StoryManager.t) (fs : filesystem) :
  llm_model_typed (GameSettings.llm_model (StoryManager.settings s)) = true ->
  if save_blocked s
  then exists msg, StoryManager.save_state filepath s fs = Raise (TypeError msg)
  else exists doc,
      StoryManager.save_state filepath s fs = Ret (<[filepath := doc]> fs)
      /\ forall other, other <> filepath ->
                       (<[filepath := doc]> fs) !! other = fs !! other.
Proof.
  intros Hty. pose proof (json_dump_enum (StoryManager.save_data s)) as Hdump.
  rewrite contains_enum_save_data in Hdump by done.
  unfold StoryManager.save_state. destruct (save_blocked s).
  - destruct Hdump as (msg & ->). simpl. eauto.
  - destruct Hdump as (doc & ->). simpl. exists doc. split; [done|].
    intros other Hne. by apply lookup_insert_ne.
Qed.

Lemma save_state_fails_on_enum_members_witness :
  (exists msg, StoryManager.save_state "save.json" after_hello ∅ = Raise (TypeError msg))
  /\ (exists fs', StoryManager.save_state "save.json" deadline_store ∅ = Ret fs').
Proof.
  split.
  - apply (save_state_fails_on_enum_members "save.json" after_hello ∅). reflexivity.
  - destruct (save_state_fails_on_enum_members "save.json" deadline_store ∅ eq_refl)
      as (doc & Hsave & _).
    eauto.
Defined.

(** ** Dialogue with a registered character *)

Section Dialogue.
Context (env : collaborators) (clock : nat -> datetime).

Lemma dialogue_of_text (self : NPCAgent.t) (player_input : string)
    (story_state : StoryState.t) (now : datetime) (r : option string) :
  exists text,
    dialogue_of_generation self player_input story_state now (Ret r)
    = Ret (ActionResponse.mk DIALOGUE text
             (NPCPersonality.name (NPCAgent.personality self))
             (Some (dialogue_metadata self)) now,
           NPCAgent.with_memory
             (NPCMemory.mk (NPCMemory.npc_name (NPCAgent.memory self))
                (NPCMemory.memories (NPCAgent.memory self)
                   ++ [dialogue_memory player_input text
                         (StoryState.timestamp story_state)])
                (NPCMemory.important_events (NPCAgent.memory self))
                (NPCMemory.player_interactions (NPCAgent.memory self) + 1))
             self)
    /\ text = (let t := if truthy r then default "" r else dialogue_filler in
               if in_quotes t then Str.strip_ends t else t).
Proof. eexists. split; reflexivity. Qed.

Lemma record_conversation_history (now : datetime) (p n r : string)
    (md : option pydict) (s : StoryManager.t) :
  StoryManager.conversation_history (StoryManager.record_conversation now p n r md s)
  = slice_last 100 (StoryManager.conversation_history s
                      ++ [StoryManager.exchange now p n r md]).
Proof. apply (record_call_history s (mk_call now p n r md)). Qed.

Lemma record_conversation_rest (now : datetime) (p n r : string)
    (md : option pydict) (s : StoryManager.t) :
  StoryManager.record_conversation now p n r md s
  = StoryManager.with_conversation_history
      (StoryManager.conversation_history
         (StoryManager.record_conversation now p n r md s)) s.
Proof. unfold StoryManager.record_conversation. by case_decide. Qed.

(** The whole effect of a dialogue with a registered character. *)
Lemma process_player_input_hit (player_input npc_name : string)
    (self : GameOrchestrator.t) (npc : NPCAgent.t) :
  GameOrchestrator.npcs self !! npc_name = Some npc ->
  world_printable (StoryManager.story_state (GameOrchestrator.story_manager self))
  = true ->
  exists text,
    let sm := GameOrchestrator.story_manager self in
    let mem := NPCAgent.memory npc in
    let mem' :=
      NPCMemory.mk (NPCMemory.npc_name mem)
        (NPCMemory.memories mem ++ [dialogue_memory player_input text (clock 0)])
        (NPCMemory.important_events mem)
        (NPCMemory.player_interactions mem + 1) in
    process_player_input env clock player_input npc_name self
    = Ret (DialogueExchange.mk (Some player_input) text npc_name
             (Some (NPCPersonality.emotional_state (NPCAgent.personality npc)))
             (clock 3),
           GameOrchestrator.mk (GameOrchestrator.settings self)
             (StoryManager.mk (StoryManager.settings sm)
                (StoryState.with_timestamp (clock 0) (StoryManager.story_state sm))
                (<[npc_name := mem']> (StoryManager.npc_memories sm))
                (slice_last 100
                   (StoryManager.conversation_history sm
                      ++ [StoryManager.exchange (clock 2) player_input npc_name text
                            (Some (dialogue_metadata npc))])))
             (<[npc_name := NPCAgent.with_memory mem' npc]>
                (GameOrchestrator.npcs self))
             ({[npc_name]} ∪ GameOrchestrator.registered self)).
Proof.
  intros Hhit Hworld. unfold process_player_input, get_npc. rewrite Hhit.
  rewrite generate_dialogue_printable by exact Hworld.
  destruct (generate_text_returns env (NPCAgent.llm npc)
              (dialogue_request env npc player_input
                 (StoryState.with_timestamp (clock 0)
                    (StoryManager.story_state (GameOrchestrator.story_manager self))))
              (GameSettings.temperature (GameOrchestrator.settings self)) 100)
    as (r & ->).
  destruct (dialogue_of_text npc player_input
              (StoryState.with_timestamp (clock 0)
                 (StoryManager.story_state (GameOrchestrator.story_manager self)))
              (clock 1) r) as (text & -> & _).
  exists text. cbn [bind]. cbn [ActionResponse.content ActionResponse.metadata].
  rewrite (record_conversation_rest (clock 2)).
  rewrite record_conversation_history. reflexivity.
Qed.

(** A world state that cannot be printed stops the dialogue before
    anything is generated. *)
Lemma process_player_input_unprintable (player_input npc_name : string)
    (self : GameOrchestrator.t) (npc : NPCAgent.t) :
  GameOrchestrator.npcs self !! npc_name = Some npc ->
  world_printable (StoryManager.story_state (GameOrchestrator.story_manager self))
  = false ->
  exists msg,
    process_player_input env clock player_input npc_name self = Raise (TypeError msg).
Proof.
  intros Hhit Hworld. unfold process_player_input, get_npc. rewrite Hhit.
  destruct (generate_dialogue_raises env npc player_input
              (StoryState.with_timestamp (clock 0)
                 (StoryManager.story_state (GameOrchestrator.story_manager self)))
              (GameSettings.temperature (GameOrchestrator.settings self)) 100 (clock 1)
              Hworld) as [msg ->].
  by exists msg.
Qed.

End Dialogue.

Section DialogueEffects.
Context (env : collaborators) (clock : nat -> datetime).

Lemma slice_last_snoc_last {A} (n : nat) (l : list A) (x : A) :
  0 < n -> last (slice_last n (l ++ [x])) = Some x.
Proof.
  intros Hn. unfold slice_last. rewrite length_app. simpl.
  rewrite drop_app_le by lia. apply last_snoc.
Qed.

Lemma dialogues_hit (npc_name : string) (inputs : list string)
    (self : GameOrchestrator.t) (npc : NPCAgent.t) :
  GameOrchestrator.npcs self !! npc_name = Some npc ->
  world_printable (StoryManager.story_state (GameOrchestrator.story_manager self))
  = true ->
  exists self' npc',
    dialogues env clock npc_name inputs self = Ret self'
    /\ GameOrchestrator.npcs self' !! npc_name = Some npc'
    /\ NPCMemory.player_interactions (NPCAgent.memory npc')
       = (NPCMemory.player_interactions (NPCAgent.memory npc)
          + Z.of_nat (length inputs))%Z
    /\ length (NPCMemory.memories (NPCAgent.memory npc'))
       = length (NPCMemory.memories (NPCAgent.memory npc)) + length inputs
    /\ StoryManager.npc_memories (GameOrchestrator.story_manager self') !! npc_name
       = (if decide (inputs = [])
          then StoryManager.npc_memories (GameOrchestrator.story_manager self) !! npc_name
          else Some (NPCAgent.memory npc'))
    /\ length (StoryManager.conversation_history (GameOrchestrator.story_manager self'))
       = if decide (inputs = [])
         then length (StoryManager.conversation_history
                        (GameOrchestrator.story_manager self))
         else min 100 (length (StoryManager.conversation_history
                                 (GameOrchestrator.story_manager self))
                       + length inputs).
Proof.
  revert self npc. induction inputs as [|i inputs IH]; intros self npc Hhit Hworld.
  - exists self, npc. simpl. split; [done|]. split; [done|]. split; [lia|].
    split; [lia|done].
  - destruct (process_player_input_hit env clock i npc_name self npc Hhit Hworld)
      as (text & Hstep).
    cbn zeta in Hstep. cbn [dialogues]. rewrite Hstep. cbn [bind].
    match goal with
    | |- exists _ _, dialogues _ _ _ _ ?next = _ /\ _ =>
        edestruct (IH next)
          as (self' & npc' & Hrun & Hnpc & Hcount & Hmem & Hstore & Hlog)
    end.
    { cbn [GameOrchestrator.npcs]. apply lookup_insert_eq. }
    { exact Hworld. }
    rewrite Hrun.
    exists self', npc'. split; [done|]. split; [done|].
    cbn [NPCAgent.memory NPCAgent.with_memory NPCMemory.player_interactions
         NPCMemory.memories GameOrchestrator.story_manager
         StoryManager.conversation_history StoryManager.npc_memories] in *.
    rewrite length_app in Hmem. cbn [length] in *.
    rewrite slice_last_length, length_app in Hlog. cbn [length] in Hlog.
    split; [lia|]. split; [lia|].
    rewrite !decide_False by done. split.
    + rewrite Hstore. case_decide as Hnil; [|done]. subst inputs.
      cbn [dialogues] in Hrun. injection Hrun as <-.
      cbn [GameOrchestrator.npcs] in Hnpc.
      pose proof (lookup_insert_eq (GameOrchestrator.npcs self) npc_name) as Hsame.
      rewrite Hsame in Hnpc. injection Hnpc as <-.
      cbn [GameOrchestrator.story_manager StoryManager.npc_memories NPCAgent.memory
           NPCAgent.with_memory].
      apply lookup_insert_eq.
    + rewrite Hlog.
      case_decide as Hnil; [subst inputs; cbn [length]|]; lia.
Qed.

End DialogueEffects.

(** X6.  A dialogue with a registered character whose prompt can be
    built does not fail, whatever the text generation does.  The
    exchange names the character as it was asked for and echoes the
    input; the response text it carries is the one written to the
    conversation log, as its newest record, and the one appended to the
    character's memory.  The interaction count goes up by one, the
    agent's memory is registered with the store, whose entry for the
    character is the agent's memory after the call, the story state
    changes in its timestamp only, and the other characters and the
    settings are left alone.  When the world state holds a value
    [json.dumps] refuses, the call raises [TypeError] instead. *)
Theorem dialogue_is_logged_and_remembered
    (env : collaborators) (clock : nat -> datetime)
    (player_input npc_name : string) (self : GameOrchestrator.t) (npc : NPCAgent.t) :
  GameOrchestrator.npcs self !! npc_name = Some npc ->
  (world_printable (StoryManager.story_state (GameOrchestrator.story_manager self))
   = true ->
   exists x self' npc' text,
    process_player_input env clock player_input npc_name self = Ret (x, self')
    /\ DialogueExchange.npc_name x = npc_name
    /\ DialogueExchange.player_input x = Some player_input
    /\ DialogueExchange.npc_response x = text
    /\ GameOrchestrator.npcs self' !! npc_name = Some npc'
    /\ NPCMemory.memories (NPCAgent.memory npc')
       = NPCMemory.memories (NPCAgent.memory npc)
           ++ [dialogue_memory player_input text (clock 0)]
    /\ NPCMemory.player_interactions (NPCAgent.memory npc')
       = (NPCMemory.player_interactions (NPCAgent.memory npc) + 1)%Z
    /\ StoryManager.npc_memories (GameOrchestrator.story_manager self') !! npc_name
       = Some (NPCAgent.memory npc')
    /\ GameOrchestrator.registered self'
       = {[npc_name]} ∪ GameOrchestrator.registered self
    /\ last (StoryManager.conversation_history (GameOrchestrator.story_manager self'))
       = Some (StoryManager.exchange (clock 2) player_input npc_name text
                 (Some (dialogue_metadata npc)))
    /\ length (StoryManager.conversation_history (GameOrchestrator.story_manager self'))
       = min 100 (length (StoryManager.conversation_history
                            (GameOrchestrator.story_manager self)) + 1)
    /\ StoryManager.story_state (GameOrchestrator.story_manager self')
       = StoryState.with_timestamp (clock 0)
           (StoryManager.story_state (GameOrchestrator.story_manager self))
    /\ GameOrchestrator.settings self' = GameOrchestrator.settings self
    /\ forall other, other <> npc_name ->
         GameOrchestrator.npcs self' !! other = GameOrchestrator.npcs self !! other
         /\ StoryManager.npc_memories (GameOrchestrator.story_manager self') !! other
            = StoryManager.npc_memories (GameOrchestrator.story_manager self) !! other)
  /\ (world_printable (StoryManager.story_state (GameOrchestrator.story_manager self))
      = false ->
      exists msg,
        process_player_input env clock player_input npc_name self
        = Raise (TypeError msg)).
Proof.
  intros Hhit. split; [|by apply (process_player_input_unprintable _ _ _ _ _ npc)].
  intros Hworld.
  destruct (process_player_input_hit env clock player_input npc_name self npc Hhit
              Hworld) as (text & Hstep).
  cbn zeta in Hstep. eexists _, _, _, text. split; [exact Hstep|].
  cbn [DialogueExchange.npc_name DialogueExchange.player_input
       DialogueExchange.npc_response GameOrchestrator.npcs
       GameOrchestrator.story_manager GameOrchestrator.settings
       GameOrchestrator.registered
       StoryManager.npc_memories StoryManager.conversation_history
       StoryManager.story_state].
  do 3 (split; [reflexivity|]).
  split; [apply lookup_insert_eq|].
  do 2 (split; [reflexivity|]).
  split; [apply lookup_insert_eq|].
  split; [reflexivity|].
  split; [apply slice_last_snoc_last; lia|].
  split; [rewrite slice_last_length, length_app; simpl; lia|].
  do 2 (split; [reflexivity|]).
  intros other Hne. by rewrite !lookup_insert_ne.
Qed.

Lemma dialogue_is_logged_and_remembered_witness :
  (exists x self',
    process_player_input env_hail ticking "hello" "Guard" tavern = Ret (x, self')
    /\ DialogueExchange.npc_response x = "Hail."
    /\ DialogueExchange.npc_name x = "Guard"
    /\ exists m, StoryManager.npc_memories (GameOrchestrator.story_manager self') !! "Guard"
                 = Some m
                 /\ NPCMemory.player_interactions m = 1%Z)
  /\ exists msg,
       process_player_input env_hail ticking "hello" "Guard" tavern_with_deadline
       = Raise (TypeError msg).
Proof.
  split.
  - destruct (dialogue_is_logged_and_remembered env_hail ticking "hello" "Guard" tavern
                guard_agent) as [Hok _].
    { vm_compute. reflexivity. }
    destruct Hok
      as (x & self' & npc' & text & Hrun & Hname & _ & Htext & _ & _ & Hcount & Hstore & _).
    { reflexivity. }
    exists x, self'. split; [exact Hrun|]. split.
    { vm_compute in Hrun. injection Hrun as <- <-. reflexivity. }
    split; [exact Hname|].
    exists (NPCAgent.memory npc'). split; [exact Hstore|exact Hcount].
  - destruct (dialogue_is_logged_and_remembered env_hail ticking "hello" "Guard"
                tavern_with_deadline guard_agent) as [_ Hfail].
    { vm_compute. reflexivity. }
    apply Hfail. reflexivity.
Defined.

(** X7.  After [n] dialogues with a registered character, in a story
    whose world state can be printed, its interaction count and the
    number of its memory records have both grown by [n]: the memory is
    never trimmed, and after the first dialogue it is what the store
    holds for the character.  The conversation log has grown by [n] as
    well, up to its cap of 100 records. *)
Theorem memory_grows_with_every_dialogue
    (env : collaborators) (clock : nat -> datetime) (npc_name : string)
    (inputs : list string) (self : GameOrchestrator.t) (npc : NPCAgent.t) :
  GameOrchestrator.npcs self !! npc_name = Some npc ->
  world_printable (StoryManager.story_state (GameOrchestrator.story_manager self))
  = true ->
  length (StoryManager.conversation_history (GameOrchestrator.story_manager self)) <= 100 ->
  exists self' npc',
    dialogues env clock npc_name inputs self = Ret self'
    /\ GameOrchestrator.npcs self' !! npc_name = Some npc'
    /\ NPCMemory.player_interactions (NPCAgent.memory npc')
       = (NPCMemory.player_interactions (NPCAgent.memory npc)
          + Z.of_nat (length inputs))%Z
    /\ length (NPCMemory.memories (NPCAgent.memory npc'))
       = length (NPCMemory.memories (NPCAgent.memory npc)) + length inputs
    /\ (inputs <> [] ->
        StoryManager.npc_memories (GameOrchestrator.story_manager self') !! npc_name
        = Some (NPCAgent.memory npc'))
    /\ length (StoryManager.conversation_history (GameOrchestrator.story_manager self'))
       = min 100 (length (StoryManager.conversation_history
                            (GameOrchestrator.story_manager self))
                  + length inputs).
Proof.
  intros Hhit Hworld Hcap.
  destruct (dialogues_hit env clock npc_name inputs self npc Hhit Hworld)
    as (self' & npc' & Hrun & Hnpc & Hcount & Hmem & Hstore & Hlog).
  exists self', npc'. do 4 (split; [assumption|]).
  split.
  { intros Hne. by rewrite Hstore, decide_False. }
  rewrite Hlog. case_decide as Hnil; [|done]. subst inputs. cbn [length]. lia.
Qed.

Lemma memory_grows_with_every_dialogue_witness :
  exists self' npc',
    dialogues env_hail ticking "Guard" greetings_120 tavern = Ret self'
    /\ GameOrchestrator.npcs self' !! "Guard" = Some npc'
    /\ NPCMemory.player_interactions (NPCAgent.memory npc') = 120%Z
    /\ length (NPCMemory.memories (NPCAgent.memory npc')) = 120
    /\ length (StoryManager.conversation_history (GameOrchestrator.story_manager self'))
       = 100.
Proof.
  destruct (memory_grows_with_every_dialogue env_hail ticking "Guard" greetings_120
              tavern guard_agent)
    as (self' & npc' & Hrun & Hnpc & Hcount & Hmem & _ & Hlog).
  - vm_compute. reflexivity.
  - reflexivity.
  - vm_compute. lia.
  - exists self', npc'. split; [exact Hrun|]. split; [exact Hnpc|].
    split; [exact Hcount|]. split; [exact Hmem|exact Hlog].
Defined.

(** ** The text of a dialogue response *)

Section Quotes.

Lemma endswith_snoc (q : ascii) (t : string) :
  Str.endswith q (t +:+ String q EmptyString) = true.
Proof.
  induction t as [|c t IH]; simpl.
  - by rewrite bool_decide_eq_true_2.
  - rewrite IH. by destruct (t +:+ String q EmptyString).
Qed.

Lemma drop_last_snoc (q : ascii) (t : string) :
  Str.drop_last (t +:+ String q EmptyString) = t.
Proof.
  induction t as [|c t IH]; simpl; [done|].
  rewrite IH. destruct t; reflexivity.
Qed.

Lemma quoted_in_quotes (t : string) :
  in_quotes (quoted double_quote t) = true
  /\ in_quotes (quoted single_quote t) = true.
Proof.
  unfold in_quotes, quoted. split.
  - cbn [Str.startswith]. rewrite bool_decide_eq_true_2 by done.
    assert (H := endswith_snoc double_quote t).
    cbn [Str.endswith]. destruct (t +:+ String double_quote EmptyString); [done|].
    by rewrite H.
  - cbn [Str.startswith].
    rewrite (bool_decide_eq_false_2 (single_quote = double_quote)) by done.
    rewrite bool_decide_eq_true_2 by done.
    assert (H := endswith_snoc single_quote t).
    cbn [Str.endswith]. destruct (t +:+ String single_quote EmptyString); [done|].
    by rewrite H.
Qed.

Lemma strip_ends_quoted (q : ascii) (t : string) :
  Str.strip_ends (quoted q t) = t.
Proof. unfold quoted, Str.strip_ends. apply drop_last_snoc. Qed.

End Quotes.

(** X8.  The dialogue text is the generated text with one pair of
    enclosing quotation marks taken off: a text handed back between two
    double or two single quotes is answered without them, a text that is
    not enclosed is answered as it is, and an answer that consists of
    one quotation mark only yields the empty text. *)
Theorem dialogue_text_loses_enclosing_quotes
    (self : NPCAgent.t) (player_input : string) (story_state : StoryState.t)
    (now : datetime) (t : string) :
  (forall q, q = double_quote \/ q = single_quote ->
     exists r self',
       dialogue_of_generation self player_input story_state now
         (Ret (Some (quoted q t))) = Ret (r, self')
       /\ ActionResponse.content r = t)
  /\ (t <> "" -> in_quotes t = false ->
      exists r self',
        dialogue_of_generation self player_input story_state now (Ret (Some t))
        = Ret (r, self')
        /\ ActionResponse.content r = t)
  /\ (exists r self',
        dialogue_of_generation self player_input story_state now
          (Ret (Some (String double_quote EmptyString))) = Ret (r, self')
        /\ ActionResponse.content r = "").
Proof.
  split; [|split].
  - intros q Hq.
    destruct (dialogue_of_text self player_input story_state now (Some (quoted q t)))
      as (text & -> & Htext).
    eexists _, _. split; [reflexivity|]. cbn [ActionResponse.content].
    rewrite Htext. cbn [truthy quoted default from_option id].
    change (String q (t +:+ String q "")) with (quoted q t).
    destruct (quoted_in_quotes t) as [Hd Hs].
    destruct Hq as [-> | ->]; [rewrite Hd|rewrite Hs]; apply strip_ends_quoted.
  - intros Hne Hq.
    destruct (dialogue_of_text self player_input story_state now (Some t))
      as (text & -> & Htext).
    eexists _, _. split; [reflexivity|]. cbn [ActionResponse.content].
    rewrite Htext. destruct t; [done|]. cbn [truthy default from_option id].
    by rewrite Hq.
  - eexists _, _. split; reflexivity.
Qed.

Lemma dialogue_text_loses_enclosing_quotes_witness :
  (exists r self',
     dialogue_of_generation guard_agent "hello" (StoryManager.story_state fresh_store)
       noon (Ret (Some (quoted single_quote "Halt!"))) = Ret (r, self')
     /\ ActionResponse.content r = "Halt!")
  /\ (exists r self',
        dialogue_of_generation guard_agent "hello" (StoryManager.story_state fresh_store)
          noon (Ret (Some "It's late.")) = Ret (r, self')
        /\ ActionResponse.content r = "It's late.").
Proof.
  destruct (dialogue_text_loses_enclosing_quotes guard_agent "hello"
              (StoryManager.story_state fresh_store) noon "Halt!") as (Hq & _ & _).
  destruct (dialogue_text_loses_enclosing_quotes guard_agent "hello"
              (StoryManager.story_state fresh_store) noon "It's late.") as (_ & Hp & _).
  split.
  - apply Hq. by right.
  - apply Hp; [discriminate|reflexivity].
Defined.

(** ** Actions of a registered character *)

Section Actions.
Context (env : collaborators) (clock : nat -> datetime).

Lemma upper_value_name (a : ActionType) :
  Str.upper (ActionType_value a) = ActionType_name a
  /\ Str.upper (ActionType_name a) = ActionType_name a.
Proof. destruct a; split; reflexivity. Qed.

Lemma ActionType_getitem_name (a : ActionType) :
  ActionType_getitem (ActionType_name a) = Ret a.
Proof. by destruct a. Qed.

Lemma ActionType_getitem_cases (key : string) :
  (exists a, ActionType_name a = key /\ ActionType_getitem key = Ret a)
  \/ ((forall a, ActionType_name a <> key)
      /\ ActionType_getitem key = Raise (KeyError key)).
Proof.
  unfold ActionType_getitem.
  destruct (find _ ActionType_members) as [a|] eqn:Hf.
  - left. exists a. apply find_some in Hf as [_ Hf].
    by apply bool_decide_eq_true_1 in Hf.
  - right. split; [|done]. intros a Ha.
    pose proof (ActionType_getitem_name a) as Hg.
    unfold ActionType_getitem in Hg. rewrite Ha, Hf in Hg. discriminate.
Qed.

Lemma ActionType_name_inj (a b : ActionType) :
  ActionType_name a = ActionType_name b -> a = b.
Proof. destruct a, b; simpl; intros H; try reflexivity; discriminate. Qed.

Lemma action_type_of_string_cases (action_type : string) :
  exists a,
    action_type_of_string action_type = Ret a
    /\ (forall b, Str.upper action_type = ActionType_name b -> a = b)
    /\ ((forall b, Str.upper action_type <> ActionType_name b) -> a = INTERACTION).
Proof.
  unfold action_type_of_string.
  destruct (ActionType_getitem_cases (Str.upper action_type))
    as [(a & Ha & ->)|(Hnone & ->)].
  - exists a. split; [done|]. split.
    + intros b Hb. apply ActionType_name_inj. congruence.
    + intros Hn. destruct (Hn a). done.
  - exists INTERACTION. split; [done|]. split; [|done].
    intros b Hb. destruct (Hnone b). done.
Qed.

End Actions.

(** X9.  The action kind named by a string is found without regard to
    case: a string whose upper-case form is the name of a member of
    [ActionType] selects that member, so every member is selected by its
    own value and by its name, and any other string selects
    [INTERACTION]; no string raises.  The upper-case form is Unicode's:
    ["emotion"] spelled with a dotless i selects [EMOTION], and
    ["story_event"] spelled with a long s, or with the ligature of s and
    t, selects [STORY_EVENT]. *)
Theorem action_kind_ignores_case (action_type : string) :
  exists a,
    action_type_of_string action_type = Ret a
    /\ (forall b, Str.upper action_type = ActionType_name b -> a = b)
    /\ ((forall b, Str.upper action_type <> ActionType_name b) -> a = INTERACTION)
    /\ (forall b, action_type_of_string (ActionType_value b) = Ret b
                  /\ action_type_of_string (ActionType_name b) = Ret b)
    /\ action_type_of_string dotless_emotion = Ret EMOTION
    /\ action_type_of_string ligature_story_event = Ret STORY_EVENT
    /\ action_type_of_string long_s_story_event = Ret STORY_EVENT.
Proof.
  destruct (action_type_of_string_cases action_type) as (a & Hrun & Hhit & Hmiss).
  exists a. split; [done|]. split; [done|]. split; [done|].
  split; [intros b; by destruct b|].
  split; [reflexivity|]. split; reflexivity.
Qed.

Lemma action_kind_ignores_case_witness :
  action_type_of_string "Story_Event" = Ret STORY_EVENT
  /\ action_type_of_string "somersault" = Ret INTERACTION.
Proof.
  destruct (action_kind_ignores_case "Story_Event") as (a & -> & Hhit & _).
  destruct (action_kind_ignores_case "somersault") as (b & -> & _ & Hmiss & _).
  split; f_equal.
  - apply Hhit. reflexivity.
  - apply Hmiss. intros c. destruct c; discriminate.
Defined.

Section ActionOutcomes.
Context (env : collaborators) (clock : nat -> datetime).

(** The three ways [generate_action] ends once its prompt is built, by
    what [generate_text] gave. *)
Lemma generate_action_cases (self : NPCAgent.t) (context : string)
    (story_state : StoryState.t) (action_type : ActionType)
    (temperature : pyfloat) (now : datetime) :
  world_printable story_state = true ->
  let name := NPCPersonality.name (NPCAgent.personality self) in
  match generate_text env (NPCAgent.llm self)
          (action_request env self context story_state) temperature 300 with
  | Ret (Some text) =>
      generate_action env self context story_state action_type temperature now
      = Ret (ActionResponse.mk action_type (Str.strip text) name
               (Some [("model", VEnum (NPCAgent.model self))]) now,
             NPCAgent.with_memory
               (NPCMemory.mk (NPCMemory.npc_name (NPCAgent.memory self))
                  (NPCMemory.memories (NPCAgent.memory self)
                     ++ [action_memory action_type context (Str.strip text)
                           (StoryState.timestamp story_state)])
                  (NPCMemory.important_events (NPCAgent.memory self))
                  (NPCMemory.player_interactions (NPCAgent.memory self)))
               self)
  | Ret None =>
      generate_action env self context story_state action_type temperature now
      = Ret (ActionResponse.mk action_type (name +:+ " stands quietly.") name
               (Some [("error", VStr "'NoneType' object has no attribute 'strip'")])
               now,
             self)
  | Raise _ => False
  end.
Proof.
  intros Hworld name. unfold generate_action, action_request.
  rewrite (action_prompt_printable env _ _ _ Hworld). cbn [bind].
  destruct (generate_text_returns env (NPCAgent.llm self)
              [mk_message "system" action_system_prompt;
               mk_message "user"
                 (action_prompt_text env (NPCAgent.personality self) context
                    story_state)] temperature 300) as ([text|] & ->); reflexivity.
Qed.

Lemma generate_action_effect (self : NPCAgent.t) (context : string)
    (story_state : StoryState.t) (action_type : ActionType)
    (temperature : pyfloat) (now : datetime) :
  world_printable story_state = true ->
  exists r self',
    generate_action env self context story_state action_type temperature now
    = Ret (r, self')
    /\ ActionResponse.action_type r = action_type
    /\ ActionResponse.npc_name r = NPCPersonality.name (NPCAgent.personality self)
    /\ NPCMemory.player_interactions (NPCAgent.memory self')
       = NPCMemory.player_interactions (NPCAgent.memory self)
    /\ match dict_get "error" (default [] (ActionResponse.metadata r)) with
       | Some _ => self' = self
       | None =>
           NPCMemory.memories (NPCAgent.memory self')
           = NPCMemory.memories (NPCAgent.memory self)
               ++ [action_memory action_type context (ActionResponse.content r)
                     (StoryState.timestamp story_state)]
       end.
Proof.
  intros Hworld.
  pose proof (generate_action_cases self context story_state action_type
                temperature now Hworld) as Hcases.
  cbn zeta in Hcases.
  destruct (generate_text env (NPCAgent.llm self) _ temperature 300) as [[text|]|e];
    [| |done]; rewrite Hcases; eexists _, _; (split; [reflexivity|]); done.
Qed.

Lemma generate_action_unprintable (self : NPCAgent.t) (context : string)
    (story_state : StoryState.t) (action_type : ActionType)
    (temperature : pyfloat) (now : datetime) :
  world_printable story_state = false ->
  exists msg,
    generate_action env self context story_state action_type temperature now
    = Raise (TypeError msg).
Proof.
  intros Hworld. unfold generate_action.
  destruct (action_prompt_raises env self context _ Hworld) as [msg ->].
  by exists msg.
Qed.

(** The whole effect of an action of a registered character. *)
Lemma trigger_npc_action_hit (npc_name context action_type : string)
    (self : GameOrchestrator.t) (npc : NPCAgent.t) :
  GameOrchestrator.npcs self !! npc_name = Some npc ->
  let sm := GameOrchestrator.story_manager self in
  world_printable (StoryManager.story_state sm) = true ->
  exists r self' npc' kind,
    trigger_npc_action env clock npc_name context action_type self = Ret (r, self')
    /\ action_type_of_string action_type = Ret kind
    /\ ActionResponse.action_type r = kind
    /\ ActionResponse.npc_name r = NPCPersonality.name (NPCAgent.personality npc)
    /\ GameOrchestrator.npcs self' = <[npc_name := npc']> (GameOrchestrator.npcs self)
    /\ NPCMemory.player_interactions (NPCAgent.memory npc')
       = NPCMemory.player_interactions (NPCAgent.memory npc)
    /\ match dict_get "error" (default [] (ActionResponse.metadata r)) with
       | Some _ => npc' = npc
       | None =>
           NPCMemory.memories (NPCAgent.memory npc')
           = NPCMemory.memories (NPCAgent.memory npc)
               ++ [action_memory kind context (ActionResponse.content r) (clock 0)]
       end
    /\ StoryManager.npc_memories (GameOrchestrator.story_manager self') !! npc_name
       = (if decide (npc_name ∈ GameOrchestrator.registered self)
          then Some (NPCAgent.memory npc')
          else StoryManager.npc_memories sm !! npc_name)
    /\ (forall other, other <> npc_name ->
          StoryManager.npc_memories (GameOrchestrator.story_manager self') !! other
          = StoryManager.npc_memories sm !! other)
    /\ StoryManager.story_state (GameOrchestrator.story_manager self')
       = StoryState.with_timestamp (clock 0) (StoryManager.story_state sm)
    /\ StoryManager.conversation_history (GameOrchestrator.story_manager self')
       = StoryManager.conversation_history sm
    /\ StoryManager.settings (GameOrchestrator.story_manager self')
       = StoryManager.settings sm
    /\ GameOrchestrator.registered self' = GameOrchestrator.registered self
    /\ GameOrchestrator.settings self' = GameOrchestrator.settings self.
Proof.
  intros Hhit sm Hworld. unfold trigger_npc_action, get_npc. rewrite Hhit.
  destruct (action_type_of_string_cases action_type) as (kind & Hkind & _).
  rewrite Hkind. cbn [bind].
  destruct (generate_action_effect npc context
              (StoryState.with_timestamp (clock 0)
                 (StoryManager.story_state (GameOrchestrator.story_manager self)))
              kind (GameSettings.temperature (GameOrchestrator.settings self))
              (clock 1) Hworld) as (r & npc' & -> & Hk & Hn & Hc & Hmem).
  cbn [bind]. eexists r, _, npc', kind. split; [reflexivity|].
  split; [reflexivity|]. split; [exact Hk|]. split; [exact Hn|].
  split; [reflexivity|]. split; [exact Hc|]. split; [exact Hmem|].
  cbn [GameOrchestrator.story_manager GameOrchestrator.registered
       GameOrchestrator.settings].
  unfold memory_written. subst sm.
  case_decide; cbn [StoryManager.register_npc_memory StoryManager.with_npc_memories
    StoryManager.with_story_state StoryManager.npc_memories
    StoryManager.story_state StoryManager.conversation_history
    StoryManager.settings].
  - split; [apply lookup_insert_eq|].
    split; [intros other Hne; by rewrite lookup_insert_ne|]. done.
  - done.
Qed.

Lemma trigger_npc_action_unprintable (npc_name context action_type : string)
    (self : GameOrchestrator.t) (npc : NPCAgent.t) :
  GameOrchestrator.npcs self !! npc_name = Some npc ->
  world_printable (StoryManager.story_state (GameOrchestrator.story_manager self))
  = false ->
  exists msg,
    trigger_npc_action env clock npc_name context action_type self
    = Raise (TypeError msg).
Proof.
  intros Hhit Hworld. unfold trigger_npc_action, get_npc. rewrite Hhit.
  destruct (action_type_of_string_cases action_type) as (kind & Hkind & _).
  rewrite Hkind. cbn [bind].
  destruct (generate_action_unprintable npc context
              (StoryState.with_timestamp (clock 0)
                 (StoryManager.story_state (GameOrchestrator.story_manager self)))
              kind (GameSettings.temperature (GameOrchestrator.settings self))
              (clock 1) Hworld) as [msg ->].
  by exists msg.
Qed.

End ActionOutcomes.

(** X10.  [generate_action] builds its prompt first: with a world
    state [json.dumps] refuses it raises [TypeError].  Otherwise it
    answers with a response of the kind it was asked for, attributed to
    the character.  When the chat-completion call raises, or gives a
    completion without choices, the action text is empty, the response
    carries no error, and the empty action is remembered.  When the
    completion's content is [None] the response is the line that the
    character stands quietly, with the error text in its metadata, and
    the memory is left as it was.  Otherwise the action is the
    generated text without surrounding white space, and it is appended
    to the memory. *)
Theorem action_outcomes
    (env : collaborators) (self : NPCAgent.t) (context : string)
    (story_state : StoryState.t) (action_type : ActionType)
    (temperature : pyfloat) (now : datetime) :
  let call :=
    chat_completions_create env
      (LLM_Model_value (Text_Generator.model (NPCAgent.llm self)))
      (action_request env self context story_state) temperature 300 in
  let name := NPCPersonality.name (NPCAgent.personality self) in
  (world_printable story_state = false ->
   exists msg,
     generate_action env self context story_state action_type temperature now
     = Raise (TypeError msg))
  /\ (world_printable story_state = true ->
  exists r self',
    generate_action env self context story_state action_type temperature now
    = Ret (r, self')
    /\ ActionResponse.action_type r = action_type
    /\ ActionResponse.npc_name r = name
    /\ NPCMemory.player_interactions (NPCAgent.memory self')
       = NPCMemory.player_interactions (NPCAgent.memory self)
    /\ ((forall c cs, call <> Ret (c :: cs)) ->
        ActionResponse.content r = ""
        /\ ActionResponse.metadata r = Some [("model", VEnum (NPCAgent.model self))]
        /\ NPCMemory.memories (NPCAgent.memory self')
           = NPCMemory.memories (NPCAgent.memory self)
               ++ [action_memory action_type context ""
                     (StoryState.timestamp story_state)])
    /\ ((exists cs, call = Ret (None :: cs)) ->
        ActionResponse.content r = name +:+ " stands quietly."
        /\ ActionResponse.metadata r
           = Some [("error", VStr "'NoneType' object has no attribute 'strip'")]
        /\ self' = self)
    /\ (forall text cs, call = Ret (Some text :: cs) ->
        ActionResponse.content r = Str.strip text
        /\ ActionResponse.metadata r = Some [("model", VEnum (NPCAgent.model self))]
        /\ NPCMemory.memories (NPCAgent.memory self')
           = NPCMemory.memories (NPCAgent.memory self)
               ++ [action_memory action_type context (Str.strip text)
                     (StoryState.timestamp story_state)])).
Proof.
  intros call name. split; [apply generate_action_unprintable|].
  intros Hworld.
  pose proof (generate_action_cases env self context story_state action_type
                temperature now Hworld) as Hcases.
  cbn zeta in Hcases. unfold generate_text in Hcases. fold call in Hcases.
  destruct call as [[|[text|] cs]|e] eqn:Hcall; cbn in Hcases;
    rewrite Hcases; eexists _, _; (split; [reflexivity|]);
    cbn [ActionResponse.action_type ActionResponse.npc_name ActionResponse.content
         ActionResponse.metadata NPCAgent.memory NPCAgent.with_memory
         NPCMemory.player_interactions NPCMemory.memories];
    do 3 (split; [reflexivity|]).
  - (* no choice *)
    split; [intros _; done|].
    split; [intros (cs & Hcs); discriminate|]. intros text cs Hcs. discriminate.
  - (* a text *)
    split; [intros Hn; by destruct (Hn (Some text) cs)|].
    split; [intros (cs' & Hcs); discriminate|].
    intros text' cs' [= <- <-]. done.
  - (* None *)
    split; [intros Hn; by destruct (Hn None cs)|].
    split; [done|]. intros text cs' Hcs. discriminate.
  - (* raised *)
    split; [intros _; done|].
    split; [intros (cs & Hcs); discriminate|]. intros text cs Hcs. discriminate.
Qed.

Lemma action_outcomes_witness :
  (exists r self',
     generate_action env_down guard_agent "The gate creaks."
       (StoryManager.story_state fresh_store) MOVEMENT default_temperature noon
     = Ret (r, self')
     /\ ActionResponse.content r = "")
  /\ (exists r,
        generate_action env_silent guard_agent "The gate creaks."
          (StoryManager.story_state fresh_store) MOVEMENT default_temperature noon
        = Ret (r, guard_agent)
        /\ ActionResponse.content r = "Guard stands quietly.")
  /\ (exists msg,
        generate_action env_hail guard_agent "The gate creaks."
          (StoryManager.story_state deadline_store) MOVEMENT default_temperature noon
        = Raise (TypeError msg)).
Proof.
  split; [|split].
  - destruct (action_outcomes env_down guard_agent "The gate creaks."
                (StoryManager.story_state fresh_store) MOVEMENT default_temperature noon)
      as (_ & Hok).
    destruct Hok as (r & self' & Hrun & _ & _ & _ & Hdown & _); [reflexivity|].
    exists r, self'. split; [exact Hrun|]. apply Hdown. intros c cs Hc. discriminate Hc.
  - destruct (action_outcomes env_silent guard_agent "The gate creaks."
                (StoryManager.story_state fresh_store) MOVEMENT default_temperature noon)
      as (_ & Hok).
    destruct Hok as (r & self' & Hrun & _ & _ & _ & _ & Hnone & _); [reflexivity|].
    destruct Hnone as (Hc & _ & ->); [by exists []|].
    exists r. split; [exact Hrun|exact Hc].
  - destruct (action_outcomes env_hail guard_agent "The gate creaks."
                (StoryManager.story_state deadline_store) MOVEMENT default_temperature
                noon) as (Hfail & _).
    apply Hfail. reflexivity.
Defined.

(** X11.  [trigger_npc_action] on a registered character, in a story
    whose world state can be printed, does not fail.  The response has
    the kind the string names (or [INTERACTION]) and is attributed to
    the character's own name.  The conversation log and the settings
    are not touched, the story state changes in its timestamp only,
    and the interaction count of the character stays.  The action is
    appended to the agent's memory unless the response carries an
    error; the store's entry for the character is that memory when the
    agent's memory object was registered with the store (by [add_npc]
    or a dialogue, and not replaced by a load since), and is left as it
    was otherwise.  The other characters and their entries are left
    alone.  With a world state [json.dumps] refuses the call raises
    [TypeError]. *)
Theorem action_is_remembered_not_logged
    (env : collaborators) (clock : nat -> datetime)
    (npc_name context action_type : string)
    (self : GameOrchestrator.t) (npc : NPCAgent.t) :
  GameOrchestrator.npcs self !! npc_name = Some npc ->
  let sm := GameOrchestrator.story_manager self in
  (world_printable (StoryManager.story_state sm) = false ->
   exists msg,
     trigger_npc_action env clock npc_name context action_type self
     = Raise (TypeError msg))
  /\ (world_printable (StoryManager.story_state sm) = true ->
  exists r self' npc' kind,
    trigger_npc_action env clock npc_name context action_type self = Ret (r, self')
    /\ action_type_of_string action_type = Ret kind
    /\ ActionResponse.action_type r = kind
    /\ ActionResponse.npc_name r = NPCPersonality.name (NPCAgent.personality npc)
    /\ GameOrchestrator.npcs self' = <[npc_name := npc']> (GameOrchestrator.npcs self)
    /\ NPCMemory.player_interactions (NPCAgent.memory npc')
       = NPCMemory.player_interactions (NPCAgent.memory npc)
    /\ match dict_get "error" (default [] (ActionResponse.metadata r)) with
       | Some _ => npc' = npc
       | None =>
           NPCMemory.memories (NPCAgent.memory npc')
           = NPCMemory.memories (NPCAgent.memory npc)
               ++ [action_memory kind context (ActionResponse.content r) (clock 0)]
       end
    /\ StoryManager.npc_memories (GameOrchestrator.story_manager self') !! npc_name
       = (if decide (npc_name ∈ GameOrchestrator.registered self)
          then Some (NPCAgent.memory npc')
          else StoryManager.npc_memories sm !! npc_name)
    /\ (forall other, other <> npc_name ->
          StoryManager.npc_memories (GameOrchestrator.story_manager self') !! other
          = StoryManager.npc_memories sm !! other)
    /\ StoryManager.story_state (GameOrchestrator.story_manager self')
       = StoryState.with_timestamp (clock 0) (StoryManager.story_state sm)
    /\ StoryManager.conversation_history (GameOrchestrator.story_manager self')
       = StoryManager.conversation_history sm
    /\ StoryManager.settings (GameOrchestrator.story_manager self')
       = StoryManager.settings sm
    /\ GameOrchestrator.registered self' = GameOrchestrator.registered self
    /\ GameOrchestrator.settings self' = GameOrchestrator.settings self).
Proof.
  intros Hhit sm. split.
  - by apply (trigger_npc_action_unprintable env clock _ _ _ _ npc).
  - by apply trigger_npc_action_hit.
Qed.

Lemma action_is_remembered_not_logged_witness :
  (exists r self' m,
    trigger_npc_action env_hail ticking "Guard" "The gate creaks." "Movement" tavern
    = Ret (r, self')
    /\ ActionResponse.action_type r = MOVEMENT
    /\ StoryManager.conversation_history (GameOrchestrator.story_manager self') = []
    /\ StoryManager.npc_memories (GameOrchestrator.story_manager self') !! "Guard"
       = Some m
    /\ length (NPCMemory.memories m) = 1)
  /\ (exists r self',
        trigger_npc_action env_hail ticking "Guard" "The gate creaks." "Movement"
          tavern_reloaded = Ret (r, self')
        /\ StoryManager.npc_memories (GameOrchestrator.story_manager self') !! "Guard"
           = Some (NPCMemory.new "Guard")).
Proof.
  split.
  - destruct (action_is_remembered_not_logged env_hail ticking "Guard"
                "The gate creaks." "Movement" tavern guard_agent) as [_ Hok].
    { vm_compute. reflexivity. }
    destruct Hok
      as (r & self' & npc' & kind & Hrun & Hkind & Hk & _ & _ & _ & Hmem & Hstore & _
          & _ & Hlog & _); [reflexivity|].
    exists r, self', (NPCAgent.memory npc'). split; [exact Hrun|]. split.
    { rewrite Hk. vm_compute in Hkind. by injection Hkind as <-. }
    split; [rewrite Hlog; reflexivity|].
    split; [rewrite Hstore; reflexivity|].
    vm_compute in Hrun. injection Hrun as <- <-. cbn in Hmem.
    rewrite Hmem. reflexivity.
  - destruct (action_is_remembered_not_logged env_hail ticking "Guard"
                "The gate creaks." "Movement" tavern_reloaded guard_agent) as [_ Hok].
    { vm_compute. reflexivity. }
    destruct Hok as (r & self' & npc' & kind & Hrun & _ & _ & _ & _ & _ & _ & Hstore & _);
      [reflexivity|].
    exists r, self'. split; [exact Hrun|].
    rewrite Hstore. vm_compute. reflexivity.
Defined.

(** ** The roster *)

(** X12.  [add_npc] with a model always registers the character;
    without one it registers it exactly when the model setting holds a
    member of [LLM_Model], and raises [AttributeError] otherwise, as
    with the default settings.  A registered character starts with an
    empty memory and no interactions, in the roster and in the store,
    which is handed the memory object of the agent, whatever was kept
    under its name before; the generator of its agent
    asks for [GPT_OSS_OLLAMA] where [GPT_OSS_OPEN] was chosen; the other
    characters, the story state and the log are left alone. *)
Theorem add_npc_registers_fresh_memory
    (personality : NPCPersonality.t) (model : option LLM_Model)
    (self : GameOrchestrator.t) :
  let name := NPCPersonality.name personality in
  let chosen :=
    match model with
    | Some m => VEnum m
    | None => GameSettings.llm_model (GameOrchestrator.settings self)
    end in
  match chosen with
  | VEnum m =>
      exists self' agent,
        add_npc personality model self = Ret self'
        /\ GameOrchestrator.npcs self' !! name = Some agent
        /\ NPCAgent.personality agent = personality
        /\ NPCAgent.model agent = m
        /\ NPCAgent.memory agent = NPCMemory.new name
        /\ Text_Generator.model (NPCAgent.llm agent) <> GPT_OSS_OPEN
        /\ (m <> GPT_OSS_OPEN -> Text_Generator.model (NPCAgent.llm agent) = m)
        /\ StoryManager.npc_memories (GameOrchestrator.story_manager self') !! name
           = Some (NPCMemory.new name)
        /\ GameOrchestrator.registered self'
           = {[name]} ∪ GameOrchestrator.registered self
        /\ (forall other, other <> name ->
              GameOrchestrator.npcs self' !! other = GameOrchestrator.npcs self !! other
              /\ StoryManager.npc_memories (GameOrchestrator.story_manager self') !! other
                 = StoryManager.npc_memories (GameOrchestrator.story_manager self)
                     !! other)
        /\ StoryManager.story_state (GameOrchestrator.story_manager self')
           = StoryManager.story_state (GameOrchestrator.story_manager self)
        /\ StoryManager.conversation_history (GameOrchestrator.story_manager self')
           = StoryManager.conversation_history (GameOrchestrator.story_manager self)
  | _ => exists msg, add_npc personality model self = Raise (AttributeError msg)
  end.
Proof.
  intros name chosen. unfold add_npc. fold chosen.
  destruct chosen; try (simpl; eauto; fail).
  cbn [NPCAgent.init bind]. eexists _, _. split; [reflexivity|].
  cbn [GameOrchestrator.npcs GameOrchestrator.story_manager GameOrchestrator.registered].
  split; [apply lookup_insert_eq|]. do 3 (split; [reflexivity|]).
  split; [simpl; by case_decide|].
  split; [intros Hne; simpl; by case_decide|].
  split; [apply lookup_insert_eq|].
  split; [reflexivity|].
  split; [|done]. intros other Hne. simpl. by rewrite !lookup_insert_ne.
Qed.

Lemma add_npc_registers_fresh_memory_witness :
  (exists msg, add_npc guard None (GameOrchestrator.new None noon)
               = Raise (AttributeError msg))
  /\ (exists self',
        add_npc guard (Some GPT_OSS_OPEN) (GameOrchestrator.new None noon) = Ret self'
        /\ StoryManager.npc_memories (GameOrchestrator.story_manager self') !! "Guard"
           = Some (NPCMemory.new "Guard")).
Proof.
  split.
  - apply (add_npc_registers_fresh_memory guard None (GameOrchestrator.new None noon)).
  - destruct (add_npc_registers_fresh_memory guard (Some GPT_OSS_OPEN)
                (GameOrchestrator.new None noon))
      as (self' & agent & Hrun & _ & _ & _ & _ & _ & _ & Hmem & _).
    exists self'. split; [exact Hrun|exact Hmem].
Defined.

(** X13.  [remove_npc] takes the character out of the roster and
    nothing else: the store, with the character's memory in it, is as
    before, the other characters stay, and removing an unknown name
    changes nothing.  A player input to the removed character is then
    answered by ["System"]. *)
Theorem remove_npc_keeps_store
    (env : collaborators) (clock : nat -> datetime)
    (npc_name player_input : string) (self : GameOrchestrator.t) :
  GameOrchestrator.npcs (remove_npc npc_name self) !! npc_name = None
  /\ GameOrchestrator.story_manager (remove_npc npc_name self)
     = GameOrchestrator.story_manager self
  /\ GameOrchestrator.settings (remove_npc npc_name self)
     = GameOrchestrator.settings self
  /\ (forall other, other <> npc_name ->
        GameOrchestrator.npcs (remove_npc npc_name self) !! other
        = GameOrchestrator.npcs self !! other)
  /\ (GameOrchestrator.npcs self !! npc_name = None -> remove_npc npc_name self = self)
  /\ exists x,
       process_player_input env clock player_input npc_name (remove_npc npc_name self)
       = Ret (x, remove_npc npc_name self)
       /\ DialogueExchange.npc_name x = "System".
Proof.
  split; [apply lookup_delete_eq|]. do 2 (split; [reflexivity|]).
  split; [intros other Hne; by apply lookup_delete_ne|].
  split.
  - intros Hnone. unfold remove_npc. rewrite delete_id by done. by destruct self.
  - unfold process_player_input, get_npc. cbn [remove_npc GameOrchestrator.npcs].
    rewrite lookup_delete_eq. eexists. split; reflexivity.
Qed.

Lemma remove_npc_keeps_store_witness :
  remove_npc "Ghost" tavern = tavern
  /\ StoryManager.npc_memories (GameOrchestrator.story_manager (remove_npc "Guard" tavern))
       !! "Guard" = Some (NPCMemory.new "Guard").
Proof.
  destruct (remove_npc_keeps_store env_hail ticking "Ghost" "hello" tavern)
    as (_ & _ & _ & _ & Hnone & _).
  destruct (remove_npc_keeps_store env_hail ticking "Guard" "hello" tavern)
    as (_ & Hsm & _).
  split.
  - apply Hnone. vm_compute. reflexivity.
  - rewrite Hsm. vm_compute. reflexivity.
Defined.

(** ** Starting a story *)

Section InitializeStory.

Lemma fold_update_world_state (items : pydict) (sm : StoryManager.t) :
  fold_left (fun sm kv => StoryManager.update_world_state (fst kv) (snd kv) sm) items sm
  = StoryManager.with_story_state
      (StoryState.with_world_state
         (fold_left (fun d kv => dict_set (fst kv) (snd kv) d) items (world_state_of sm))
         (StoryManager.story_state sm)) sm.
Proof.
  revert sm. induction items as [|[k v] items IH]; intros sm.
  - simpl. by destruct sm as [? [] ? ?].
  - simpl. rewrite IH. reflexivity.
Qed.

(** What the two setters of [initialize_story] leave in the lists. *)
Lemma set_both_lists (plot_points active_goals : list_object) (sm : StoryManager.t) :
  let sm' :=
    StoryManager.set_active_goals active_goals
      (StoryManager.set_plot_points plot_points sm) in
  plot_points_of sm' = StoryState.items_of plot_points (StoryManager.story_state sm)
  /\ active_goals_of sm'
     = match active_goals with
       | other_list items => items
       | the_plot_points =>
           StoryState.items_of plot_points (StoryManager.story_state sm)
       | the_active_goals => active_goals_of sm
       end
  /\ (active_goals = the_plot_points -> ~ lists_separate sm')
  /\ (forall items, active_goals = other_list items -> lists_separate sm').
Proof.
  unfold plot_points_of, active_goals_of, lists_separate.
  destruct sm as [st [[pp ag|both] ce ws ts] mem hist];
    destruct plot_points, active_goals; cbn; repeat split; try done;
    try (intros _ H; exact H); intros; discriminate.
Qed.

Lemma dict_get_fold_set (items d : pydict) (k : string) :
  NoDup (map fst items) ->
  dict_get k (fold_left (fun d kv => dict_set (fst kv) (snd kv) d) items d)
  = match dict_get k items with
    | Some v => Some v
    | None => dict_get k d
    end.
Proof.
  revert d. induction items as [|[k' v'] items IH]; intros d Hnd; [done|].
  apply NoDup_cons in Hnd as [Hk' Hnd]. simpl. rewrite IH by done.
  case_decide as Hk.
  - subst k'. rewrite (proj2 (dict_get_None_keys k items) Hk').
    apply dict_get_set_eq.
  - destruct (dict_get k items); [done|]. by apply dict_get_set_ne.
Qed.

End InitializeStory.

(** X14.  [initialize_story] replaces the plot points and the active
    goals by the lists it is given, and merges the world state it is
    given into the one of the store: a key of the argument reads back
    its new value, every other key reads as before.  The lists are
    kept as the objects they are: when one list is handed over for
    both, [plot_points] and [active_goals] hold one object afterwards,
    and two when the goals come as a list of their own.  Completed
    events, conversation log, memories, roster and settings are not
    touched. *)
Theorem initialize_story_replaces_and_merges
    (plot_points active_goals : list_object) (world_state : pydict)
    (self : GameOrchestrator.t) (key : string) (default : pyval) :
  NoDup (map fst world_state) ->
  let self' := initialize_story plot_points active_goals world_state self in
  let sm := GameOrchestrator.story_manager self in
  let sm' := GameOrchestrator.story_manager self' in
  plot_points_of sm' = StoryState.items_of plot_points (StoryManager.story_state sm)
  /\ active_goals_of sm'
     = match active_goals with
       | other_list items => items
       | the_plot_points =>
           StoryState.items_of plot_points (StoryManager.story_state sm)
       | the_active_goals => active_goals_of sm
       end
  /\ (active_goals = the_plot_points -> ~ lists_separate sm')
  /\ (forall items, active_goals = other_list items -> lists_separate sm')
  /\ StoryManager.get_world_state key default sm'
     = match dict_get key world_state with
       | Some v => v
       | None => StoryManager.get_world_state key default sm
       end
  /\ completed_events_of sm' = completed_events_of sm
  /\ StoryState.timestamp (StoryManager.story_state sm')
     = StoryState.timestamp (StoryManager.story_state sm)
  /\ StoryManager.conversation_history sm' = StoryManager.conversation_history sm
  /\ StoryManager.npc_memories sm' = StoryManager.npc_memories sm
  /\ StoryManager.settings sm' = StoryManager.settings sm
  /\ GameOrchestrator.npcs self' = GameOrchestrator.npcs self
  /\ GameOrchestrator.settings self' = GameOrchestrator.settings self.
Proof.
  intros Hnd self' sm sm'. subst self' sm' sm. unfold initialize_story.
  cbn [GameOrchestrator.story_manager GameOrchestrator.npcs GameOrchestrator.settings].
  rewrite fold_update_world_state.
  destruct (set_both_lists plot_points active_goals
              (GameOrchestrator.story_manager self)) as (Hpp & Hag & Hone & Htwo).
  cbn zeta in Hpp, Hag, Hone, Htwo.
  remember (StoryManager.set_active_goals active_goals
              (StoryManager.set_plot_points plot_points
                 (GameOrchestrator.story_manager self))) as sm1 eqn:Hsm1.
  assert (Hrest : completed_events_of sm1
                  = completed_events_of (GameOrchestrator.story_manager self)
                  /\ StoryState.timestamp (StoryManager.story_state sm1)
                     = StoryState.timestamp
                         (StoryManager.story_state (GameOrchestrator.story_manager self))
                  /\ world_state_of sm1
                     = world_state_of (GameOrchestrator.story_manager self)
                  /\ StoryManager.conversation_history sm1
                     = StoryManager.conversation_history
                         (GameOrchestrator.story_manager self)
                  /\ StoryManager.npc_memories sm1
                     = StoryManager.npc_memories (GameOrchestrator.story_manager self)
                  /\ StoryManager.settings sm1
                     = StoryManager.settings (GameOrchestrator.story_manager self)).
  { subst sm1. unfold completed_events_of, world_state_of.
    by destruct plot_points, active_goals. }
  destruct Hrest as (Hce & Hts & Hws & Hlog & Hmem & Hst).
  unfold plot_points_of, active_goals_of, completed_events_of,
    StoryManager.get_world_state, world_state_of, lists_separate in *.
  cbn [StoryManager.story_state StoryManager.with_story_state
       StoryState.with_world_state StoryState.plot_points StoryState.active_goals
       StoryState.assignable StoryState.completed_events StoryState.world_state
       StoryState.timestamp StoryManager.conversation_history
       StoryManager.npc_memories StoryManager.settings] in *.
  split; [exact Hpp|]. split; [exact Hag|]. split; [exact Hone|]. split; [exact Htwo|].
  rewrite dict_get_fold_set by done. rewrite Hws.
  split; [by destruct (dict_get key world_state)|].
  split; [exact Hce|]. split; [exact Hts|]. done.
Qed.

Lemma initialize_story_replaces_and_merges_witness :
  let self' :=
    initialize_story (other_list ["The gate is shut"]) (other_list ["Find the key"])
      [("weather", VStr "rain"); ("torches", VInt 3)] sunny in
  StoryManager.get_world_state "weather" VNone (GameOrchestrator.story_manager self')
  = VStr "rain"
  /\ StoryManager.get_world_state "moon" VNone (GameOrchestrator.story_manager self')
     = VStr "full".
Proof.
  assert (Hnd : NoDup (map fst [("weather", VStr "rain"); ("torches", VInt 3)])).
  { apply (bool_decide_unpack _). vm_compute. exact I. }
  pose proof (initialize_story_replaces_and_merges (other_list ["The gate is shut"])
                (other_list ["Find the key"])
                [("weather", VStr "rain"); ("torches", VInt 3)] sunny "weather" VNone Hnd)
    as Hweather.
  pose proof (initialize_story_replaces_and_merges (other_list ["The gate is shut"])
                (other_list ["Find the key"])
                [("weather", VStr "rain"); ("torches", VInt 3)] sunny "moon" VNone Hnd)
    as Hmoon.
  cbn zeta in Hweather, Hmoon.
  destruct Hweather as (_ & _ & _ & _ & Hweather & _).
  destruct Hmoon as (_ & _ & _ & _ & Hmoon & _).
  intros self'. subst self'. split.
  - rewrite Hweather. reflexivity.
  - rewrite Hmoon. reflexivity.
Defined.

(** ** The conversation log, read back *)

Section ReadLog.

Lemma string_app_assoc (a b c : string) : (a +:+ b) +:+ c = a +:+ (b +:+ c).
Proof.
  induction a as [|x a IH]; [reflexivity|].
  change (String x ((a +:+ b) +:+ c) = String x (a +:+ (b +:+ c))).
  by rewrite IH.
Qed.

Lemma string_app_empty (a : string) : a +:+ EmptyString = a.
Proof.
  induction a as [|x a IH]; [reflexivity|].
  change (String x (a +:+ EmptyString) = String x a). by rewrite IH.
Qed.

Lemma getitem_record (c : conversation_call) :
  getitem (record_of c) "player_input" = Ret (VStr (call_player_input c))
  /\ getitem (record_of c) "npc_name" = Ret (VStr (call_npc_name c))
  /\ getitem (record_of c) "npc_response" = Ret (VStr (call_npc_response c)).
Proof. split; [|split]; reflexivity. Qed.

Lemma select_by_npc_records (name : string) (calls : list conversation_call) :
  select_by_npc name (map record_of calls)
  = Ret (map record_of (filter (fun call => call_npc_name call = name) calls)).
Proof.
  induction calls as [|c calls IH]; [reflexivity|].
  cbn [map select_by_npc].
  destruct (getitem_record c) as (_ & -> & _). cbn [bind]. rewrite IH. cbn [bind eq_str].
  rewrite filter_cons. case_decide as Hn.
  - by rewrite bool_decide_eq_true_2.
  - by rewrite bool_decide_eq_false_2.
Qed.

Lemma selected_records (npc_name : option string) (calls : list conversation_call) :
  match npc_name with
  | Some name =>
      if truthy npc_name then select_by_npc name (map record_of calls)
      else Ret (map record_of calls)
  | None => Ret (map record_of calls)
  end = Ret (map record_of (calls_about npc_name calls)).
Proof.
  destruct npc_name as [[|c n]|]; cbn [truthy calls_about]; [done| |done].
  apply select_by_npc_records.
Qed.

Lemma slice_from_map {A B} (f : A -> B) (start : Z) (l : list A) :
  slice_from start (map f l) = map f (slice_from start l).
Proof.
  unfold slice_from. rewrite length_map.
  destruct (start <? 0)%Z; by rewrite skipn_map.
Qed.

Lemma summary_entry_record (c : conversation_call) :
  summary_entry (record_of c) = Ret (call_entry c).
Proof. reflexivity. Qed.

Lemma summary_loop_records (summary : string) (calls : list conversation_call) :
  summary_loop summary (map record_of calls)
  = Ret (summary +:+ concat_strings (map call_entry calls)).
Proof.
  revert summary. induction calls as [|c calls IH]; intros summary.
  - cbn [map summary_loop concat_strings foldr]. by rewrite string_app_empty.
  - cbn [map summary_loop]. rewrite summary_entry_record. cbn [bind].
    rewrite IH. f_equal. cbn [concat_strings foldr]. apply string_app_assoc.
Qed.

End ReadLog.

(** X15.  On a log written by [record_conversation],
    [get_conversation_history] for a character gives the records of the
    calls that named it, in the order of the calls, and the whole log
    when no name or the empty name is given.  A record without a
    ["npc_name"] entry, as a loaded file may hold, makes the request
    for a character fail with [KeyError]. *)
Theorem conversation_history_by_character
    (calls : list conversation_call) (self : GameOrchestrator.t) (npc_name : string) :
  StoryManager.conversation_history (GameOrchestrator.story_manager self)
  = map record_of calls ->
  (npc_name <> "" ->
   get_conversation_history (Some npc_name) self
   = Ret (map record_of (filter (fun call => call_npc_name call = npc_name) calls)))
  /\ get_conversation_history None self = Ret (map record_of calls)
  /\ get_conversation_history (Some "") self = Ret (map record_of calls)
  /\ (forall (other : GameOrchestrator.t) (d : pydict) (rest : list pyval),
        npc_name <> "" ->
        StoryManager.conversation_history (GameOrchestrator.story_manager other)
        = VDict d :: rest ->
        dict_get "npc_name" d = None ->
        get_conversation_history (Some npc_name) other = Raise (KeyError "npc_name")).
Proof.
  intros Hlog. unfold get_conversation_history. rewrite Hlog.
  split; [|split; [done|split; [done|]]].
  - intros Hne. destruct npc_name as [|c n]; [done|]. cbn [truthy].
    apply select_by_npc_records.
  - intros other d rest Hne Hother Hd. rewrite Hother.
    destruct npc_name as [|c n]; [done|]. cbn [truthy select_by_npc getitem].
    by rewrite Hd.
Qed.

Lemma conversation_history_by_character_witness :
  get_conversation_history (Some "Guard") chatty
  = Ret [record_of (mk_call noon "hello" "Guard" "Hail." None);
         record_of (mk_call noon "open the gate" "Guard" "Not at night." None)].
Proof.
  destruct (conversation_history_by_character three_calls chatty "Guard") as (Hby & _).
  - vm_compute. reflexivity.
  - rewrite Hby by discriminate. vm_compute. reflexivity.
Defined.

(** X16.  On a log written by [record_conversation],
    [get_conversation_summary] does not fail.  It picks the records of
    the character asked for (all records without a name), keeps the
    last [last_n] of them, and answers ["No recent conversations."]
    when none is left, otherwise a heading followed by two lines per
    record, oldest first, with input and response cut to 50
    characters.  With [last_n = 0] every record is kept, and a negative
    [last_n] drops that many of the oldest records instead. *)
Theorem conversation_summary_selection
    (calls : list conversation_call) (s : StoryManager.t)
    (npc_name : option string) (last_n : Z) :
  StoryManager.conversation_history s = map record_of calls ->
  let about := calls_about npc_name calls in
  let selected := slice_from (- last_n) about in
  get_conversation_summary npc_name last_n s
  = Ret (match selected with
         | [] => "No recent conversations."
         | _ => "Recent conversations:" +:+ nl
                +:+ concat_strings (map call_entry selected)
         end)
  /\ ((0 < last_n)%Z -> selected = slice_last (Z.to_nat last_n) about)
  /\ (last_n = 0%Z -> selected = about)
  /\ ((last_n < 0)%Z -> selected = drop (Z.to_nat (- last_n)) about).
Proof.
  intros Hlog about selected. split.
  - unfold get_conversation_summary. rewrite Hlog, selected_records. cbn [bind].
    rewrite slice_from_map. fold about. fold selected.
    destruct selected as [|c sel] eqn:Hsel; [reflexivity|].
    cbn [map]. change (record_of c :: map record_of sel)
      with (map record_of (c :: sel)).
    rewrite summary_loop_records. reflexivity.
  - subst selected. unfold slice_from, slice_last. split; [|split].
    + intros Hpos. rewrite (proj2 (Z.ltb_lt _ _)) by lia.
      by rewrite Z.opp_involutive.
    + intros ->. reflexivity.
    + intros Hneg. by rewrite (proj2 (Z.ltb_ge _ _)) by lia.
Qed.

Lemma conversation_summary_selection_witness :
  get_conversation_summary (Some "Guard") 1 (record_all three_calls fresh_store)
  = Ret ("Recent conversations:" +:+ nl +:+ nl
         +:+ "- Player: open the gate..." +:+ nl
         +:+ "  Guard: Not at night...." +:+ nl)
  /\ get_conversation_summary (Some "Smith") 5 (record_all three_calls fresh_store)
     = Ret "No recent conversations.".
Proof.
  pose proof (conversation_summary_selection three_calls
                (record_all three_calls fresh_store) (Some "Guard") 1) as Hguard.
  pose proof (conversation_summary_selection three_calls
                (record_all three_calls fresh_store) (Some "Smith") 5) as Hsmith.
  cbn zeta in Hguard, Hsmith.
  destruct Hguard as (Hguard & _); [vm_compute; reflexivity|].
  destruct Hsmith as (Hsmith & _); [vm_compute; reflexivity|].
  split.
  - rewrite Hguard. vm_compute. reflexivity.
  - rewrite Hsmith. vm_compute. reflexivity.
Defined.

(** ** Saving and loading a game *)

Section LoadedWorld.







End LoadedWorld.



(** ** Streaming text generation *)

Section Streaming.

Lemma concat_chunks_texts (response : string) (chunks : list (list (option string)))
    (texts : list string) (rest : list (list (option string))) :
  Forall2 chunk_gives chunks texts ->
  concat_chunks response (chunks ++ rest)
  = concat_chunks (response +:+ concat_strings texts) rest.
Proof.
  intros Hall. revert response.
  induction Hall as [|chunk text chunks texts (others & ->) _ IH]; intros response.
  - cbn [concat_strings foldr app]. by rewrite string_app_empty.
  - cbn [app concat_chunks]. rewrite IH. cbn [concat_strings foldr].
    by rewrite string_app_assoc.
Qed.

End Streaming.

(** X18.  [generate_streaming_text] has no handler of its own: a
    failure of the streaming call comes out of it as it is.  When every
    chunk gives a text it returns the texts joined in order; the first
    chunk whose content is [None] makes it raise [TypeError], and the
    first chunk without a choice [IndexError]. *)
Theorem streaming_text_propagates_failures
    (stream : string -> list message -> pyfloat -> Z ->
              outcome (list (list (option string))))
    (self : Text_Generator.t) (messages : list message)
    (temperature : pyfloat) (max_tokens : Z) :
  let call :=
    stream (LLM_Model_value (Text_Generator.model self)) messages temperature max_tokens in
  (forall e, call = Raise e ->
     generate_streaming_text stream self messages temperature max_tokens = Raise e)
  /\ (forall chunks texts,
        call = Ret chunks -> Forall2 chunk_gives chunks texts ->
        generate_streaming_text stream self messages temperature max_tokens
        = Ret (concat_strings texts))
  /\ (forall chunks texts others rest,
        call = Ret (chunks ++ (None :: others) :: rest) ->
        Forall2 chunk_gives chunks texts ->
        exists msg,
          generate_streaming_text stream self messages temperature max_tokens
          = Raise (TypeError msg))
  /\ (forall chunks texts rest,
        call = Ret (chunks ++ [] :: rest) ->
        Forall2 chunk_gives chunks texts ->
        exists msg,
          generate_streaming_text stream self messages temperature max_tokens
          = Raise (IndexError msg)).
Proof.
  intros call. unfold generate_streaming_text. fold call.
  split; [by intros e ->|]. split; [|split].
  - intros chunks texts -> Hall. cbn [bind].
    rewrite <- (app_nil_r chunks), (concat_chunks_texts _ _ texts) by done.
    reflexivity.
  - intros chunks texts others rest -> Hall. cbn [bind].
    rewrite (concat_chunks_texts _ _ texts) by done. cbn. eauto.
  - intros chunks texts rest -> Hall. cbn [bind].
    rewrite (concat_chunks_texts _ _ texts) by done. cbn. eauto.
Qed.

Lemma streaming_text_propagates_failures_witness :
  generate_streaming_text (fun _ _ _ _ => Raise (APIError "Connection error."))
    (Text_Generator.init GPT_41_MINI) [mk_message "user" "hello"] default_temperature 200
  = Raise (APIError "Connection error.")
  /\ generate_streaming_text (fun _ _ _ _ => Ret [[Some "Ha"]; [Some "il."; None]])
       (Text_Generator.init GPT_41_MINI) [mk_message "user" "hello"]
       default_temperature 200
     = Ret "Hail."
  /\ exists msg,
       generate_streaming_text (fun _ _ _ _ => Ret [[Some "Hail."]; [None]])
         (Text_Generator.init GPT_41_MINI) [mk_message "user" "hello"]
         default_temperature 200
       = Raise (TypeError msg).
Proof.
  split; [|split].
  - apply (streaming_text_propagates_failures
             (fun _ _ _ _ => Raise (APIError "Connection error."))).
    reflexivity.
  - apply (streaming_text_propagates_failures
             (fun _ _ _ _ => Ret [[Some "Ha"]; [Some "il."; None]])
             (Text_Generator.init GPT_41_MINI) [mk_message "user" "hello"]
             default_temperature 200)
      with (chunks := [[Some "Ha"]; [Some "il."; None]]) (texts := ["Ha"; "il."]).
    + reflexivity.
    + repeat constructor; eexists; reflexivity.
  - apply (streaming_text_propagates_failures
             (fun _ _ _ _ => Ret [[Some "Hail."]; [None]])
             (Text_Generator.init GPT_41_MINI) [mk_message "user" "hello"]
             default_temperature 200)
      with (chunks := [[Some "Hail."]]) (texts := ["Hail."]) (others := []) (rest := []).
    + reflexivity.
    + repeat constructor. eexists; reflexivity.
Defined.

(** X19.  The model a generator asks for fits its client: on the
    Ollama client it is never [GPT_OSS_OPEN], on the Open Router client
    never [GPT_OSS_OLLAMA], the one being exchanged for the other; every
    other model, and every model on another client, is kept, and
    adjusting an adjusted model changes nothing.  The generator of an
    agent is the one for the Ollama client. *)
Theorem generator_model_fits_client (client : llm_client) (model : LLM_Model) :
  let kept := Text_Generator.model (Text_Generator_init_with client model) in
  Text_Generator.init model = Text_Generator_init_with ollama_client model
  /\ (client = ollama_client -> kept <> GPT_OSS_OPEN)
  /\ (client = open_router_client -> kept <> GPT_OSS_OLLAMA)
  /\ (model <> GPT_OSS_OPEN -> model <> GPT_OSS_OLLAMA -> kept = model)
  /\ (client = other_client -> kept = model)
  /\ Text_Generator_init_with client kept = Text_Generator_init_with client model.
Proof.
  intros kept. subst kept. split; [reflexivity|].
  destruct client, model; vm_compute; repeat split; intros; congruence.
Qed.

Lemma generator_model_fits_client_witness :
  Text_Generator.model (Text_Generator_init_with open_router_client GPT_OSS_OLLAMA)
  <> GPT_OSS_OLLAMA
  /\ Text_Generator.model (Text_Generator_init_with ollama_client DEEPSEEK_V3)
     = DEEPSEEK_V3.
Proof.
  pose proof (generator_model_fits_client open_router_client GPT_OSS_OLLAMA) as Hr.
  pose proof (generator_model_fits_client ollama_client DEEPSEEK_V3) as Ho.
  cbn zeta in Hr, Ho.
  destruct Hr as (_ & _ & Hr & _). destruct Ho as (_ & _ & _ & Ho & _).
  split; [by apply Hr|]. apply Ho; discriminate.
Defined.

(** ** Invariants of the store *)

Section StoreInvariant.

Lemma complete_goal_returns (goal : string) (s : StoryManager.t) :
  exists goals,
    StoryManager.complete_goal goal s
    = Ret (StoryManager.with_story_state
             (StoryState.write_active_goals goals (StoryManager.story_state s)) s).
Proof.
  destruct (decide (goal ∈ active_goals_of s)) as [Hin|Hn].
  - destruct (complete_goal_present goal s Hin) as (l1 & l2 & _ & _ & ->). eauto.
  - rewrite complete_goal_absent by done. exists (active_goals_of s).
    by rewrite write_active_goals_same.
Qed.

Lemma run_op_invariant (op : store_op) (s : StoryManager.t) :
  store_invariant s -> exists s', run_op s op = Ret s' /\ store_invariant s'.
Proof.
  intros [Hlog Hev Hw]. destruct op; simpl;
    try (eexists; split; [reflexivity|]; split; assumption).
  - (* set_plot_points *)
    eexists; split; [reflexivity|]. destruct plot_points; split; assumption.
  - (* complete_event *)
    eexists; split; [reflexivity|]. split.
    + unfold StoryManager.complete_event. by case_decide.
    + by apply complete_event_NoDup.
    + unfold StoryManager.complete_event. by case_decide.
  - (* set_active_goals *)
    eexists; split; [reflexivity|]. destruct goals; split; assumption.
  - (* add_active_goal *)
    eexists; split; [reflexivity|].
    unfold StoryManager.add_active_goal. case_decide; split; assumption.
  - (* complete_goal *)
    destruct (complete_goal_returns goal s) as (goals & ->).
    eexists; split; [reflexivity|]. split; assumption.
  - (* update_world_state *)
    eexists; split; [reflexivity|]. split; [assumption..|].
    unfold world_state_of. simpl. by apply dict_set_distinct.
  - (* record_conversation *)
    eexists; split; [reflexivity|]. split.
    + apply record_call_bounded.
    + unfold record_call, StoryManager.record_conversation. by case_decide.
    + unfold record_call, StoryManager.record_conversation. by case_decide.
Qed.

End StoreInvariant.

(** X20.  No sequence of store operations raises, and every one of
    them keeps what a new store starts with: at most 100 records in the
    conversation log, no event twice among the completed events, and
    pairwise distinct keys in the world state. *)
Theorem store_operations_keep_invariants
    (settings : option GameSettings.t) (now : datetime)
    (ops : list store_op) (s : StoryManager.t) :
  store_invariant (StoryManager.new settings now)
  /\ (store_invariant s ->
      exists s', run_ops ops s = Ret s' /\ store_invariant s').
Proof.
  split.
  - split; simpl; [lia|apply NoDup_nil_2|apply NoDup_nil_2].
  - revert s. induction ops as [|op ops IH]; intros s Hs; [by exists s|].
    destruct (run_op_invariant op s Hs) as (s1 & Hrun & Hs1).
    simpl. rewrite Hrun. simpl. by apply IH.
Qed.

Lemma store_operations_keep_invariants_witness :
  exists s',
    run_ops busy_ops fresh_store = Ret s'
    /\ completed_events_of s' = ["gate opened"]
    /\ world_state_of s' = [("weather", VStr "sun")].
Proof.
  destruct (store_operations_keep_invariants None noon busy_ops fresh_store)
    as (Hnew & Hkeep).
  destruct (Hkeep Hnew) as (s' & Hrun & _).
  exists s'. split; [exact Hrun|].
  vm_compute in Hrun. injection Hrun as <-. split; reflexivity.
Defined.

(** ** Values written and read back *)

Section ValuesReadBack.

Lemma json_dumpable_split (v : pyval) :
  json_dumpable v = negb (contains_enum v) && keys_distinct v.
Proof.
  induction v as [| | | | |l IH|d IH| |] using pyval_nested_ind; try reflexivity.
  - simpl. induction IH as [|x l Hx _ IHl]; [done|].
    simpl. rewrite Hx, IHl.
    destruct (contains_enum x), (keys_distinct x), (existsb contains_enum l); done.
  - simpl. destruct (distinct_keys d); [|by rewrite !andb_false_r].
    rewrite !andb_true_r.
    induction IH as [|[k x] d' Hx _ IHd]; [done|].
    simpl in *. rewrite Hx, IHd.
    destruct (contains_enum x), (keys_distinct x),
      (existsb (fun kv => contains_enum (snd kv)) d'); done.
Qed.

Lemma json_view_fixed (v : pyval) :
  json_view v = v <-> contains_datetime v = false.
Proof.
  induction v as [| | | | |l IH|d IH| |] using pyval_nested_ind;
    try (simpl; split; [reflexivity|reflexivity]); try (simpl; split; discriminate).
  - simpl. split.
    + intros [= Hl]. induction IH as [|x l Hx _ IHl]; [done|].
      simpl in *. injection Hl as Hx' Hl'.
      rewrite (proj1 Hx Hx'). by apply IHl.
    + intros Hl. f_equal. induction IH as [|x l Hx _ IHl]; [done|].
      simpl in *. apply orb_false_elim in Hl as [Hx' Hl'].
      rewrite (proj2 Hx Hx'). f_equal. by apply IHl.
  - simpl. split.
    + intros [= Hd]. induction IH as [|[k x] d' Hx _ IHd]; [done|].
      simpl in *. injection Hd as Hx' Hd'.
      rewrite (proj1 Hx Hx'). by apply IHd.
    + intros Hd. f_equal. induction IH as [|[k x] d' Hx _ IHd]; [done|].
      simpl in *. apply orb_false_elim in Hd as [Hx' Hd'].
      rewrite (proj2 Hx Hx'). f_equal. by apply IHd.
Qed.

End ValuesReadBack.

(** X21.  A value without members of [LLM_Model] is written by
    [json.dump] with the hook of [save_state] and read back by
    [json.load] as the same value with every point in time replaced by
    its ISO text: it comes back unchanged exactly when it holds no point
    in time. *)
Theorem written_values_read_back (v : pyval) :
  contains_enum v = false -> keys_distinct v = true ->
  exists doc,
    json_dump v = Ret doc
    /\ json_load doc = json_view v
    /\ (json_load doc = v <-> contains_datetime v = false).
Proof.
  intros He Hk.
  destruct (json_dump_load v) as (doc & Hdump & Hload).
  { by rewrite json_dumpable_split, He, Hk. }
  exists doc. split; [done|]. split; [done|].
  rewrite Hload. apply json_view_fixed.
Qed.

Lemma written_values_read_back_witness :
  exists doc,
    json_dump (VDict [("deadline", VDatetime noon); ("torches", VList [VInt 3])]) = Ret doc
    /\ json_load doc
       = VDict [("deadline", VStr "2024-05-17T12:00:00"); ("torches", VList [VInt 3])].
Proof.
  destruct (written_values_read_back
              (VDict [("deadline", VDatetime noon); ("torches", VList [VInt 3])]))
    as (doc & Hdump & Hload & _); [reflexivity..|].
  exists doc. split; [exact Hdump|]. rewrite Hload. reflexivity.
Defined.
